(** * deploy.py: capacity-doubling rolling deployment

    A shallow embedding of [deploy.py] and the properties of its
    orchestration: the capacity gate, the doubling, the two bounded
    health-polling loops, the termination-marker bookkeeping and the
    retirement of the old instances.

    The script talks to three boto3 clients (autoscaling, elb, ec2).  The
    clients are the environment: they are modelled by a [Cloud] state, a
    log of the API calls issued, and a clock that only [time.sleep]
    advances.  Whatever the outside world does to the cloud while the
    script sleeps is an arbitrary function [drift], a parameter of the
    orchestration. *)

From Stdlib Require Import ZArith Lia Ascii String.
From stdpp Require Import base option list gmap strings fin_maps fin_sets.

Open Scope string_scope.
Open Scope list_scope.
Open Scope Z_scope.

(** ** Provider data, as the API responses carry it *)

(** One entry of [describe_auto_scaling_instances]['AutoScalingInstances'],
    also used for the members listed in a group description. *)
Record AutoScalingInstance := {
  asi_InstanceId : string;
  asi_AutoScalingGroupName : string;
  asi_LifecycleState : string
}.

(** One entry of [describe_auto_scaling_groups]['AutoScalingGroups']. *)
Record GroupDescription := {
  DesiredCapacity : Z;
  MinSize : Z;
  MaxSize : Z;
  LoadBalancerNames : list string;
  Instances : list AutoScalingInstance;
  SuspendedProcesses : gset string
}.

(** One entry of [describe_instance_health]['InstanceStates']. *)
Record InstanceState := {
  is_InstanceId : string;
  is_State : string
}.

(** One entry of [describe_load_balancers]['LoadBalancerDescriptions']. *)
Record LoadBalancerDescription := {
  LoadBalancerName : string
}.

(** A tag, the dict [{'Key': k, 'Value': v}]. *)
Record Tag := {
  Key : string;
  Value : string
}.

(** One entry of a reservation's ['Instances']. *)
Record Instance := {
  InstanceId : string
}.

(** One entry of [describe_instances]['Reservations']. *)
Record Reservation := {
  res_Instances : list Instance
}.

(** The cloud account the three clients look at. *)
Record Cloud := {
  groups : gmap string GroupDescription;
  fleet : list AutoScalingInstance;
  balancers : gmap string (list InstanceState);
  reservations : list Reservation;
  tags : gmap string (gmap string string);
  terminated : gset string;
  ec2_fault : option string
}.

(** ** Python exceptions and the calls a client receives *)

Inductive exn :=
| SystemExit (code : Z)
| IndexError
| AttributeError
| ClientError (code : string).

Inductive Call :=
| DescribeLoadBalancers (LoadBalancerNames : list string)
| DescribeInstanceHealth (LoadBalancerName : string)
| DescribeAutoScalingGroups (AutoScalingGroupNames : list string) (MaxRecords : nat)
| DescribeAutoScalingInstances (MaxRecords : nat)
| ResumeProcesses (AutoScalingGroupName : string) (ScalingProcesses : list string)
| SuspendProcesses (AutoScalingGroupName : string) (ScalingProcesses : list string)
| SetDesiredCapacity (AutoScalingGroupName : string) (DesiredCapacity : Z) (HonorCooldown : bool)
| CreateTags (DryRun : bool) (Resources : list string) (Tags : list Tag)
| DescribeInstances (DryRun : bool) (FilterName : string) (FilterValues : list string)
| TerminateInstances (DryRun : bool) (InstanceIds : list string).

(** The calls that change the account; the [Describe*] calls only read. *)
Definition mutating (c : Call) : bool :=
  match c with
  | ResumeProcesses _ _ | SuspendProcesses _ _ | SetDesiredCapacity _ _ _
  | CreateTags _ _ _ | TerminateInstances _ _ => true
  | _ => false
  end.

(** ** The monad of the script: state, exceptions, fuel *)

Record World := {
  cloud : Cloud;
  clock : Z;
  calls : list Call
}.

Inductive outcome (A : Type) :=
| Returned (a : A)
| Raised (e : exn)
| Unfinished.
Arguments Returned {A} a.
Arguments Raised {A} e.
Arguments Unfinished {A}.

Definition M (A : Type) : Type := World → outcome A * World.

#[global] Instance M_ret : MRet M := λ A a w, (Returned a, w).

#[global] Instance M_bind : MBind M := λ A B k m w,
  match m w with
  | (Returned a, w') => k a w'
  | (Raised e, w') => (Raised e, w')
  | (Unfinished, w') => (Unfinished, w')
  end.

Definition raise {A} (e : exn) : M A := λ w, (Raised e, w).

Definition out_of_fuel {A} : M A := λ w, (Unfinished, w).

(** [try: body except: handler], the bare [except:] that catches every
    exception. *)
Definition try_except {A} (body handler : M A) : M A := λ w,
  match body w with
  | (Raised _, w') => handler w'
  | r => r
  end.

(** [sys.exit(code)] raises [SystemExit]. *)
Definition sys_exit {A} (code : Z) : M A := raise (SystemExit code).

(** [l[0]] on a Python list. *)
Definition item0 {A} (l : list A) : M A :=
  match l with
  | x :: _ => mret x
  | [] => raise IndexError
  end.

Definition set_cloud (c : Cloud) (w : World) : World :=
  {| cloud := c; clock := clock w; calls := calls w |}.

Definition log_call (c : Call) (w : World) : World :=
  {| cloud := cloud w; clock := clock w; calls := calls w ++ [c] |}.

(** An API call: it is logged, then answered from the cloud, which it may
    change. *)
Definition api {A} (c : Call) (answer : Cloud → outcome A * Cloud) : M A := λ w,
  let '(r, c') := answer (cloud w) in (r, set_cloud c' (log_call c w)).

(** ** The boto3 clients

    What the script assumes of the provider.  A call that names a group or
    a balancer the account does not have is refused; the EC2 endpoint can
    be out of order ([ec2_fault]), which makes each of its calls raise. *)

Module boto.

(** The scaling processes of a group; a call that lists none means all. *)
Definition all_processes : list string :=
  ["Launch"; "Terminate"; "HealthCheck"; "ReplaceUnhealthy"; "AZRebalance";
   "AlarmNotification"; "ScheduledActions"; "AddToLoadBalancer"].

Definition process_set (ScalingProcesses : list string) : gset string :=
  match ScalingProcesses with
  | [] => list_to_set all_processes
  | _ => list_to_set ScalingProcesses
  end.

Definition set_suspended (s : gset string) (g : GroupDescription) : GroupDescription :=
  {| DesiredCapacity := DesiredCapacity g; MinSize := MinSize g; MaxSize := MaxSize g;
     LoadBalancerNames := LoadBalancerNames g; Instances := Instances g;
     SuspendedProcesses := s |}.

Definition set_desired (n : Z) (g : GroupDescription) : GroupDescription :=
  {| DesiredCapacity := n; MinSize := MinSize g; MaxSize := MaxSize g;
     LoadBalancerNames := LoadBalancerNames g; Instances := Instances g;
     SuspendedProcesses := SuspendedProcesses g |}.

Definition set_groups (gs : gmap string GroupDescription) (c : Cloud) : Cloud :=
  {| groups := gs; fleet := fleet c; balancers := balancers c;
     reservations := reservations c; tags := tags c;
     terminated := terminated c; ec2_fault := ec2_fault c |}.

Definition set_tags (ts : gmap string (gmap string string)) (c : Cloud) : Cloud :=
  {| groups := groups c; fleet := fleet c; balancers := balancers c;
     reservations := reservations c; tags := ts;
     terminated := terminated c; ec2_fault := ec2_fault c |}.

Definition set_terminated (t : gset string) (c : Cloud) : Cloud :=
  {| groups := groups c; fleet := fleet c; balancers := balancers c;
     reservations := reservations c; tags := tags c;
     terminated := t; ec2_fault := ec2_fault c |}.

(** *** elb client *)

Definition describe_load_balancers (LoadBalancerNames : list string)
  : M (list LoadBalancerDescription) :=
  api (DescribeLoadBalancers LoadBalancerNames) (λ c,
    if forallb (λ n, bool_decide (is_Some (balancers c !! n))) LoadBalancerNames
    then (Returned (map (λ n, {| LoadBalancerName := n |}) LoadBalancerNames), c)
    else (Raised (ClientError "LoadBalancerNotFound"), c)).

Definition describe_instance_health (LoadBalancerName : string)
  : M (list InstanceState) :=
  api (DescribeInstanceHealth LoadBalancerName) (λ c,
    match balancers c !! LoadBalancerName with
    | Some states => (Returned states, c)
    | None => (Raised (ClientError "LoadBalancerNotFound"), c)
    end).

(** *** autoscaling client *)

Definition describe_auto_scaling_groups (AutoScalingGroupNames : list string)
  (MaxRecords : nat) : M (list GroupDescription) :=
  api (DescribeAutoScalingGroups AutoScalingGroupNames MaxRecords) (λ c,
    (Returned (take MaxRecords (omap (λ n, groups c !! n) AutoScalingGroupNames)), c)).

(** One page of the listing of every instance of every group. *)
Definition describe_auto_scaling_instances (MaxRecords : nat)
  : M (list AutoScalingInstance) :=
  api (DescribeAutoScalingInstances MaxRecords) (λ c,
    (Returned (take MaxRecords (fleet c)), c)).

Definition resume_processes (AutoScalingGroupName : string)
  (ScalingProcesses : list string) : M () :=
  api (ResumeProcesses AutoScalingGroupName ScalingProcesses) (λ c,
    match groups c !! AutoScalingGroupName with
    | Some g =>
        let g' := set_suspended (SuspendedProcesses g ∖ process_set ScalingProcesses) g in
        (Returned (), set_groups (<[AutoScalingGroupName := g']> (groups c)) c)
    | None => (Raised (ClientError "ValidationError"), c)
    end).

Definition suspend_processes (AutoScalingGroupName : string)
  (ScalingProcesses : list string) : M () :=
  api (SuspendProcesses AutoScalingGroupName ScalingProcesses) (λ c,
    match groups c !! AutoScalingGroupName with
    | Some g =>
        let g' := set_suspended (SuspendedProcesses g ∪ process_set ScalingProcesses) g in
        (Returned (), set_groups (<[AutoScalingGroupName := g']> (groups c)) c)
    | None => (Raised (ClientError "ValidationError"), c)
    end).

(** The provider refuses a capacity outside the bounds of the group. *)
Definition set_desired_capacity (AutoScalingGroupName : string)
  (DesiredCapacity : Z) (HonorCooldown : bool) : M () :=
  api (SetDesiredCapacity AutoScalingGroupName DesiredCapacity HonorCooldown) (λ c,
    match groups c !! AutoScalingGroupName with
    | Some g =>
        if bool_decide (MinSize g ≤ DesiredCapacity ≤ MaxSize g)
        then (Returned (),
              set_groups (<[AutoScalingGroupName := set_desired DesiredCapacity g]> (groups c)) c)
        else (Raised (ClientError "ValidationError"), c)
    | None => (Raised (ClientError "ValidationError"), c)
    end).

(** *** ec2 client *)

(** Guards common to the EC2 calls: an outage, or a dry run, which the
    provider answers with an error and no effect. *)
Definition ec2_call {A} (DryRun : bool) (answer : Cloud → outcome A * Cloud)
  : Cloud → outcome A * Cloud := λ c,
  match ec2_fault c with
  | Some code => (Raised (ClientError code), c)
  | None =>
      if DryRun then (Raised (ClientError "DryRunOperation"), c) else answer c
  end.

(** The tags of a request as a map; a new value replaces the old one of
    the same key and the other keys of the instance are kept. *)
Definition tag_map (Tags : list Tag) : gmap string string :=
  list_to_map (map (λ t, (Key t, Value t)) Tags).

Definition tag_resource (Tags : list Tag) (id : string)
  (ts : gmap string (gmap string string)) : gmap string (gmap string string) :=
  <[id := tag_map Tags ∪ default ∅ (ts !! id)]> ts.

(** [Resources] is a required, non-empty parameter: the provider refuses
    a request that lists no resource, and tags nothing. *)
Definition create_tags (DryRun : bool) (Resources : list string)
  (Tags : list Tag) : M () :=
  api (CreateTags DryRun Resources Tags) (ec2_call DryRun (λ c,
    match Resources with
    | [] => (Raised (ClientError "MissingParameter"), c)
    | _ :: _ =>
        (Returned (), set_tags (foldr (tag_resource Tags) (tags c) Resources) c)
    end)).

(** The key of a [tag:KEY] filter. *)
Definition tag_filter_key (FilterName : string) : option string :=
  match FilterName with
  | String "t"%char (String "a"%char (String "g"%char (String ":"%char k))) => Some k
  | _ => None
  end.

Definition has_tag (c : Cloud) (k : string) (vs : list string) (id : string) : bool :=
  match tags c !! id ≫= (λ ts, ts !! k) with
  | Some v => bool_decide (v ∈ vs)
  | None => false
  end.

(** The reservations with a matching instance, each with its matching
    instances only. *)
Definition matching_reservations (c : Cloud) (k : string) (vs : list string)
  : list Reservation :=
  filter (λ r, res_Instances r ≠ [])
    (map (λ r, {| res_Instances := filter (λ i, has_tag c k vs (InstanceId i) = true) (res_Instances r) |})
         (reservations c)).

Definition describe_instances (DryRun : bool) (FilterName : string)
  (FilterValues : list string) : M (list Reservation) :=
  api (DescribeInstances DryRun FilterName FilterValues) (ec2_call DryRun (λ c,
    match tag_filter_key FilterName with
    | Some k => (Returned (matching_reservations c k FilterValues), c)
    | None => (Raised (ClientError "InvalidParameterValue"), c)
    end)).

Definition terminate_instances (DryRun : bool) (InstanceIds : list string)
  : M (list string) :=
  api (TerminateInstances DryRun InstanceIds) (ec2_call DryRun (λ c,
    (Returned InstanceIds, set_terminated (terminated c ∪ list_to_set InstanceIds) c))).

End boto.

(** ** The classes of deploy.py

    A method that refreshes [self.details] returns the object it leaves
    behind next to its result.  The [logging] calls have no effect on the
    run and are left out. *)

Module ElasticLoadBalancer.

Record t := {
  name : string;
  details : option LoadBalancerDescription
}.

Definition _update_details (self : t) : M t :=
  r ← boto.describe_load_balancers [name self];
  d ← item0 r;
  mret {| name := name self; details := Some d |}.

Definition __init__ (name : string) : M t :=
  _update_details {| name := name; details := None |}.

Definition get_instance_health (self : t) : M (list InstanceState) :=
  boto.describe_instance_health (name self).

Definition get_total_instance_count (self : t) : M Z :=
  r ← get_instance_health self;
  mret (Z.of_nat (length r)).

Definition get_healthy_instance_count (self : t) : M Z :=
  r ← get_instance_health self;
  mret (foldl (λ healthy_instance_count i,
                 if decide (is_State i = "InService")
                 then healthy_instance_count + 1
                 else healthy_instance_count) 0 r).

End ElasticLoadBalancer.

Module AutoScalingGroup.

Record t := {
  processes : list string;
  name : string;
  details : option GroupDescription
}.

Definition _update_details (self : t) : M t :=
  r ← boto.describe_auto_scaling_groups [name self] 1;
  d ← item0 r;
  mret {| processes := processes self; name := name self; details := Some d |}.

Definition __init__ (name : string) : M t :=
  _update_details {| processes := ["AlarmNotification"]; name := name; details := None |}.

(** Reading [self.details]. *)
Definition get_details (self : t) : M GroupDescription :=
  match details self with
  | Some d => mret d
  | None => raise AttributeError
  end.

Definition resume_processes (self : t) : M () :=
  boto.resume_processes (name self) (processes self).

Definition suspend_processes (self : t) : M () :=
  boto.suspend_processes (name self) (processes self).

Definition get_desired_capacity (self : t) : M (Z * t) :=
  self ← _update_details self;
  d ← get_details self;
  let desired_capacity := DesiredCapacity d in
  mret (desired_capacity, self).

Definition get_new_desired_capacity (self : t) : M (Z * t) :=
  self ← _update_details self;
  d ← get_details self;
  let desired_capacity := DesiredCapacity d in
  let new_desired_capacity := 2 * desired_capacity in
  mret (new_desired_capacity, self).

Definition get_max_capacity (self : t) : M (Z * t) :=
  self ← _update_details self;
  d ← get_details self;
  let max_capacity := MaxSize d in
  mret (max_capacity, self).

Definition has_enough_capacity (self : t) : M (bool * t) :=
  '(new, self) ← get_new_desired_capacity self;
  '(max, self) ← get_max_capacity self;
  mret (new <=? max, self).

Definition get_load_balancer_name (self : t) : M (string * t) :=
  self ← _update_details self;
  d ← get_details self;
  load_balancer_name ← item0 (LoadBalancerNames d);
  mret (load_balancer_name, self).

Definition get_instance_ids (self : t) : M (list string * t) :=
  self ← _update_details self;
  d ← get_details self;
  let instance_ids := map asi_InstanceId (Instances d) in
  mret (instance_ids, self).

Definition get_healthy_instance_count (self : t) : M Z :=
  response ← boto.describe_auto_scaling_instances 50;
  mret (foldl (λ healthy_instance_count i,
                 if decide (asi_LifecycleState i = "InService")
                 then healthy_instance_count + 1
                 else healthy_instance_count) 0 response).

Definition set_desired_capacity (self : t) (new_desired_capacity : Z) : M () :=
  boto.set_desired_capacity (name self) new_desired_capacity false.

Definition double_in_size (self : t) : M t :=
  '(new_desired_capacity, self) ← get_new_desired_capacity self;
  set_desired_capacity self new_desired_capacity;;
  mret self.

End AutoScalingGroup.

Module EC2.

Record t := {
  _termination_tag : Tag
}.

Definition __init__ : t :=
  {| _termination_tag := {| Key := "Terminate-After-Deploy"; Value := "true" |} |}.

Definition tag_instances (self : t) (instance_ids : list string) (tags : list Tag) : M () :=
  boto.create_tags false instance_ids tags.

Definition mark_instances_for_termination (self : t) (instance_ids : list string) : M () :=
  tag_instances self instance_ids [_termination_tag self].

Definition get_instances_marked_for_termination (self : t) : M (list string) :=
  try_except
    (r ← boto.describe_instances false
           ("tag:" +:+ Key (_termination_tag self))
           [Value (_termination_tag self)];
     first ← item0 r;
     let response := res_Instances first in
     mret (map InstanceId response))
    (mret []).

(** The result is the response of the provider, or [None] when nothing
    was asked. *)
Definition terminate_instances (self : t) (instance_ids : list string)
  : M (option (list string)) :=
  if bool_decide (instance_ids ≠ []) && (Z.of_nat (length instance_ids) >? 0)
  then response ← boto.terminate_instances false instance_ids;
       mret (Some response)
  else mret None.

End EC2.

(** ** deploy *)

Section Deploy.

(** What the rest of the world does to the account during a sleep that
    ends at the given time. *)
Variable drift : Z → Cloud → Cloud.

(** The world [secs] later. *)
Definition asleep (secs : Z) (w : World) : World :=
  {| cloud := drift (clock w + secs) (cloud w);
     clock := clock w + secs;
     calls := calls w |}.

(** [time.sleep(secs)] *)
Definition sleep (secs : Z) : M () := λ w, (Returned (), asleep secs w).

(** The polling loop of lines 233-244 and 250-261, entered with the
    count read just before it:
<<
    while current < current_desired_capacity:
        time.sleep(30)
        time_spent_waiting += 30
        if time_spent_waiting >= 900:
            sys.exit(5)
        current = get_healthy_instance_count()
>>
    [fuel] bounds the number of iterations. *)
Fixpoint wait_until_healthy (fuel : nat) (get_healthy_instance_count : M Z)
  (current_desired_capacity time_spent_waiting current : Z) : M Z :=
  if current <? current_desired_capacity then
    match fuel with
    | O => out_of_fuel
    | S fuel =>
        sleep 30;;
        let time_spent_waiting := time_spent_waiting + 30 in
        if time_spent_waiting >=? 900 then sys_exit 5
        else
          current ← get_healthy_instance_count;
          wait_until_healthy fuel get_healthy_instance_count
            current_desired_capacity time_spent_waiting current
    end
  else mret current.

(** Lines 202-212: the objects, and the capacity gate. *)
Definition deploy_preflight (auto_scaling_group_name : string)
  : M (AutoScalingGroup.t * EC2.t * ElasticLoadBalancer.t) :=
  asg ← AutoScalingGroup.__init__ auto_scaling_group_name;
  let ec2 := EC2.__init__ in
  '(elb_name, asg) ← AutoScalingGroup.get_load_balancer_name asg;
  elb ← ElasticLoadBalancer.__init__ elb_name;
  '(enough, asg) ← AutoScalingGroup.has_enough_capacity asg;
  if negb enough then sys_exit 4
  else mret (asg, ec2, elb).

(** Lines 214-227: mark, suspend, double, and read the target back. *)
Definition deploy_double (asg : AutoScalingGroup.t) (ec2 : EC2.t)
  : M (Z * Z * AutoScalingGroup.t) :=
  '(original_desired_capacity, asg) ← AutoScalingGroup.get_desired_capacity asg;
  '(existing_instances, asg) ← AutoScalingGroup.get_instance_ids asg;
  EC2.mark_instances_for_termination ec2 existing_instances;;
  AutoScalingGroup.suspend_processes asg;;
  asg ← AutoScalingGroup.double_in_size asg;
  '(current_desired_capacity, asg) ← AutoScalingGroup.get_desired_capacity asg;
  mret (original_desired_capacity, current_desired_capacity, asg).

(** Lines 229-244: wait for the group to see the instances healthy. *)
Definition deploy_await_asg (fuel : nat) (asg : AutoScalingGroup.t)
  (current_desired_capacity : Z) : M Z :=
  let time_spent_waiting := 0 in
  current_asg_healhty_instances ← AutoScalingGroup.get_healthy_instance_count asg;
  wait_until_healthy fuel (AutoScalingGroup.get_healthy_instance_count asg)
    current_desired_capacity time_spent_waiting current_asg_healhty_instances.

(** Lines 246-261: wait for the balancer to see the instances healthy. *)
Definition deploy_await_elb (fuel : nat) (elb : ElasticLoadBalancer.t)
  (current_desired_capacity : Z) : M Z :=
  let time_spent_waiting := 0 in
  current_elb_healthy_instances ← ElasticLoadBalancer.get_healthy_instance_count elb;
  wait_until_healthy fuel (ElasticLoadBalancer.get_healthy_instance_count elb)
    current_desired_capacity time_spent_waiting current_elb_healthy_instances.

(** Lines 273-286: terminate the marked instances, restore the capacity,
    resume the processes. *)
Definition deploy_retire (asg : AutoScalingGroup.t) (ec2 : EC2.t)
  (original_desired_capacity : Z) : M () :=
  instances_to_terminate ← EC2.get_instances_marked_for_termination ec2;
  EC2.terminate_instances ec2 instances_to_terminate;;
  AutoScalingGroup.set_desired_capacity asg original_desired_capacity;;
  AutoScalingGroup.resume_processes asg.

Definition deploy (fuel : nat) (auto_scaling_group_name : string) : M () :=
  '(asg, ec2, elb) ← deploy_preflight auto_scaling_group_name;
  '(original_desired_capacity, current_desired_capacity, asg) ← deploy_double asg ec2;
  deploy_await_asg fuel asg current_desired_capacity;;
  deploy_await_elb fuel elb current_desired_capacity;;
  deploy_retire asg ec2 original_desired_capacity.

End Deploy.

(** ** Notions the properties are stated with *)

(** The object a method leaves behind once it has refreshed the details. *)
Definition refreshed (self : AutoScalingGroup.t) (g : GroupDescription) : AutoScalingGroup.t :=
  {| AutoScalingGroup.processes := AutoScalingGroup.processes self;
     AutoScalingGroup.name := AutoScalingGroup.name self;
     AutoScalingGroup.details := Some g |}.

(** The calls behind [_update_details], the two health counts and the
    marker query. *)
Definition group_query (self : AutoScalingGroup.t) : Call :=
  DescribeAutoScalingGroups [AutoScalingGroup.name self] 1.

Definition health_query (elb : ElasticLoadBalancer.t) : Call :=
  DescribeInstanceHealth (ElasticLoadBalancer.name elb).

Definition marker_query (self : EC2.t) : Call :=
  DescribeInstances false ("tag:" +:+ Key (EC2._termination_tag self))
    [Value (EC2._termination_tag self)].

(** What a method does that refreshes the details and reads [f] of them. *)
Definition read_group {A} (self : AutoScalingGroup.t) (f : GroupDescription → outcome A)
  : M (A * AutoScalingGroup.t) := λ w,
  (match groups (cloud w) !! AutoScalingGroup.name self with
   | Some g =>
       match f g with
       | Returned a => Returned (a, refreshed self g)
       | Raised e => Raised e
       | Unfinished => Unfinished
       end
   | None => Raised IndexError
   end, log_call (group_query self) w).

(** The reservations the marker query answers with, the instances that
    carry the marker, and the set of marked ids. *)
Definition marked_reservations (self : EC2.t) (c : Cloud) : list Reservation :=
  boto.matching_reservations c (Key (EC2._termination_tag self))
    [Value (EC2._termination_tag self)].

Definition carries_marker (self : EC2.t) (c : Cloud) (id : string) : bool :=
  boto.has_tag c (Key (EC2._termination_tag self)) [Value (EC2._termination_tag self)] id.

Definition marked (self : EC2.t) (c : Cloud) : gset string :=
  dom (filter (λ kv, kv.2 !! Key (EC2._termination_tag self)
                     = Some (Value (EC2._termination_tag self))) (tags c)).

(** The settings of a group that the deployment changes. *)
Definition desired (n : string) (c : Cloud) : option Z :=
  DesiredCapacity <$> groups c !! n.

Definition suspended (n : string) (c : Cloud) : gset string :=
  from_option SuspendedProcesses ∅ (groups c !! n).

Definition settings (n : string) (c : Cloud) : option Z * gset string * gset string :=
  (desired n c, suspended n c, terminated c).

(** The instances in service in a listing of the scaling service and of a
    balancer. *)
Definition in_service (l : list AutoScalingInstance) : Z :=
  Z.of_nat (length (filter (λ i, asi_LifecycleState i = "InService") l)).

Definition registered_in_service (l : list InstanceState) : Z :=
  Z.of_nat (length (filter (λ i, is_State i = "InService") l)).

(** The count a poll reads in a cloud, when the read succeeds. *)
Definition asg_count (c : Cloud) : option Z :=
  Some (in_service (take 50 (fleet c))).

Definition elb_count (elb : ElasticLoadBalancer.t) (c : Cloud) : option Z :=
  registered_in_service <$> balancers c !! ElasticLoadBalancer.name elb.

(** A log of reading calls only. *)
Definition read_only (log : list Call) : Prop :=
  Forall (λ c, mutating c = false) log.

(** The worlds a polling phase can reach: it repeats one reading call and
    sleeps in between. *)
Inductive polled (drift : Z → Cloud → Cloud) (c : Call) : World → World → Prop :=
| polled_done w : polled drift c w w
| polled_read w w' : polled drift c (log_call c w) w' → polled drift c w w'
| polled_sleep w w' : polled drift c (asleep drift 30 w) w' → polled drift c w w'.

(** The cloud after [k] sleeps of 30 that started at time [t0]. *)
Fixpoint drifted (drift : Z → Cloud → Cloud) (t0 : Z) (k : nat) (c : Cloud) : Cloud :=
  match k with
  | O => c
  | S k' => drift (t0 + 30 * Z.of_nat k) (drifted drift t0 k' c)
  end.

(** None of the thirty polls of a phase entered in [w] sees [target]
    healthy instances. *)
Definition never_healthy (drift : Z → Cloud → Cloud) (count : Cloud → option Z)
    (target : Z) (w : World) : Prop :=
  ∀ k, (k < 30)%nat →
    ∃ v, count (drifted drift (clock w) k (cloud w)) = Some v ∧ v < target.

(** How a polling phase entered in [before] may end: with enough healthy
    instances before the ceiling, with exit code 5 once the wait has
    reached 900 and at most one interval more, or with an error of the
    provider before the ceiling. *)
Definition bounded_wait (target : Z) (before : World) (r : outcome Z * World) : Prop :=
  let waited := clock (snd r) - clock before in
  match fst r with
  | Returned healthy => target ≤ healthy ∧ 0 ≤ waited < 900
  | Raised (SystemExit code) => code = 5 ∧ 900 ≤ waited ≤ 900 + 30
  | Raised _ => 0 ≤ waited < 900
  | Unfinished => False
  end.

(** A count read that takes no time, always answers and never exits. *)
Definition instant_read (get : M Z) : Prop :=
  ∀ w, clock (snd (get w)) = clock w ∧
       fst (get w) ≠ Unfinished ∧
       ∀ code, fst (get w) ≠ Raised (SystemExit code).

(** A computation that returns or raises an error of the provider or of
    a lookup: it neither exits nor runs out of fuel. *)
Definition plain_outcome {A} (o : outcome A) : Prop :=
  match o with
  | Returned _ => True
  | Raised (SystemExit _) => False
  | Raised _ => True
  | Unfinished => False
  end.

Definition plain {A} (m : M A) : Prop := ∀ w, plain_outcome (fst (m w)).

(** ** A small account to run the deployment on *)

Module Scenario.

Definition member (id state : string) : AutoScalingInstance :=
  {| asi_InstanceId := id; asi_AutoScalingGroupName := "web";
     asi_LifecycleState := state |}.

Definition registered (id state : string) : InstanceState :=
  {| is_InstanceId := id; is_State := state |}.

(** The group [web]: two instances in service behind the balancer [lb]. *)
Definition web (desired_capacity max_size : Z) : GroupDescription :=
  {| DesiredCapacity := desired_capacity; MinSize := 1; MaxSize := max_size;
     LoadBalancerNames := ["lb"];
     Instances := [member "i-1" "InService"; member "i-2" "InService"];
     SuspendedProcesses := ∅ |}.

Definition account (desired_capacity max_size : Z) (rs : list Reservation) : Cloud :=
  {| groups := {[ "web" := web desired_capacity max_size ]};
     fleet := [member "i-1" "InService"; member "i-2" "InService"];
     balancers :=
       {[ "lb" := [registered "i-1" "InService"; registered "i-2" "InService"] ]};
     reservations := rs;
     tags := ∅;
     terminated := ∅;
     ec2_fault := None |}.

(** The two instances launched in one reservation, or in one each. *)
Definition together : list Reservation :=
  [{| res_Instances := [{| InstanceId := "i-1" |}; {| InstanceId := "i-2" |}] |}].

Definition apart : list Reservation :=
  [{| res_Instances := [{| InstanceId := "i-1" |}] |};
   {| res_Instances := [{| InstanceId := "i-2" |}] |}].

Definition start (c : Cloud) : World := {| cloud := c; clock := 0; calls := [] |}.

(** Nothing happens while the script sleeps. *)
Definition still : Z → Cloud → Cloud := λ _ c, c.

(** One minute in, two new instances are in service, in the group and in
    the balancer. *)
Definition launch : Z → Cloud → Cloud := λ t c,
  if t =? 60 then
    {| groups := groups c;
       fleet := fleet c ++ [member "i-3" "InService"; member "i-4" "InService"];
       balancers :=
         (λ l : list InstanceState,
            l ++ [registered "i-3" "InService"; registered "i-4" "InService"])
         <$> balancers c;
       reservations := reservations c; tags := tags c;
       terminated := terminated c; ec2_fault := ec2_fault c |}
  else c.

(** Fifty-one instances in service. *)
Definition crowded : Cloud :=
  {| groups := {[ "web" := web 2 10 ]};
     fleet := replicate 51 (member "i" "InService");
     balancers := ∅; reservations := []; tags := ∅; terminated := ∅;
     ec2_fault := None |}.

(** The objects of a deployment of [web], before and after the doubling. *)
Definition asg : AutoScalingGroup.t :=
  {| AutoScalingGroup.processes := ["AlarmNotification"];
     AutoScalingGroup.name := "web";
     AutoScalingGroup.details := Some (web 2 10) |}.

Definition asg_doubled : AutoScalingGroup.t :=
  {| AutoScalingGroup.processes := ["AlarmNotification"];
     AutoScalingGroup.name := "web";
     AutoScalingGroup.details :=
       Some {| DesiredCapacity := 4; MinSize := 1; MaxSize := 10;
               LoadBalancerNames := ["lb"];
               Instances := [member "i-1" "InService"; member "i-2" "InService"];
               SuspendedProcesses := {["AlarmNotification"]} |} |}.

Definition elb : ElasticLoadBalancer.t :=
  {| ElasticLoadBalancer.name := "lb";
     ElasticLoadBalancer.details := Some {| LoadBalancerName := "lb" |} |}.

(** The worlds after the preflight and after the doubling. *)
Definition prepared : World :=
  Eval vm_compute in snd (deploy_preflight "web" (start (account 2 10 together))).

Definition doubled : World :=
  Eval vm_compute in snd (deploy_double asg EC2.__init__ prepared).

End Scenario.

(** ** main and setup_clients

    [parse_arguments] and [setup_logging] are argparse and logging calls;
    what the first returns is taken from the machine, the second has no
    effect on the run. *)

(** The namespace [parse_arguments] returns. *)
Record Arguments := {
  debug : bool;
  profile : string;
  region : string;
  application : string;
  config : string
}.

(** The machine the script runs on, as far as [main] and [setup_clients]
    look at it: what [argparse] makes of the command line (a namespace, or
    an exit code), whether [config.read] of a path raises and with which
    class of exception, what [config.get] answers for a path, a section and
    an option (a value, or a class of exception), whether [boto3] can be
    imported, and whether opening the session and its clients for a
    profile and a region raises.  The exceptions of ConfigParser are
    [Exception]s, which [except Exception] catches. *)
Record Host := {
  host_parse_arguments : Z + Arguments;
  host_config_read : string → option string;
  host_config_get : string → string → string → string + string;
  host_boto3_importable : bool;
  host_session : string → string → option string
}.

(** How the script ends. *)
Inductive ending :=
| Completed
| Exited (code : Z)
| NameError (name : string)
| HostError (class : string)
| DeployError (e : exn)
| OutOfFuel.

(** Lines 187-198.  The clients stand for the account that the world
    holds; building them takes no provider call. *)
Definition setup_clients (host : Host) (profile_name region_name : string)
  : ending + unit :=
  if host_boto3_importable host then
    match host_session host profile_name region_name with
    | Some class => inl (HostError class)
    | None => inr ()
    end
  else inl (Exited 3).

Definition deploy_ending (o : outcome ()) : ending :=
  match o with
  | Returned _ => Completed
  | Raised (SystemExit code) => Exited code
  | Raised e => DeployError e
  | Unfinished => OutOfFuel
  end.

(** The status the interpreter ends the process with: the argument of
    [sys.exit], 0 when the script runs to its end, and 1, after a
    traceback, for an exception that nothing catches. *)
Definition process_status (e : ending) : option Z :=
  match e with
  | Completed => Some 0
  | Exited code => Some code
  | NameError _ | HostError _ | DeployError _ => Some 1
  | OutOfFuel => None
  end.

(** Lines 333-364.  The handler of the first [try] evaluates the name
    [configuration_filename], which nothing defines, before it gets to
    [sys.exit(1)]. *)
Definition main (host : Host) (drift : Z → Cloud → Cloud) (fuel : nat)
  : World → ending * World := λ w,
  (* arguments = parse_arguments() *)
  match host_parse_arguments host with
  | inl code => (Exited code, w)
  | inr arguments =>
      (* try: config.read(arguments.config) *)
      match host_config_read host (config arguments) with
      | Some _ =>
          (* except Exception as e: logging.error(..., configuration_filename, e) *)
          (NameError "configuration_filename", w)
      | None =>
          (* try: auto_scaling_group = config.get(arguments.application, ...) *)
          match host_config_get host (config arguments) (application arguments)
                  "auto_scaling_group" with
          | inl _ =>
              (* except Exception as e: sys.exit(2) *)
              (Exited 2, w)
          | inr auto_scaling_group =>
              match setup_clients host (profile arguments) (region arguments) with
              | inl e => (e, w)
              | inr _ =>
                  let '(o, w') := deploy drift fuel auto_scaling_group w in
                  (deploy_ending o, w')
              end
          end
      end
  end.

(** ** Further notions *)

(** The value an instance has for a tag key. *)
Definition tag_value (c : Cloud) (id k : string) : option string :=
  tags c !! id ≫= (λ ts, ts !! k).

(** The ids the Retire step asks to terminate in a cloud. *)
Definition first_marked (self : EC2.t) (c : Cloud) : list string :=
  match ec2_fault c with
  | Some _ => []
  | None =>
      match marked_reservations self c with
      | [] => []
      | first :: _ => map InstanceId (res_Instances first)
      end
  end.

(** The poll number [k] of a phase entered in [w] is the first to see
    [target] healthy instances, and it sees [v]. *)
Definition first_healthy (drift : Z → Cloud → Cloud) (count : Cloud → option Z)
    (target : Z) (w : World) (k : nat) (v : Z) : Prop :=
  (∀ i, (i < k)%nat →
     ∃ u, count (drifted drift (clock w) i (cloud w)) = Some u ∧ u < target) ∧
  count (drifted drift (clock w) k (cloud w)) = Some v ∧
  target ≤ v.

(** The world in which a polling phase entered in [w] returns at its poll
    number [k]: [k] sleeps of 30 later, having asked [q] once per poll. *)
Definition at_poll (drift : Z → Cloud → Cloud) (w : World) (k : nat) (q : Call) : World :=
  {| cloud := drifted drift (clock w) k (cloud w);
     clock := clock w + 30 * Z.of_nat k;
     calls := calls w ++ replicate (S k) q |}.

(** The world in which a polling phase entered in [w] gives up: thirty
    sleeps of 30 later, having asked [q] at each of its thirty polls. *)
Definition timed_out (drift : Z → Cloud → Cloud) (w : World) (q : Call) : World :=
  {| cloud := drifted drift (clock w) 30 (cloud w);
     clock := clock w + 900;
     calls := calls w ++ replicate 30 q |}.

(** The changes a complete deployment of the group [n] asks for, in
    order: tag the members, suspend, double, terminate [ids] when there are
    any, restore, resume. *)
Definition retirement (n : string) (procs : list string) (orig : Z) (ids : list string)
  : list Call :=
  match ids with [] => [] | _ => [TerminateInstances false ids] end ++
  [SetDesiredCapacity n orig false; ResumeProcesses n procs].

Definition protocol (n : string) (members : list string) (orig : Z) (ids : list string)
  : list Call :=
  [CreateTags false members [EC2._termination_tag EC2.__init__];
   SuspendProcesses n ["AlarmNotification"];
   SetDesiredCapacity n (2 * orig) false] ++
  retirement n ["AlarmNotification"] orig ids.

Definition changes (log : list Call) : list Call :=
  filter (λ c, mutating c = true) log.

(** The objects the preflight builds for the group [n] described by [g]
    and its balancer [lb], and the calls it takes. *)
Definition asg_object (n : string) (g : GroupDescription) : AutoScalingGroup.t :=
  {| AutoScalingGroup.processes := ["AlarmNotification"];
     AutoScalingGroup.name := n;
     AutoScalingGroup.details := Some g |}.

Definition elb_object (lb : string) : ElasticLoadBalancer.t :=
  {| ElasticLoadBalancer.name := lb;
     ElasticLoadBalancer.details := Some {| LoadBalancerName := lb |} |}.

Definition preflight_calls (n lb : string) : list Call :=
  [DescribeAutoScalingGroups [n] 1; DescribeAutoScalingGroups [n] 1;
   DescribeLoadBalancers [lb];
   DescribeAutoScalingGroups [n] 1; DescribeAutoScalingGroups [n] 1].

(** The part of the account that the health of the instances is not. *)
Definition account_state (c : Cloud) :=
  (groups c, reservations c, tags c, terminated c, ec2_fault c).

(** While the script sleeps only the health listings change. *)
Definition health_only (drift : Z → Cloud → Cloud) : Prop :=
  ∀ t c, account_state (drift t c) = account_state c.

(** ** More accounts and a machine *)

Module Cases.

(** The account of the scenarios with the EC2 endpoint out of order. *)
Definition outage : Cloud :=
  let c := Scenario.account 2 10 Scenario.together in
  {| groups := groups c; fleet := fleet c; balancers := balancers c;
     reservations := reservations c; tags := tags c; terminated := terminated c;
     ec2_fault := Some "RequestLimitExceeded" |}.

(** One minute in, two new instances are in service in the group, and
    the balancer never gets to see them. *)
Definition fleet_only : Z → Cloud → Cloud := λ t c,
  if t =? 60 then
    {| groups := groups c;
       fleet := fleet c ++ [Scenario.member "i-3" "InService";
                            Scenario.member "i-4" "InService"];
       balancers := balancers c;
       reservations := reservations c; tags := tags c;
       terminated := terminated c; ec2_fault := ec2_fault c |}
  else c.

Definition arguments : Arguments :=
  {| debug := false; profile := "ec2"; region := "eu-west-1";
     application := "shop"; config := "deploy.ini" |}.

(** A machine with boto3, whose configuration file names the group [web]
    for the application [shop]. *)
Definition machine : Host :=
  {| host_parse_arguments := inr arguments;
     host_config_read := λ _, None;
     host_config_get := λ path section option,
       if bool_decide (path = "deploy.ini" ∧ section = "shop" ∧
                       option = "auto_scaling_group")
       then inr "web" else inl "NoSectionError";
     host_boto3_importable := true;
     host_session := λ _ _, None |}.

(** The same machine with a configuration file that does not parse. *)
Definition machine_bad_config : Host :=
  {| host_parse_arguments := inr arguments;
     host_config_read := λ _, Some "MissingSectionHeaderError";
     host_config_get := host_config_get machine;
     host_boto3_importable := true;
     host_session := λ _ _, None |}.

End Cases.

(** * Properties *)

(** ** Running the monad *)

Lemma bind_run {A B} (m : M A) (k : A → M B) (w : World) :
  (m ≫= k) w =
  match m w with
  | (Returned a, w') => k a w'
  | (Raised e, w') => (Raised e, w')
  | (Unfinished, w') => (Unfinished, w')
  end.
Proof. reflexivity. Qed.

Lemma ret_run {A} (a : A) (w : World) : (mret a : M A) w = (Returned a, w).
Proof. reflexivity. Qed.

Lemma try_except_raised {A} (body handler : M A) w e w' :
  body w = (Raised e, w') → try_except body handler w = handler w'.
Proof. unfold try_except. by intros ->. Qed.

(** ** The termination marker (class EC2) *)

Lemma tag_filter_key_tag k : boto.tag_filter_key ("tag:" +:+ k) = Some k.
Proof. reflexivity. Qed.

Lemma get_instances_marked_for_termination_run self w :
  EC2.get_instances_marked_for_termination self w =
  (Returned
     match ec2_fault (cloud w) with
     | Some _ => []
     | None =>
         match marked_reservations self (cloud w) with
         | [] => []
         | first :: _ => map InstanceId (res_Instances first)
         end
     end,
   log_call (marker_query self) w).
Proof.
  unfold EC2.get_instances_marked_for_termination, try_except.
  rewrite bind_run. unfold boto.describe_instances, api, boto.ec2_call.
  destruct (ec2_fault (cloud w)) as [code|]; [reflexivity|].
  rewrite tag_filter_key_tag. unfold marked_reservations.
  destruct (boto.matching_reservations _ _ _) as [|r rs]; reflexivity.
Qed.

(** C6: the marker query answers with the instances of the first
    reservation of the response only, and with the empty list when the
    call raises, whatever the error, or when the response has no
    reservation.  In the account where the two marked instances were
    launched in a reservation each, a complete deployment terminates the
    first and leaves the second, which carries the marker, running. *)
Theorem marked_query_first_reservation_only :
  (∀ (self : EC2.t) (w : World),
     EC2.get_instances_marked_for_termination self w =
     (Returned
        match ec2_fault (cloud w) with
        | Some _ => []
        | None =>
            match marked_reservations self (cloud w) with
            | [] => []
            | first :: _ => map InstanceId (res_Instances first)
            end
        end,
      log_call (marker_query self) w)) ∧
  (let r := deploy Scenario.launch 30 "web"
              (Scenario.start (Scenario.account 2 10 Scenario.apart)) in
   fst r = Returned () ∧
   carries_marker EC2.__init__ (cloud (snd r)) "i-1" = true ∧
   carries_marker EC2.__init__ (cloud (snd r)) "i-2" = true ∧
   terminated (cloud (snd r)) = {["i-1"]}).
Proof.
  split.
  - apply get_instances_marked_for_termination_run.
  - vm_compute. repeat split; reflexivity.
Qed.

(** C7: the marker query never raises; when no reservation matches the
    tag filter it returns the empty list. *)
Theorem marked_query_never_raises (self : EC2.t) (w : World) :
  (∃ ids, fst (EC2.get_instances_marked_for_termination self w) = Returned ids) ∧
  (marked_reservations self (cloud w) = [] →
   fst (EC2.get_instances_marked_for_termination self w) = Returned []).
Proof.
  rewrite get_instances_marked_for_termination_run. cbn [fst]. split.
  - eauto.
  - intros ->. by destruct (ec2_fault _).
Qed.

Lemma marked_query_never_raises_witness :
  fst (EC2.get_instances_marked_for_termination EC2.__init__
         (Scenario.start (Scenario.account 2 10 Scenario.together)))
  = Returned [].
Proof.
  apply (proj2 (marked_query_never_raises EC2.__init__
                  (Scenario.start (Scenario.account 2 10 Scenario.together)))).
  reflexivity.
Defined.

Lemma terminate_instances_nil self w :
  EC2.terminate_instances self [] w = (Returned None, w).
Proof. reflexivity. Qed.

Lemma terminate_instances_cons self id ids w :
  EC2.terminate_instances self (id :: ids) w =
  (boto.terminate_instances false (id :: ids) ≫= λ response, mret (Some response)) w.
Proof.
  unfold EC2.terminate_instances.
  rewrite bool_decide_eq_true_2 by done.
  replace (Z.of_nat (length (id :: ids)) >? 0) with true; [done|].
  symmetry. apply Z.gtb_lt. rewrite length_cons. lia.
Qed.

(** C8: on the empty list [terminate_instances] returns at once, the world
    and its log of calls untouched; on a non-empty list it issues the one
    call [TerminateInstances] with exactly the ids it was given, which the
    provider, unless it is out of order, carries out on those ids. *)
Theorem terminate_empty_or_exact (self : EC2.t) (w : World) (ids : list string) :
  EC2.terminate_instances self [] w = (Returned None, w) ∧
  (ids ≠ [] →
   calls (snd (EC2.terminate_instances self ids w)) =
     calls w ++ [TerminateInstances false ids] ∧
   (ec2_fault (cloud w) = None →
    fst (EC2.terminate_instances self ids w) = Returned (Some ids) ∧
    terminated (cloud (snd (EC2.terminate_instances self ids w))) =
      terminated (cloud w) ∪ list_to_set ids)).
Proof.
  split; [apply terminate_instances_nil|].
  destruct ids as [|id ids]; [done|]. intros _.
  rewrite terminate_instances_cons, bind_run.
  unfold boto.terminate_instances, api, boto.ec2_call.
  destruct (ec2_fault (cloud w)) as [code|]; cbn; [split; [done|discriminate]|].
  split; [done|]. intros _. done.
Qed.

Lemma terminate_empty_or_exact_witness :
  calls (snd (EC2.terminate_instances EC2.__init__ ["i-1"]
                (Scenario.start (Scenario.account 2 10 Scenario.together))))
  = [] ++ [TerminateInstances false ["i-1"]].
Proof.
  apply (proj2 (terminate_empty_or_exact EC2.__init__
                  (Scenario.start (Scenario.account 2 10 Scenario.together)) ["i-1"])).
  discriminate.
Defined.

Lemma lookup_tag_resources (T : list Tag) (ids : list string)
    (ts : gmap string (gmap string string)) (j : string) :
  foldr (boto.tag_resource T) ts ids !! j =
  if decide (j ∈ ids) then Some (boto.tag_map T ∪ default ∅ (ts !! j)) else ts !! j.
Proof.
  induction ids as [|i ids IH]; cbn [foldr].
  - rewrite decide_False; [done|]. apply not_elem_of_nil.
  - unfold boto.tag_resource at 1.
    destruct (decide (i = j)) as [->|Hne].
    + rewrite lookup_insert_eq, IH.
      rewrite (decide_True (P := j ∈ j :: ids)) by apply list_elem_of_here.
      f_equal. case_decide; [|done]. cbn [default from_option id].
      by rewrite (assoc_L (∪)), (idemp_L (∪)).
    + rewrite lookup_insert_ne by done. rewrite IH.
      destruct (decide (j ∈ ids)) as [Hin|Hnin].
      * rewrite decide_True; [done|]. by apply list_elem_of_further.
      * rewrite decide_False; [done|]. rewrite elem_of_cons. by intros [?|?].
Qed.

Lemma tag_resources_idemp (T : list Tag) (ids : list string)
    (ts : gmap string (gmap string string)) :
  foldr (boto.tag_resource T) (foldr (boto.tag_resource T) ts ids) ids =
  foldr (boto.tag_resource T) ts ids.
Proof.
  apply map_eq. intros j. rewrite !lookup_tag_resources.
  case_decide; [|done]. cbn [default from_option id].
  by rewrite (assoc_L (∪)), (idemp_L (∪)).
Qed.

(** C9: marking a list of instances twice in a row ends as marking it
    once does: same result, same cloud, hence the same set of marked
    instances. *)
Theorem mark_twice_is_mark_once (self : EC2.t) (ids : list string) (w : World) :
  let once := EC2.mark_instances_for_termination self ids w in
  let twice := (EC2.mark_instances_for_termination self ids;;
                EC2.mark_instances_for_termination self ids) w in
  fst twice = fst once ∧
  cloud (snd twice) = cloud (snd once) ∧
  marked self (cloud (snd twice)) = marked self (cloud (snd once)).
Proof.
  cbv zeta.
  assert (fst ((EC2.mark_instances_for_termination self ids;;
                EC2.mark_instances_for_termination self ids) w)
          = fst (EC2.mark_instances_for_termination self ids w) ∧
          cloud (snd ((EC2.mark_instances_for_termination self ids;;
                       EC2.mark_instances_for_termination self ids) w))
          = cloud (snd (EC2.mark_instances_for_termination self ids w))) as [H1 H2].
  { rewrite bind_run.
    unfold EC2.mark_instances_for_termination, EC2.tag_instances, boto.create_tags,
      api, boto.ec2_call.
    destruct (ec2_fault (cloud w)) as [code|] eqn:Hf; cbn.
    - done.
    - destruct ids as [|i ids]; [done|].
      cbn [fst snd cloud set_cloud log_call ec2_fault boto.set_tags].
      rewrite Hf. cbn. split; [done|]. unfold boto.set_tags; cbn.
      f_equal.
      exact (tag_resources_idemp [EC2._termination_tag self] (i :: ids) (tags (cloud w))). }
  by rewrite H1, H2.
Qed.

(** ** The scaling group (class AutoScalingGroup) *)

Lemma init_processes n w0 asg w1 :
  AutoScalingGroup.__init__ n w0 = (Returned asg, w1) →
  AutoScalingGroup.processes asg = ["AlarmNotification"] ∧ AutoScalingGroup.name asg = n.
Proof.
  unfold AutoScalingGroup.__init__, AutoScalingGroup._update_details.
  rewrite !bind_run.
  destruct (boto.describe_auto_scaling_groups _ _ w0) as [[r|e|] w']; [|done..].
  destruct r as [|d r]; cbn; [done|]. intros [= <- <-]. done.
Qed.

(** C10: on an object built by [__init__], [suspend_processes] and
    [resume_processes] each issue one call for the single process
    [AlarmNotification]; the first adds it to the suspended processes of
    the group, the second removes it, and every other process is suspended
    afterwards exactly when it was before. *)
Theorem suspend_resume_alarm_only (n : string) (w0 w1 w : World)
    (asg : AutoScalingGroup.t) (g : GroupDescription) :
  AutoScalingGroup.__init__ n w0 = (Returned asg, w1) →
  groups (cloud w) !! n = Some g →
  let s := AutoScalingGroup.suspend_processes asg w in
  let r := AutoScalingGroup.resume_processes asg w in
  (fst s = Returned () ∧
   calls (snd s) = calls w ++ [SuspendProcesses n ["AlarmNotification"]] ∧
   suspended n (cloud (snd s)) = suspended n (cloud w) ∪ {["AlarmNotification"]} ∧
   ∀ p, p ≠ "AlarmNotification" →
        (p ∈ suspended n (cloud (snd s)) ↔ p ∈ suspended n (cloud w))) ∧
  (fst r = Returned () ∧
   calls (snd r) = calls w ++ [ResumeProcesses n ["AlarmNotification"]] ∧
   suspended n (cloud (snd r)) = suspended n (cloud w) ∖ {["AlarmNotification"]} ∧
   ∀ p, p ≠ "AlarmNotification" →
        (p ∈ suspended n (cloud (snd r)) ↔ p ∈ suspended n (cloud w))).
Proof.
  intros Hinit Hg. destruct (init_processes _ _ _ _ Hinit) as [Hp Hn].
  cbv zeta. unfold AutoScalingGroup.suspend_processes, AutoScalingGroup.resume_processes.
  rewrite Hp, Hn.
  unfold boto.suspend_processes, boto.resume_processes, api. rewrite Hg.
  cbn [fst snd set_cloud log_call cloud calls].
  unfold suspended. cbn [groups boto.set_groups]. rewrite !lookup_insert_eq, Hg.
  cbn [from_option boto.set_suspended SuspendedProcesses boto.process_set].
  replace (list_to_set ["AlarmNotification"] : gset string)
    with ({["AlarmNotification"]} : gset string) by set_solver.
  repeat split; try done.
  - intros Hin. apply elem_of_union in Hin as [Hin|Hin]; [done|].
    by apply elem_of_singleton in Hin.
  - intros Hin. apply elem_of_union. by left.
  - intros Hin. by apply elem_of_difference in Hin as [Hin _].
  - intros Hin. apply elem_of_difference. split; [done|].
    by rewrite elem_of_singleton.
Qed.

Lemma suspend_resume_alarm_only_witness :
  suspended "web"
    (cloud (snd (AutoScalingGroup.suspend_processes Scenario.asg
                   (Scenario.start (Scenario.account 2 10 Scenario.together)))))
  = suspended "web" (Scenario.account 2 10 Scenario.together) ∪ {["AlarmNotification"]}.
Proof.
  pose proof (suspend_resume_alarm_only "web"
    (Scenario.start (Scenario.account 2 10 Scenario.together))
    (log_call (DescribeAutoScalingGroups ["web"] 1)
       (Scenario.start (Scenario.account 2 10 Scenario.together)))
    (Scenario.start (Scenario.account 2 10 Scenario.together))
    Scenario.asg (Scenario.web 2 10) eq_refl eq_refl) as H.
  exact (proj1 (proj2 (proj2 (proj1 H)))).
Defined.

Lemma foldl_in_service (l : list AutoScalingInstance) (a : Z) :
  foldl (λ healthy_instance_count i,
           if decide (asi_LifecycleState i = "InService")
           then healthy_instance_count + 1
           else healthy_instance_count) a l = a + in_service l.
Proof.
  revert a. induction l as [|i l IH]; intros a; cbn [foldl].
  - unfold in_service. cbn. lia.
  - rewrite IH. unfold in_service. rewrite filter_cons.
    case_decide; [rewrite length_cons|]; lia.
Qed.

Lemma asg_get_healthy_instance_count_run self w :
  AutoScalingGroup.get_healthy_instance_count self w =
  (Returned (in_service (take 50 (fleet (cloud w)))),
   log_call (DescribeAutoScalingInstances 50) w).
Proof.
  unfold AutoScalingGroup.get_healthy_instance_count. rewrite bind_run.
  unfold boto.describe_auto_scaling_instances, api. cbn -[take foldl].
  rewrite ret_run, foldl_in_service. done.
Qed.

(** C3, as the code has it: the count of the first polling loop is the
    number of instances in service among the first 50 records of the
    listing of all the instances of all the groups; it is the same
    whichever group asks, and it is the number of instances in service in
    the whole listing when that has at most 50 records. *)
Theorem asg_health_count_first_page (self : AutoScalingGroup.t) (w : World) :
  AutoScalingGroup.get_healthy_instance_count self w =
    (Returned (in_service (take 50 (fleet (cloud w)))),
     log_call (DescribeAutoScalingInstances 50) w) ∧
  (∀ other : AutoScalingGroup.t,
     fst (AutoScalingGroup.get_healthy_instance_count other w) =
     fst (AutoScalingGroup.get_healthy_instance_count self w)) ∧
  ((length (fleet (cloud w)) ≤ 50)%nat →
   fst (AutoScalingGroup.get_healthy_instance_count self w) =
     Returned (in_service (fleet (cloud w)))).
Proof.
  split; [apply asg_get_healthy_instance_count_run|]. split.
  - intros other. by rewrite !asg_get_healthy_instance_count_run.
  - intros Hlen. rewrite asg_get_healthy_instance_count_run. cbn [fst].
    by rewrite take_ge.
Qed.

Lemma asg_health_count_first_page_witness :
  fst (AutoScalingGroup.get_healthy_instance_count Scenario.asg
         (Scenario.start (Scenario.account 2 10 Scenario.together)))
  = Returned (in_service (fleet (Scenario.account 2 10 Scenario.together))).
Proof.
  apply (proj2 (proj2 (asg_health_count_first_page Scenario.asg
                         (Scenario.start (Scenario.account 2 10 Scenario.together))))).
  cbn. lia.
Defined.

(** C3, as the claim has it, fails: of fifty-one instances in service the
    count sees fifty. *)
Lemma asg_health_count_misses_instance :
  ¬ (∀ (self : AutoScalingGroup.t) (w : World),
       fst (AutoScalingGroup.get_healthy_instance_count self w) =
       Returned (in_service (fleet (cloud w)))).
Proof.
  intros H. specialize (H Scenario.asg (Scenario.start Scenario.crowded)).
  vm_compute in H. discriminate H.
Qed.

(** The members of other groups count as well. *)
Example asg_health_count_counts_other_groups :
  let other := {| asi_InstanceId := "i-9"; asi_AutoScalingGroupName := "batch";
                  asi_LifecycleState := "InService" |} in
  let c := Scenario.account 2 10 Scenario.together in
  let c' := {| groups := groups c; fleet := fleet c ++ [other];
               balancers := balancers c; reservations := reservations c;
               tags := tags c; terminated := terminated c;
               ec2_fault := ec2_fault c |} in
  fst (AutoScalingGroup.get_healthy_instance_count Scenario.asg (Scenario.start c'))
  = Returned 3.
Proof. reflexivity. Qed.

(** ** The balancer (class ElasticLoadBalancer) *)

Lemma foldl_registered_in_service (l : list InstanceState) (a : Z) :
  foldl (λ healthy_instance_count i,
           if decide (is_State i = "InService")
           then healthy_instance_count + 1
           else healthy_instance_count) a l = a + registered_in_service l.
Proof.
  revert a. induction l as [|i l IH]; intros a; cbn [foldl].
  - unfold registered_in_service. cbn. lia.
  - rewrite IH. unfold registered_in_service. rewrite filter_cons.
    case_decide; [rewrite length_cons|]; lia.
Qed.

Lemma elb_get_healthy_instance_count_run elb w :
  ElasticLoadBalancer.get_healthy_instance_count elb w =
  (match balancers (cloud w) !! ElasticLoadBalancer.name elb with
   | Some states => Returned (registered_in_service states)
   | None => Raised (ClientError "LoadBalancerNotFound")
   end, log_call (health_query elb) w).
Proof.
  unfold ElasticLoadBalancer.get_healthy_instance_count. rewrite bind_run.
  unfold ElasticLoadBalancer.get_instance_health, boto.describe_instance_health, api.
  destruct (balancers (cloud w) !! ElasticLoadBalancer.name elb) as [states|]; [|reflexivity].
  cbn -[foldl]. rewrite ret_run, foldl_registered_in_service. done.
Qed.

Lemma elb_init_run lb w :
  ElasticLoadBalancer.__init__ lb w =
  (match balancers (cloud w) !! lb with
   | Some _ => Returned {| ElasticLoadBalancer.name := lb;
                           ElasticLoadBalancer.details := Some {| LoadBalancerName := lb |} |}
   | None => Raised (ClientError "LoadBalancerNotFound")
   end, log_call (DescribeLoadBalancers [lb]) w).
Proof.
  unfold ElasticLoadBalancer.__init__, ElasticLoadBalancer._update_details.
  rewrite bind_run. unfold boto.describe_load_balancers, api. cbn.
  destruct (balancers (cloud w) !! lb) as [s|] eqn:Hs; reflexivity.
Qed.

(** ** The polling loops *)

Lemma asg_count_instant asg :
  instant_read (AutoScalingGroup.get_healthy_instance_count asg).
Proof. intros w. rewrite asg_get_healthy_instance_count_run. cbn. done. Qed.

Lemma elb_count_instant elb :
  instant_read (ElasticLoadBalancer.get_healthy_instance_count elb).
Proof.
  intros w. rewrite elb_get_healthy_instance_count_run. cbn.
  destruct (balancers (cloud w) !! ElasticLoadBalancer.name elb); done.
Qed.

Lemma asg_get_count asg w v :
  asg_count (cloud w) = Some v →
  AutoScalingGroup.get_healthy_instance_count asg w =
    (Returned v, log_call (DescribeAutoScalingInstances 50) w).
Proof. intros [= <-]. apply asg_get_healthy_instance_count_run. Qed.

Lemma elb_get_count elb w v :
  elb_count elb (cloud w) = Some v →
  ElasticLoadBalancer.get_healthy_instance_count elb w =
    (Returned v, log_call (health_query elb) w).
Proof.
  unfold elb_count. rewrite elb_get_healthy_instance_count_run.
  destruct (balancers (cloud w) !! ElasticLoadBalancer.name elb); [|done].
  by intros [= <-].
Qed.

Section Waiting.

Variable drift : Z → Cloud → Cloud.
Variable get : M Z.
Variable target : Z.

(** The loop entered after [t] units of waiting, with fuel for the
    iterations left before the ceiling. *)
Lemma wait_until_healthy_bounded (fuel : nat) :
  instant_read get →
  ∀ (t current : Z) (w : World),
  0 ≤ t < 900 → 900 ≤ t + 30 * Z.of_nat fuel →
  let r := wait_until_healthy drift fuel get target t current w in
  let waited := clock (snd r) - clock w in
  match fst r with
  | Returned healthy => target ≤ healthy ∧ 0 ≤ waited ∧ t + waited < 900
  | Raised (SystemExit code) => code = 5 ∧ 0 ≤ waited ∧ 900 ≤ t + waited ≤ 900 + 30
  | Raised _ => 0 ≤ waited ∧ t + waited < 900
  | Unfinished => False
  end.
Proof.
  intros get_instant.
  induction fuel as [|fuel IH]; intros t current w Ht Hfuel; [lia|].
  cbn [wait_until_healthy].
  destruct (current <? target) eqn:Hcur.
  2:{ cbn. apply Z.ltb_ge in Hcur. lia. }
  rewrite bind_run. cbn [sleep]. cbv zeta.
  destruct (t + 30 >=? 900) eqn:Hout.
  - cbn. apply Z.geb_le in Hout. lia.
  - assert (t + 30 < 900) as Hlt.
    { destruct (Z.geb_spec (t + 30) 900); [done|lia]. }
    rewrite bind_run.
    destruct (get_instant (asleep drift 30 w)) as (Hclock & Hfin & Hexit).
    destruct (get (asleep drift 30 w)) as [[v|e|] w2] eqn:Hget; cbn [fst snd] in *.
    + specialize (IH (t + 30) v w2 ltac:(lia) ltac:(lia)). cbv zeta in IH.
      destruct (wait_until_healthy drift fuel get target (t + 30) v w2) as [[h|e|] w3];
        cbn [fst snd] in *; [| destruct e |]; cbn [clock asleep] in *; lia.
    + destruct e; cbn [clock asleep] in *; try lia. by destruct (Hexit code).
    + done.
Qed.

Lemma wait_from_zero_bounded (fuel : nat) (current : Z) (w : World) :
  instant_read get → (30 ≤ fuel)%nat →
  bounded_wait target w (wait_until_healthy drift fuel get target 0 current w).
Proof.
  intros Hget Hfuel.
  pose proof (wait_until_healthy_bounded fuel Hget 0 current w
                ltac:(lia) ltac:(lia)) as H.
  cbv zeta in H. unfold bounded_wait.
  destruct (fst (wait_until_healthy drift fuel get target 0 current w)) as [h|e|];
    [|destruct e|]; lia.
Qed.

Variable query : Call.

(** The loop only repeats the read and sleeps. *)
Lemma wait_until_healthy_polled (fuel : nat) :
  (∀ w, snd (get w) = log_call query w) →
  ∀ (t current : Z) (w : World),
  polled drift query w (snd (wait_until_healthy drift fuel get target t current w)).
Proof.
  intros get_logs.
  induction fuel as [|fuel IH]; intros t current w; cbn [wait_until_healthy];
    (destruct (current <? target); [|apply polled_done]).
  - apply polled_done.
  - rewrite bind_run. cbn [sleep]. cbv zeta. apply polled_sleep.
    destruct (t + 30 >=? 900); [apply polled_done|].
    rewrite bind_run. specialize (get_logs (asleep drift 30 w)).
    destruct (get (asleep drift 30 w)) as [[v|e|] w2]; cbn [snd] in get_logs; subst w2;
      apply polled_read; [apply IH|apply polled_done..].
Qed.

Variable count : Cloud → option Z.
Variables (t0 : Z) (c0 : Cloud).

(** The loop, [j] sleeps in, when no poll to come sees the target. *)
Lemma wait_until_healthy_times_out (fuel : nat) :
  (∀ w v, count (cloud w) = Some v → get w = (Returned v, log_call query w)) →
  (∀ k, (k < 30)%nat → ∃ v, count (drifted drift t0 k c0) = Some v ∧ v < target) →
  ∀ (j : nat) (current : Z) (w : World),
  (j < 30)%nat → (30 ≤ j + fuel)%nat →
  cloud w = drifted drift t0 j c0 → clock w = t0 + 30 * Z.of_nat j →
  current < target →
  let r := wait_until_healthy drift fuel get target (30 * Z.of_nat j) current w in
  fst r = Raised (SystemExit 5) ∧ clock (snd r) = t0 + 900.
Proof.
  intros get_count unhealthy.
  induction fuel as [|fuel IH]; intros j current w Hj Hfuel Hcloud Hclock Hcur; [lia|].
  cbn [wait_until_healthy].
  rewrite (proj2 (Z.ltb_lt _ _) Hcur).
  rewrite bind_run. cbn [sleep]. cbv zeta.
  destruct (30 * Z.of_nat j + 30 >=? 900) eqn:Hout.
  - apply Z.geb_le in Hout. cbn. split; [done|]. lia.
  - assert (S j < 30)%nat as Hj'.
    { destruct (Z.geb_spec (30 * Z.of_nat j + 30) 900); [done|lia]. }
    destruct (unhealthy (S j) Hj') as (v & Hv & Hlt).
    rewrite bind_run.
    assert (cloud (asleep drift 30 w) = drifted drift t0 (S j) c0) as Hc1.
    { cbn [cloud drifted asleep]. rewrite Hcloud, Hclock. f_equal. lia. }
    rewrite (get_count (asleep drift 30 w) v) by (by rewrite Hc1).
    replace (30 * Z.of_nat j + 30) with (30 * Z.of_nat (S j)) by lia.
    apply IH; [done|lia|done| |done].
    cbn [clock log_call asleep]. lia.
Qed.

(** The same loop, with the world it gives up in. *)
Lemma wait_until_healthy_gives_up (fuel : nat) :
  (∀ w v, count (cloud w) = Some v → get w = (Returned v, log_call query w)) →
  (∀ k, (k < 30)%nat → ∃ v, count (drifted drift t0 k c0) = Some v ∧ v < target) →
  ∀ (j : nat) (current : Z) (w : World),
  (j < 30)%nat → (30 ≤ j + fuel)%nat →
  cloud w = drifted drift t0 j c0 → clock w = t0 + 30 * Z.of_nat j →
  current < target →
  wait_until_healthy drift fuel get target (30 * Z.of_nat j) current w =
    (Raised (SystemExit 5),
     {| cloud := drifted drift t0 30 c0; clock := t0 + 900;
        calls := calls w ++ replicate (29 - j) query |}).
Proof.
  intros get_count unhealthy.
  induction fuel as [|fuel IH]; intros j current w Hj Hfuel Hcloud Hclock Hcur; [lia|].
  cbn [wait_until_healthy].
  rewrite (proj2 (Z.ltb_lt _ _) Hcur).
  rewrite bind_run. cbn [sleep]. cbv zeta.
  destruct (30 * Z.of_nat j + 30 >=? 900) eqn:Hout.
  - apply Z.geb_le in Hout. assert (j = 29%nat) as -> by lia.
    cbn [sys_exit raise asleep Nat.sub replicate]. rewrite app_nil_r.
    unfold sys_exit, raise, asleep. do 2 f_equal.
    + rewrite Hcloud, Hclock.
      change 30%nat with (S 29). cbn [drifted]. f_equal. lia.
    + lia.
  - assert (S j < 30)%nat as Hj'.
    { destruct (Z.geb_spec (30 * Z.of_nat j + 30) 900); [done|lia]. }
    destruct (unhealthy (S j) Hj') as (v & Hv & Hlt).
    rewrite bind_run.
    assert (cloud (asleep drift 30 w) = drifted drift t0 (S j) c0) as Hc1.
    { cbn [cloud drifted asleep]. rewrite Hcloud, Hclock. f_equal. lia. }
    rewrite (get_count (asleep drift 30 w) v) by (by rewrite Hc1).
    replace (30 * Z.of_nat j + 30) with (30 * Z.of_nat (S j)) by lia.
    rewrite (IH (S j) v (log_call query (asleep drift 30 w)));
      [|done|lia|done|cbn [clock log_call asleep]; lia|done].
    cbn [calls log_call asleep]. rewrite <- app_assoc.
    replace (29 - j)%nat with (S (29 - S j)) by lia. done.
Qed.

End Waiting.

Lemma polled_calls drift c w w' :
  polled drift c w w' → ∃ k, calls w' = calls w ++ replicate k c.
Proof.
  induction 1 as [w|w w' _ [k IH]|w w' _ [k IH]].
  - exists 0%nat. cbn. by rewrite app_nil_r.
  - exists (S k). rewrite IH. cbn. by rewrite <- app_assoc.
  - exists k. by rewrite IH.
Qed.

Lemma polled_invariant drift c (P : Cloud → Prop) w w' :
  (∀ t c, P c → P (drift t c)) →
  polled drift c w w' → P (cloud w) → P (cloud w').
Proof.
  intros Hdrift. induction 1 as [w|w w' _ IH|w w' _ IH]; intros HP; [done|..].
  - by apply IH.
  - apply IH. cbn. by apply Hdrift.
Qed.

Lemma deploy_await_asg_polled drift fuel asg target w :
  polled drift (DescribeAutoScalingInstances 50) w
    (snd (deploy_await_asg drift fuel asg target w)).
Proof.
  unfold deploy_await_asg. rewrite bind_run, asg_get_healthy_instance_count_run.
  apply polled_read, wait_until_healthy_polled.
  intros w'. by rewrite asg_get_healthy_instance_count_run.
Qed.

Lemma deploy_await_elb_polled drift fuel elb target w :
  polled drift (health_query elb) w (snd (deploy_await_elb drift fuel elb target w)).
Proof.
  unfold deploy_await_elb. rewrite bind_run, elb_get_healthy_instance_count_run.
  apply polled_read.
  destruct (balancers (cloud w) !! ElasticLoadBalancer.name elb); [|apply polled_done].
  apply wait_until_healthy_polled.
  intros w'. by rewrite elb_get_healthy_instance_count_run.
Qed.

Lemma deploy_await_asg_bounded drift fuel asg target w :
  (30 ≤ fuel)%nat →
  bounded_wait target w (deploy_await_asg drift fuel asg target w).
Proof.
  intros Hfuel.
  unfold deploy_await_asg. rewrite bind_run, asg_get_healthy_instance_count_run.
  apply (wait_from_zero_bounded drift _ target fuel
           (in_service (take 50 (fleet (cloud w))))
           (log_call (DescribeAutoScalingInstances 50) w)
           (asg_count_instant asg) Hfuel).
Qed.

Lemma deploy_await_elb_bounded drift fuel elb target w :
  (30 ≤ fuel)%nat →
  bounded_wait target w (deploy_await_elb drift fuel elb target w).
Proof.
  intros Hfuel.
  unfold deploy_await_elb. rewrite bind_run, elb_get_healthy_instance_count_run.
  destruct (balancers (cloud w) !! ElasticLoadBalancer.name elb) as [states|].
  - apply (wait_from_zero_bounded drift _ target fuel (registered_in_service states)
             (log_call (health_query elb) w) (elb_count_instant elb) Hfuel).
  - unfold bounded_wait. cbn. lia.
Qed.

Lemma deploy_await_asg_times_out drift fuel asg target w :
  (30 ≤ fuel)%nat → never_healthy drift asg_count target w →
  fst (deploy_await_asg drift fuel asg target w) = Raised (SystemExit 5) ∧
  clock (snd (deploy_await_asg drift fuel asg target w)) = clock w + 900.
Proof.
  intros Hfuel Hnever. unfold deploy_await_asg.
  destruct (Hnever 0%nat ltac:(lia)) as (v & Hv & Hlt). cbn [drifted] in Hv.
  rewrite bind_run, (asg_get_count asg w v Hv).
  apply (wait_until_healthy_times_out drift _ target (DescribeAutoScalingInstances 50)
           asg_count (clock w) (cloud w) fuel (asg_get_count asg) Hnever 0%nat);
    [lia|lia|done|cbn; lia|done].
Qed.

Lemma deploy_await_elb_times_out drift fuel elb target w :
  (30 ≤ fuel)%nat → never_healthy drift (elb_count elb) target w →
  fst (deploy_await_elb drift fuel elb target w) = Raised (SystemExit 5) ∧
  clock (snd (deploy_await_elb drift fuel elb target w)) = clock w + 900.
Proof.
  intros Hfuel Hnever. unfold deploy_await_elb.
  destruct (Hnever 0%nat ltac:(lia)) as (v & Hv & Hlt). cbn [drifted] in Hv.
  rewrite bind_run, (elb_get_count elb w v Hv).
  apply (wait_until_healthy_times_out drift _ target (health_query elb)
           (elb_count elb) (clock w) (cloud w) fuel (elb_get_count elb) Hnever 0%nat);
    [lia|lia|done|cbn; lia|done].
Qed.

Section Converging.

Variable drift : Z → Cloud → Cloud.
Variable get : M Z.
Variable query : Call.
Variable count : Cloud → option Z.
Variable target : Z.
Variables (t0 : Z) (c0 : Cloud).
Variables (k : nat) (v : Z).

Lemma wait_until_healthy_converges :
  (∀ w u, count (cloud w) = Some u → get w = (Returned u, log_call query w)) →
  (∀ i, (i < k)%nat → ∃ u, count (drifted drift t0 i c0) = Some u ∧ u < target) →
  count (drifted drift t0 k c0) = Some v → target ≤ v → (k < 30)%nat →
  ∀ (d j fuel : nat) (current : Z) (w : World),
  (j + d = k)%nat → (d ≤ fuel)%nat →
  cloud w = drifted drift t0 j c0 → clock w = t0 + 30 * Z.of_nat j →
  count (drifted drift t0 j c0) = Some current →
  let r := wait_until_healthy drift fuel get target (30 * Z.of_nat j) current w in
  fst r = Returned v ∧
  cloud (snd r) = drifted drift t0 k c0 ∧
  clock (snd r) = t0 + 30 * Z.of_nat k ∧
  calls (snd r) = calls w ++ replicate d query.
Proof.
  intros get_count unhealthy Hv Htarget Hk.
  induction d as [|d IH]; intros j fuel current w Hjd Hfuel Hcloud Hclock Hcur.
  - assert (j = k) as -> by lia. rewrite Hv in Hcur. injection Hcur as <-.
    cbv zeta. destruct fuel; cbn [wait_until_healthy];
      rewrite (proj2 (Z.ltb_ge _ _) Htarget); cbn; by rewrite app_nil_r.
  - destruct (unhealthy j ltac:(lia)) as (u & Hu & Hlt).
    rewrite Hcur in Hu. injection Hu as <-.
    destruct fuel as [|fuel]; [lia|].
    cbn [wait_until_healthy]. rewrite (proj2 (Z.ltb_lt _ _) Hlt).
    rewrite bind_run. cbn [sleep]. cbv zeta.
    replace (30 * Z.of_nat j + 30 >=? 900) with false
      by (symmetry; destruct (Z.geb_spec (30 * Z.of_nat j + 30) 900); [lia|done]).
    assert (cloud (asleep drift 30 w) = drifted drift t0 (S j) c0) as Hc1.
    { cbn [cloud drifted asleep]. rewrite Hcloud, Hclock. f_equal. lia. }
    assert (∃ u, count (drifted drift t0 (S j) c0) = Some u) as [u Hu].
    { destruct (decide (S j = k)) as [<-|Hne]; [by eexists|].
      destruct (unhealthy (S j) ltac:(lia)) as (u & Hu & _). by eexists. }
    rewrite bind_run, (get_count (asleep drift 30 w) u) by (by rewrite Hc1).
    replace (30 * Z.of_nat j + 30) with (30 * Z.of_nat (S j)) by lia.
    specialize (IH (S j) fuel u (log_call query (asleep drift 30 w))
                  ltac:(lia) ltac:(lia) Hc1).
    cbv zeta in IH. destruct IH as (H1 & H2 & H3 & H4); [cbn; lia|done|].
    rewrite H1, H2, H3, H4. cbn. rewrite <- app_assoc. done.
Qed.

End Converging.

Lemma deploy_await_asg_converges drift fuel asg target w k v :
  (k < 30)%nat → (k ≤ fuel)%nat →
  first_healthy drift asg_count target w k v →
  let r := deploy_await_asg drift fuel asg target w in
  fst r = Returned v ∧
  cloud (snd r) = drifted drift (clock w) k (cloud w) ∧
  clock (snd r) = clock w + 30 * Z.of_nat k ∧
  calls (snd r) = calls w ++ replicate (S k) (DescribeAutoScalingInstances 50).
Proof.
  intros Hk Hfuel (Hbefore & Hv & Htarget). cbv zeta. unfold deploy_await_asg.
  rewrite bind_run, asg_get_healthy_instance_count_run.
  pose proof (wait_until_healthy_converges drift _ (DescribeAutoScalingInstances 50)
                asg_count target (clock w) (cloud w) k v (asg_get_count asg)
                Hbefore Hv Htarget Hk k 0%nat fuel
                (in_service (take 50 (fleet (cloud w))))
                (log_call (DescribeAutoScalingInstances 50) w)
                ltac:(lia) Hfuel eq_refl ltac:(cbn; lia) eq_refl) as H.
  cbv zeta in H. change (30 * Z.of_nat 0) with 0 in H.
  destruct H as (H1 & H2 & H3 & H4).
  rewrite H1, H2, H3, H4. cbn [calls log_call]. rewrite <- app_assoc. done.
Qed.

Lemma deploy_await_elb_converges drift fuel elb target w k v :
  (k < 30)%nat → (k ≤ fuel)%nat →
  first_healthy drift (elb_count elb) target w k v →
  let r := deploy_await_elb drift fuel elb target w in
  fst r = Returned v ∧
  cloud (snd r) = drifted drift (clock w) k (cloud w) ∧
  clock (snd r) = clock w + 30 * Z.of_nat k ∧
  calls (snd r) = calls w ++ replicate (S k) (health_query elb).
Proof.
  intros Hk Hfuel (Hbefore & Hv & Htarget). cbv zeta. unfold deploy_await_elb.
  assert (∃ u, elb_count elb (cloud w) = Some u) as [u Hu].
  { destruct k as [|k']; [by eexists|].
    destruct (Hbefore 0%nat ltac:(lia)) as (u & Hu & _). by eexists. }
  rewrite bind_run, (elb_get_count elb w u Hu).
  pose proof (wait_until_healthy_converges drift _ (health_query elb)
                (elb_count elb) target (clock w) (cloud w) k v (elb_get_count elb)
                Hbefore Hv Htarget Hk k 0%nat fuel u
                (log_call (health_query elb) w)
                ltac:(lia) Hfuel eq_refl ltac:(cbn; lia) Hu) as H.
  cbv zeta in H. change (30 * Z.of_nat 0) with 0 in H.
  destruct H as (H1 & H2 & H3 & H4).
  rewrite H1, H2, H3, H4. cbn [calls log_call]. rewrite <- app_assoc. done.
Qed.

(** The worlds the two phases end in. *)
Lemma deploy_await_asg_gives_up drift fuel asg target w :
  (30 ≤ fuel)%nat → never_healthy drift asg_count target w →
  deploy_await_asg drift fuel asg target w =
    (Raised (SystemExit 5), timed_out drift w (DescribeAutoScalingInstances 50)).
Proof.
  intros Hfuel Hnever. unfold deploy_await_asg.
  destruct (Hnever 0%nat ltac:(lia)) as (v & Hv & Hlt). cbn [drifted] in Hv.
  rewrite bind_run, (asg_get_count asg w v Hv).
  pose proof (wait_until_healthy_gives_up drift _ target (DescribeAutoScalingInstances 50)
                asg_count (clock w) (cloud w) fuel (asg_get_count asg) Hnever 0%nat v
                (log_call (DescribeAutoScalingInstances 50) w)
                ltac:(lia) ltac:(lia) eq_refl ltac:(cbn; lia) Hlt) as H.
  change (30 * Z.of_nat 0) with 0 in H. cbv zeta. rewrite H.
  unfold timed_out. cbn [calls log_call Nat.sub]. by rewrite <- app_assoc.
Qed.

Lemma deploy_await_elb_gives_up drift fuel elb target w :
  (30 ≤ fuel)%nat → never_healthy drift (elb_count elb) target w →
  deploy_await_elb drift fuel elb target w =
    (Raised (SystemExit 5), timed_out drift w (health_query elb)).
Proof.
  intros Hfuel Hnever. unfold deploy_await_elb.
  destruct (Hnever 0%nat ltac:(lia)) as (v & Hv & Hlt). cbn [drifted] in Hv.
  rewrite bind_run, (elb_get_count elb w v Hv).
  pose proof (wait_until_healthy_gives_up drift _ target (health_query elb)
                (elb_count elb) (clock w) (cloud w) fuel (elb_get_count elb) Hnever 0%nat v
                (log_call (health_query elb) w)
                ltac:(lia) ltac:(lia) eq_refl ltac:(cbn; lia) Hlt) as H.
  change (30 * Z.of_nat 0) with 0 in H. cbv zeta. rewrite H.
  unfold timed_out. cbn [calls log_call Nat.sub]. by rewrite <- app_assoc.
Qed.

Lemma deploy_await_asg_returns drift fuel asg target w k v :
  (k < 30)%nat → (k ≤ fuel)%nat →
  first_healthy drift asg_count target w k v →
  deploy_await_asg drift fuel asg target w =
    (Returned v, at_poll drift w k (DescribeAutoScalingInstances 50)).
Proof.
  intros Hk Hfuel Hfirst.
  pose proof (deploy_await_asg_converges drift fuel asg target w k v Hk Hfuel Hfirst) as H.
  cbv zeta in H.
  destruct (deploy_await_asg drift fuel asg target w) as [o [c t l]].
  cbn [fst snd cloud clock calls] in H. destruct H as (-> & -> & -> & ->). done.
Qed.

Lemma deploy_await_elb_returns drift fuel elb target w k v :
  (k < 30)%nat → (k ≤ fuel)%nat →
  first_healthy drift (elb_count elb) target w k v →
  deploy_await_elb drift fuel elb target w =
    (Returned v, at_poll drift w k (health_query elb)).
Proof.
  intros Hk Hfuel Hfirst.
  pose proof (deploy_await_elb_converges drift fuel elb target w k v Hk Hfuel Hfirst) as H.
  cbv zeta in H.
  destruct (deploy_await_elb drift fuel elb target w) as [o [c t l]].
  cbn [fst snd cloud clock calls] in H. destruct H as (-> & -> & -> & ->). done.
Qed.

(** C4: with fuel for thirty iterations each polling phase ends: with
    enough healthy instances, or with exit code 5 once the accumulated
    wait has reached 900 and at most one interval of 30 more, or with an
    error of the provider; and a phase none of whose thirty polls sees the
    target ends with exit code 5 after a wait of 900. *)
Theorem polling_bounded (drift : Z → Cloud → Cloud) (fuel : nat)
    (asg : AutoScalingGroup.t) (elb : ElasticLoadBalancer.t) (target : Z) (w : World) :
  (30 ≤ fuel)%nat →
  let by_asg := deploy_await_asg drift fuel asg target w in
  let by_elb := deploy_await_elb drift fuel elb target w in
  bounded_wait target w by_asg ∧
  bounded_wait target w by_elb ∧
  (never_healthy drift asg_count target w →
   fst by_asg = Raised (SystemExit 5) ∧ clock (snd by_asg) = clock w + 900) ∧
  (never_healthy drift (elb_count elb) target w →
   fst by_elb = Raised (SystemExit 5) ∧ clock (snd by_elb) = clock w + 900).
Proof.
  intros Hfuel. cbv zeta. repeat split.
  - by apply deploy_await_asg_bounded.
  - by apply deploy_await_elb_bounded.
  - by apply deploy_await_asg_times_out.
  - by apply deploy_await_asg_times_out.
  - by apply deploy_await_elb_times_out.
  - by apply deploy_await_elb_times_out.
Qed.

Lemma polling_bounded_witness :
  let w := Scenario.start (Scenario.account 2 10 Scenario.together) in
  bounded_wait 4 w (deploy_await_asg Scenario.still 30 Scenario.asg 4 w) ∧
  fst (deploy_await_asg Scenario.still 30 Scenario.asg 4 w) = Raised (SystemExit 5) ∧
  clock (snd (deploy_await_elb Scenario.still 30 Scenario.elb 4 w)) = 0 + 900.
Proof.
  pose proof (polling_bounded Scenario.still 30 Scenario.asg Scenario.elb 4
                (Scenario.start (Scenario.account 2 10 Scenario.together))
                ltac:(lia)) as (H1 & _ & H3 & H4).
  cbv zeta. split; [exact H1|]. split.
  - apply H3. intros k Hk.
    do 30 (destruct k as [|k]; [eexists; split; [reflexivity|reflexivity]|]). lia.
  - apply H4. intros k Hk.
    do 30 (destruct k as [|k]; [eexists; split; [reflexivity|reflexivity]|]). lia.
Defined.

(** ** Reading the group *)

Lemma update_details_run self w :
  AutoScalingGroup._update_details self w =
  (match groups (cloud w) !! AutoScalingGroup.name self with
   | Some g => Returned (refreshed self g)
   | None => Raised IndexError
   end, log_call (group_query self) w).
Proof.
  unfold AutoScalingGroup._update_details. rewrite bind_run.
  unfold boto.describe_auto_scaling_groups, api. cbn.
  destruct (groups (cloud w) !! AutoScalingGroup.name self); reflexivity.
Qed.

Ltac run_read_group :=
  intros; unfold read_group;
  rewrite bind_run, update_details_run;
  destruct (groups (cloud _) !! AutoScalingGroup.name _) as [g|];
  try reflexivity.

Lemma get_desired_capacity_run self w :
  AutoScalingGroup.get_desired_capacity self w =
  read_group self (λ g, Returned (DesiredCapacity g)) w.
Proof. unfold AutoScalingGroup.get_desired_capacity. run_read_group. Qed.

Lemma get_new_desired_capacity_run self w :
  AutoScalingGroup.get_new_desired_capacity self w =
  read_group self (λ g, Returned (2 * DesiredCapacity g)) w.
Proof. unfold AutoScalingGroup.get_new_desired_capacity. run_read_group. Qed.

Lemma get_max_capacity_run self w :
  AutoScalingGroup.get_max_capacity self w =
  read_group self (λ g, Returned (MaxSize g)) w.
Proof. unfold AutoScalingGroup.get_max_capacity. run_read_group. Qed.

Lemma get_instance_ids_run self w :
  AutoScalingGroup.get_instance_ids self w =
  read_group self (λ g, Returned (map asi_InstanceId (Instances g))) w.
Proof. unfold AutoScalingGroup.get_instance_ids. run_read_group. Qed.

Lemma get_load_balancer_name_run self w :
  AutoScalingGroup.get_load_balancer_name self w =
  read_group self (λ g, match LoadBalancerNames g with
                        | lb :: _ => Returned lb
                        | [] => Raised IndexError
                        end) w.
Proof.
  unfold AutoScalingGroup.get_load_balancer_name. run_read_group.
  cbn. cbv [mbind M_bind mret M_ret]. destruct (LoadBalancerNames g); reflexivity.
Qed.

Lemma has_enough_capacity_run self w :
  AutoScalingGroup.has_enough_capacity self w =
  (match groups (cloud w) !! AutoScalingGroup.name self with
   | Some g => Returned (2 * DesiredCapacity g <=? MaxSize g, refreshed self g)
   | None => Raised IndexError
   end,
   match groups (cloud w) !! AutoScalingGroup.name self with
   | Some g => log_call (group_query self) (log_call (group_query self) w)
   | None => log_call (group_query self) w
   end).
Proof.
  unfold AutoScalingGroup.has_enough_capacity.
  rewrite bind_run, get_new_desired_capacity_run. unfold read_group at 1.
  destruct (groups (cloud w) !! AutoScalingGroup.name self) as [g|] eqn:Hg; [|reflexivity].
  rewrite bind_run, get_max_capacity_run. unfold read_group. cbn. rewrite Hg. reflexivity.
Qed.

Lemma init_run n w :
  AutoScalingGroup.__init__ n w =
  (match groups (cloud w) !! n with
   | Some g => Returned {| AutoScalingGroup.processes := ["AlarmNotification"];
                           AutoScalingGroup.name := n;
                           AutoScalingGroup.details := Some g |}
   | None => Raised IndexError
   end, log_call (DescribeAutoScalingGroups [n] 1) w).
Proof. unfold AutoScalingGroup.__init__. rewrite update_details_run. reflexivity. Qed.

(** ** Where an exit code can come from *)

Lemma plain_ret {A} (a : A) : plain (mret a).
Proof. intros w. exact I. Qed.

Lemma plain_bind {A B} (m : M A) (k : A → M B) :
  plain m → (∀ a, plain (k a)) → plain (m ≫= k).
Proof.
  intros Hm Hk w. rewrite bind_run. specialize (Hm w).
  destruct (m w) as [[a|e|] w1]; cbn [fst] in *; [apply Hk|exact Hm|exact Hm].
Qed.

Lemma plain_ext {A} (m m' : M A) :
  (∀ w, m w = m' w) → plain m' → plain m.
Proof. intros E H w. rewrite E. apply H. Qed.

Lemma plain_api {A} (c : Call) (answer : Cloud → outcome A * Cloud) :
  (∀ cl, plain_outcome (fst (answer cl))) → plain (api c answer).
Proof.
  intros H w. unfold api. specialize (H (cloud w)).
  by destruct (answer (cloud w)).
Qed.

Lemma plain_ec2_call {A} (DryRun : bool) (answer : Cloud → outcome A * Cloud) :
  (∀ cl, plain_outcome (fst (answer cl))) →
  ∀ cl, plain_outcome (fst (boto.ec2_call DryRun answer cl)).
Proof.
  intros H cl. unfold boto.ec2_call.
  destruct (ec2_fault cl); [exact I|]. destruct DryRun; [exact I|apply H].
Qed.

Lemma plain_read_group {A} asg (f : GroupDescription → outcome A) :
  (∀ g, plain_outcome (f g)) → plain (read_group asg f).
Proof.
  intros Hf w. unfold read_group. cbn [fst].
  destruct (groups (cloud w) !! AutoScalingGroup.name asg) as [g|]; [|exact I].
  specialize (Hf g). by destruct (f g).
Qed.

Lemma plain_set_desired_capacity asg n :
  plain (AutoScalingGroup.set_desired_capacity asg n).
Proof.
  apply plain_api. intros cl.
  destruct (groups cl !! AutoScalingGroup.name asg) as [g|]; [|exact I].
  by case_bool_decide.
Qed.

Lemma plain_deploy_double asg ec2 : plain (deploy_double asg ec2).
Proof.
  unfold deploy_double.
  apply plain_bind.
  { eapply plain_ext; [apply get_desired_capacity_run|].
    by apply plain_read_group. }
  intros [orig asg1]. apply plain_bind.
  { eapply plain_ext; [apply get_instance_ids_run|].
    by apply plain_read_group. }
  intros [ids asg2]. apply plain_bind.
  { apply plain_api, plain_ec2_call. intros cl. by destruct ids. }
  intros _. apply plain_bind.
  { apply plain_api. intros cl.
    by destruct (groups cl !! AutoScalingGroup.name asg2). }
  intros _. apply plain_bind.
  { unfold AutoScalingGroup.double_in_size. apply plain_bind.
    { eapply plain_ext; [apply get_new_desired_capacity_run|].
      by apply plain_read_group. }
    intros [new asg3]. apply plain_bind; [apply plain_set_desired_capacity|].
    intros _. apply plain_ret. }
  intros asg3. apply plain_bind.
  { eapply plain_ext; [apply get_desired_capacity_run|].
    by apply plain_read_group. }
  intros [cur asg4]. apply plain_ret.
Qed.

Lemma plain_deploy_retire asg ec2 orig : plain (deploy_retire asg ec2 orig).
Proof.
  unfold deploy_retire. apply plain_bind.
  { intros w. by rewrite get_instances_marked_for_termination_run. }
  intros ids. apply plain_bind.
  { unfold EC2.terminate_instances.
    destruct (_ && _); [|apply plain_ret].
    apply plain_bind; [|intros; apply plain_ret].
    apply plain_api, plain_ec2_call. done. }
  intros _. apply plain_bind; [apply plain_set_desired_capacity|].
  intros _. apply plain_api. intros cl.
  by destruct (groups cl !! AutoScalingGroup.name asg).
Qed.

(** ** The orchestration *)

Ltac only_reads l :=
  exists l; split;
  [repeat constructor
  |unfold group_query, log_call; cbn; by rewrite <- ?app_assoc].

(** The preflight only reads; it returns the objects of the deployment or
    ends with exit code 4 or with a lookup error. *)
Lemma deploy_preflight_spec n w :
  (∃ reads, read_only reads ∧
     snd (deploy_preflight n w) =
       {| cloud := cloud w; clock := clock w; calls := calls w ++ reads |}) ∧
  match fst (deploy_preflight n w) with
  | Returned (asg, ec2, elb) =>
      AutoScalingGroup.name asg = n ∧
      AutoScalingGroup.processes asg = ["AlarmNotification"] ∧
      ec2 = EC2.__init__
  | Raised (SystemExit code) => code = 4
  | Raised _ => True
  | Unfinished => False
  end.
Proof.
  unfold deploy_preflight.
  rewrite bind_run, init_run.
  destruct (groups (cloud w) !! n) as [g|] eqn:Hg.
  2:{ cbn [fst snd]. split; [|done]. only_reads [DescribeAutoScalingGroups [n] 1]. }
  rewrite bind_run, get_load_balancer_name_run. unfold read_group.
  cbn [cloud log_call AutoScalingGroup.name]. rewrite Hg.
  destruct (LoadBalancerNames g) as [|lb lbs] eqn:Hlb.
  { cbn [fst snd]. split; [|done].
    only_reads [DescribeAutoScalingGroups [n] 1; DescribeAutoScalingGroups [n] 1]. }
  rewrite bind_run, elb_init_run. cbn [cloud log_call].
  destruct (balancers (cloud w) !! lb) as [states|] eqn:Hb.
  2:{ cbn [fst snd]. split; [|done].
      only_reads [DescribeAutoScalingGroups [n] 1; DescribeAutoScalingGroups [n] 1;
                  DescribeLoadBalancers [lb]]. }
  rewrite bind_run, has_enough_capacity_run.
  cbn [cloud log_call AutoScalingGroup.name refreshed]. rewrite Hg.
  destruct (2 * DesiredCapacity g <=? MaxSize g);
    cbn [negb fst snd sys_exit raise]; (split; [|done]);
    only_reads [DescribeAutoScalingGroups [n] 1; DescribeAutoScalingGroups [n] 1;
                DescribeLoadBalancers [lb];
                DescribeAutoScalingGroups [n] 1; DescribeAutoScalingGroups [n] 1].
Qed.

(** C1: when twice the desired capacity of the group exceeds its maximum,
    the deployment leaves the cloud and the clock as they were and issues
    reading calls only; when the group has a balancer that exists, as the
    data model has it, the deployment ends with exit code 4. *)
Theorem capacity_gate (drift : Z → Cloud → Cloud) (fuel : nat) (n : string)
    (w : World) (g : GroupDescription) :
  groups (cloud w) !! n = Some g →
  2 * DesiredCapacity g > MaxSize g →
  let r := deploy drift fuel n w in
  (∃ reads, read_only reads ∧
     snd r = {| cloud := cloud w; clock := clock w; calls := calls w ++ reads |}) ∧
  (∀ lb lbs, LoadBalancerNames g = lb :: lbs →
     is_Some (balancers (cloud w) !! lb) →
     fst r = Raised (SystemExit 4)).
Proof.
  intros Hg Hcap. cbv zeta.
  unfold deploy. rewrite bind_run. unfold deploy_preflight.
  rewrite bind_run, init_run, Hg.
  rewrite bind_run, get_load_balancer_name_run. unfold read_group.
  cbn [cloud log_call AutoScalingGroup.name]. rewrite Hg.
  destruct (LoadBalancerNames g) as [|lb lbs] eqn:Hlb.
  { cbn [fst snd]. split; [|done].
    only_reads [DescribeAutoScalingGroups [n] 1; DescribeAutoScalingGroups [n] 1]. }
  rewrite bind_run, elb_init_run. cbn [cloud log_call].
  destruct (balancers (cloud w) !! lb) as [states|] eqn:Hb.
  2:{ cbn [fst snd]. split; [|intros ?? [= <- <-] [? ?]; congruence].
      only_reads [DescribeAutoScalingGroups [n] 1; DescribeAutoScalingGroups [n] 1;
                  DescribeLoadBalancers [lb]]. }
  rewrite bind_run, has_enough_capacity_run.
  cbn [cloud log_call AutoScalingGroup.name refreshed]. rewrite Hg.
  replace (2 * DesiredCapacity g <=? MaxSize g) with false
    by (symmetry; apply Z.leb_gt; lia).
  cbn [negb fst snd sys_exit raise]. split; [|done].
  only_reads [DescribeAutoScalingGroups [n] 1; DescribeAutoScalingGroups [n] 1;
              DescribeLoadBalancers [lb];
              DescribeAutoScalingGroups [n] 1; DescribeAutoScalingGroups [n] 1].
Qed.

Lemma capacity_gate_witness :
  let r := deploy Scenario.still 30 "web"
             (Scenario.start (Scenario.account 6 10 Scenario.together)) in
  fst r = Raised (SystemExit 4) ∧
  ∃ reads, read_only reads ∧
    snd r = {| cloud := Scenario.account 6 10 Scenario.together; clock := 0;
               calls := [] ++ reads |}.
Proof.
  pose proof (capacity_gate Scenario.still 30 "web"
                (Scenario.start (Scenario.account 6 10 Scenario.together))
                (Scenario.web 6 10) eq_refl eq_refl) as [H1 H2].
  split; [|exact H1].
  apply (H2 "lb" []); [reflexivity|eexists; reflexivity].
Defined.

(** What the steps from Mark to Double have done when they return. *)
Lemma deploy_double_returned asg ec2 w orig target asg' w' :
  deploy_double asg ec2 w = (Returned (orig, target, asg'), w') →
  ∃ g, groups (cloud w) !! AutoScalingGroup.name asg = Some g ∧
    orig = DesiredCapacity g ∧
    target = 2 * orig ∧
    desired (AutoScalingGroup.name asg) (cloud w') = Some (2 * orig) ∧
    suspended (AutoScalingGroup.name asg) (cloud w') =
      SuspendedProcesses g ∪ boto.process_set (AutoScalingGroup.processes asg) ∧
    terminated (cloud w') = terminated (cloud w) ∧
    clock w' = clock w ∧
    AutoScalingGroup.name asg' = AutoScalingGroup.name asg ∧
    calls w' = calls w ++
      [group_query asg; group_query asg;
       CreateTags false (map asi_InstanceId (Instances g)) [EC2._termination_tag ec2];
       SuspendProcesses (AutoScalingGroup.name asg) (AutoScalingGroup.processes asg);
       group_query asg;
       SetDesiredCapacity (AutoScalingGroup.name asg) (2 * orig) false;
       group_query asg].
Proof.
  unfold deploy_double, desired, suspended.
  rewrite bind_run, get_desired_capacity_run. unfold read_group.
  destruct (groups (cloud w) !! AutoScalingGroup.name asg) as [g|] eqn:Hg; [|done].
  rewrite bind_run, get_instance_ids_run. unfold read_group.
  cbn [cloud log_call AutoScalingGroup.name refreshed]. rewrite Hg.
  rewrite bind_run.
  unfold EC2.mark_instances_for_termination, EC2.tag_instances, boto.create_tags, api,
    boto.ec2_call.
  cbn [cloud log_call]. destruct (ec2_fault (cloud w)) as [code|]; [done|].
  destruct (map asi_InstanceId (Instances g)) as [|i ids] eqn:Hids; [done|].
  rewrite bind_run.
  unfold AutoScalingGroup.suspend_processes, boto.suspend_processes, api.
  cbn [cloud log_call set_cloud boto.set_tags groups AutoScalingGroup.name refreshed fst snd].
  rewrite Hg.
  rewrite bind_run. unfold AutoScalingGroup.double_in_size.
  rewrite bind_run, get_new_desired_capacity_run. unfold read_group.
  cbn [cloud log_call set_cloud boto.set_groups groups AutoScalingGroup.name refreshed fst snd].
  rewrite lookup_insert_eq.
  rewrite bind_run.
  unfold AutoScalingGroup.set_desired_capacity, boto.set_desired_capacity, api.
  cbn [cloud log_call set_cloud boto.set_groups groups AutoScalingGroup.name refreshed fst snd].
  rewrite lookup_insert_eq.
  case_bool_decide; [|done]. rewrite ret_run.
  rewrite bind_run, get_desired_capacity_run. unfold read_group.
  cbn [cloud log_call set_cloud boto.set_groups groups AutoScalingGroup.name refreshed fst snd].
  rewrite lookup_insert_eq.
  intros [= <- <- <- <-]. exists g.
  cbn [cloud log_call set_cloud boto.set_groups groups AutoScalingGroup.name
       AutoScalingGroup.processes refreshed fst snd
       clock calls terminated boto.set_tags].
  rewrite lookup_insert_eq. unfold group_query. cbn. rewrite <- !app_assoc.
  rewrite Hids. done.
Qed.

(** The deployment after the doubling, by how the two waits go. *)
Lemma deploy_gives_up_on_group drift fuel n w asg ec2 elb w1 orig target asg' w2 :
  deploy_preflight n w = (Returned (asg, ec2, elb), w1) →
  deploy_double asg ec2 w1 = (Returned (orig, target, asg'), w2) →
  (30 ≤ fuel)%nat →
  never_healthy drift asg_count target w2 →
  deploy drift fuel n w =
    (Raised (SystemExit 5), timed_out drift w2 (DescribeAutoScalingInstances 50)).
Proof.
  intros Hpre Hdouble Hfuel Hnever. unfold deploy.
  rewrite bind_run, Hpre, bind_run, Hdouble, bind_run.
  by rewrite (deploy_await_asg_gives_up drift fuel asg' target w2 Hfuel Hnever).
Qed.

Lemma deploy_gives_up_on_balancer drift fuel n w asg ec2 elb w1 orig target asg' w2 k v :
  deploy_preflight n w = (Returned (asg, ec2, elb), w1) →
  deploy_double asg ec2 w1 = (Returned (orig, target, asg'), w2) →
  (30 ≤ fuel)%nat → (k < 30)%nat →
  first_healthy drift asg_count target w2 k v →
  never_healthy drift (elb_count elb) target
    (at_poll drift w2 k (DescribeAutoScalingInstances 50)) →
  deploy drift fuel n w =
    (Raised (SystemExit 5),
     timed_out drift (at_poll drift w2 k (DescribeAutoScalingInstances 50))
       (health_query elb)).
Proof.
  intros Hpre Hdouble Hfuel Hk Hfirst Hnever. unfold deploy.
  rewrite bind_run, Hpre, bind_run, Hdouble, bind_run.
  rewrite (deploy_await_asg_returns drift fuel asg' target w2 k v Hk ltac:(lia) Hfirst).
  rewrite bind_run.
  by rewrite (deploy_await_elb_gives_up drift fuel elb target _ Hfuel Hnever).
Qed.

Lemma deploy_goes_on_to_retire drift fuel n w asg ec2 elb w1 orig target asg' w2
    k1 v1 k2 v2 :
  deploy_preflight n w = (Returned (asg, ec2, elb), w1) →
  deploy_double asg ec2 w1 = (Returned (orig, target, asg'), w2) →
  (30 ≤ fuel)%nat → (k1 < 30)%nat → (k2 < 30)%nat →
  first_healthy drift asg_count target w2 k1 v1 →
  first_healthy drift (elb_count elb) target
    (at_poll drift w2 k1 (DescribeAutoScalingInstances 50)) k2 v2 →
  deploy drift fuel n w =
    deploy_retire asg' ec2 orig
      (at_poll drift (at_poll drift w2 k1 (DescribeAutoScalingInstances 50)) k2
         (health_query elb)).
Proof.
  intros Hpre Hdouble Hfuel Hk1 Hk2 Hfirst1 Hfirst2. unfold deploy.
  rewrite bind_run, Hpre, bind_run, Hdouble, bind_run.
  rewrite (deploy_await_asg_returns drift fuel asg' target w2 k1 v1 Hk1 ltac:(lia) Hfirst1).
  rewrite bind_run.
  by rewrite (deploy_await_elb_returns drift fuel elb target _ k2 v2 Hk2 ltac:(lia) Hfirst2).
Qed.

(** C2: once the steps up to Double have returned, the target they read
    back is twice the original desired capacity recorded at Mark, and so
    is the desired capacity of the group; the rest of the deployment is
    the two polling phases and the retirement run with that one target.
    Whatever happens to the account while the script sleeps, the desired
    capacity of the group included, both loops compare the count they read
    with twice the original capacity: the deployment exits with code 5
    when no poll of the group sees that many healthy instances, and when a
    poll of the group does and no poll of the balancer; it goes on to the
    retirement at the first poll of the balancer that does.  All a polling
    phase asks of the provider is its health count, once per poll. *)
Theorem doubled_target_fixed (drift : Z → Cloud → Cloud) (fuel : nat) (n : string)
    (w w1 w2 : World) (asg asg' : AutoScalingGroup.t) (ec2 : EC2.t)
    (elb : ElasticLoadBalancer.t) (orig target : Z) :
  deploy_preflight n w = (Returned (asg, ec2, elb), w1) →
  deploy_double asg ec2 w1 = (Returned (orig, target, asg'), w2) →
  desired (AutoScalingGroup.name asg) (cloud w1) = Some orig ∧
  target = 2 * orig ∧
  desired (AutoScalingGroup.name asg) (cloud w2) = Some (2 * orig) ∧
  deploy drift fuel n w =
    (deploy_await_asg drift fuel asg' (2 * orig);;
     deploy_await_elb drift fuel elb (2 * orig);;
     deploy_retire asg' ec2 orig) w2 ∧
  (∀ v, ∃ k, calls (snd (deploy_await_asg drift fuel asg' (2 * orig) v)) =
             calls v ++ replicate k (DescribeAutoScalingInstances 50)) ∧
  (∀ v, ∃ k, calls (snd (deploy_await_elb drift fuel elb (2 * orig) v)) =
             calls v ++ replicate k (DescribeInstanceHealth (ElasticLoadBalancer.name elb))) ∧
  ((30 ≤ fuel)%nat →
   (never_healthy drift asg_count (2 * orig) w2 →
    deploy drift fuel n w =
      (Raised (SystemExit 5), timed_out drift w2 (DescribeAutoScalingInstances 50))) ∧
   (∀ k1 v1, (k1 < 30)%nat →
      first_healthy drift asg_count (2 * orig) w2 k1 v1 →
      let w3 := at_poll drift w2 k1 (DescribeAutoScalingInstances 50) in
      deploy_await_asg drift fuel asg' target w2 = (Returned v1, w3) ∧
      (never_healthy drift (elb_count elb) (2 * orig) w3 →
       deploy drift fuel n w =
         (Raised (SystemExit 5), timed_out drift w3 (health_query elb))) ∧
      (∀ k2 v2, (k2 < 30)%nat →
         first_healthy drift (elb_count elb) (2 * orig) w3 k2 v2 →
         let w4 := at_poll drift w3 k2 (health_query elb) in
         deploy_await_elb drift fuel elb target w3 = (Returned v2, w4) ∧
         deploy drift fuel n w = deploy_retire asg' ec2 orig w4))).
Proof.
  intros Hpre Hdouble.
  destruct (deploy_double_returned _ _ _ _ _ _ _ Hdouble)
    as (g & Hg & -> & -> & Hd & _).
  split; [unfold desired; by rewrite Hg|].
  split; [done|]. split; [done|].
  split; [unfold deploy; by rewrite bind_run, Hpre, bind_run, Hdouble|].
  split; [intros v; eapply polled_calls, deploy_await_asg_polled|].
  split; [intros v; eapply polled_calls, deploy_await_elb_polled|].
  intros Hfuel. split.
  { intros Hnever. by eapply deploy_gives_up_on_group. }
  intros k1 v1 Hk1 Hfirst1. cbv zeta.
  split; [apply deploy_await_asg_returns; [done|lia|done]|].
  split.
  { intros Hnever. by eapply deploy_gives_up_on_balancer. }
  intros k2 v2 Hk2 Hfirst2.
  split; [apply deploy_await_elb_returns; [done|lia|done]|].
  by eapply deploy_goes_on_to_retire.
Qed.

Lemma doubled_target_fixed_witness :
  let w := Scenario.start (Scenario.account 2 10 Scenario.together) in
  let w3 := at_poll Scenario.launch Scenario.doubled 2 (DescribeAutoScalingInstances 50) in
  desired "web" (cloud Scenario.prepared) = Some 2 ∧
  desired "web" (cloud Scenario.doubled) = Some (2 * 2) ∧
  deploy Scenario.launch 30 "web" w =
    (deploy_await_asg Scenario.launch 30 Scenario.asg_doubled (2 * 2);;
     deploy_await_elb Scenario.launch 30 Scenario.elb (2 * 2);;
     deploy_retire Scenario.asg_doubled EC2.__init__ 2) Scenario.doubled ∧
  deploy_await_asg Scenario.launch 30 Scenario.asg_doubled 4 Scenario.doubled =
    (Returned 4, w3) ∧
  deploy Scenario.launch 30 "web" w =
    deploy_retire Scenario.asg_doubled EC2.__init__ 2
      (at_poll Scenario.launch w3 0 (health_query Scenario.elb)) ∧
  deploy Scenario.still 30 "web" w =
    (Raised (SystemExit 5),
     timed_out Scenario.still Scenario.doubled (DescribeAutoScalingInstances 50)) ∧
  deploy Cases.fleet_only 30 "web" w =
    (Raised (SystemExit 5),
     timed_out Cases.fleet_only
       (at_poll Cases.fleet_only Scenario.doubled 2 (DescribeAutoScalingInstances 50))
       (health_query Scenario.elb)).
Proof.
  cbv zeta.
  pose proof (doubled_target_fixed Scenario.launch 30 "web"
                (Scenario.start (Scenario.account 2 10 Scenario.together))
                Scenario.prepared Scenario.doubled Scenario.asg Scenario.asg_doubled
                EC2.__init__ Scenario.elb 2 4
                ltac:(vm_compute; reflexivity) ltac:(vm_compute; reflexivity))
    as (H1 & _ & H2 & H3 & _ & _ & Hlaunch).
  pose proof (doubled_target_fixed Scenario.still 30 "web"
                (Scenario.start (Scenario.account 2 10 Scenario.together))
                Scenario.prepared Scenario.doubled Scenario.asg Scenario.asg_doubled
                EC2.__init__ Scenario.elb 2 4
                ltac:(vm_compute; reflexivity) ltac:(vm_compute; reflexivity))
    as (_ & _ & _ & _ & _ & _ & Hstill).
  pose proof (doubled_target_fixed Cases.fleet_only 30 "web"
                (Scenario.start (Scenario.account 2 10 Scenario.together))
                Scenario.prepared Scenario.doubled Scenario.asg Scenario.asg_doubled
                EC2.__init__ Scenario.elb 2 4
                ltac:(vm_compute; reflexivity) ltac:(vm_compute; reflexivity))
    as (_ & _ & _ & _ & _ & _ & Honly).
  destruct (Hlaunch ltac:(lia)) as [_ Hlaunch'].
  destruct (Hlaunch' 2%nat 4 ltac:(lia)) as (H4 & _ & Hlaunch'').
  { split; [|split; [vm_compute; reflexivity|lia]].
    intros i Hi. do 2 (destruct i as [|i]; [exists 2; split; [reflexivity|lia]|]). lia. }
  destruct (Hlaunch'' 0%nat 4 ltac:(lia)) as (_ & H5).
  { split; [intros i Hi; lia|]. split; [vm_compute; reflexivity|lia]. }
  destruct (Hstill ltac:(lia)) as [H6 _].
  destruct (Honly ltac:(lia)) as [_ Honly'].
  destruct (Honly' 2%nat 4 ltac:(lia)) as (_ & H7 & _).
  { split; [|split; [vm_compute; reflexivity|lia]].
    intros i Hi. do 2 (destruct i as [|i]; [exists 2; split; [reflexivity|lia]|]). lia. }
  split; [exact H1|]. split; [exact H2|]. split; [exact H3|]. split; [exact H4|].
  split; [exact H5|]. split.
  - apply H6. intros k Hk.
    do 30 (destruct k as [|k]; [exists 2; split; [reflexivity|lia]|]). lia.
  - apply H7. intros k Hk.
    do 30 (destruct k as [|k]; [exists 2; split; [vm_compute; reflexivity|lia]|]). lia.
Defined.

Lemma filter_mutating_read_only (log : list Call) :
  read_only log → filter (λ c, mutating c = true) log = [].
Proof.
  induction 1 as [|c log Hc _ IH]; [done|].
  rewrite filter_cons, decide_False; [done|]. by rewrite Hc.
Qed.

Lemma read_only_replicate (k : nat) (c : Call) :
  mutating c = false → read_only (replicate k c).
Proof. intros Hc. apply Forall_replicate. done. Qed.

(** What a deployment that ends with exit code 5 has done. *)
Lemma deploy_exit_5_changes (drift : Z → Cloud → Cloud) (fuel : nat) (n : string)
    (w w' : World) :
  deploy drift fuel n w = (Raised (SystemExit 5), w') →
  ∃ (orig : Z) (ids : list string) (log : list Call),
    desired n (cloud w) = Some orig ∧
    calls w' = calls w ++ log ∧
    filter (λ c, mutating c = true) log =
      [CreateTags false ids [EC2._termination_tag EC2.__init__];
       SuspendProcesses n ["AlarmNotification"];
       SetDesiredCapacity n (2 * orig) false] ∧
    ((∀ t c, settings n (drift t c) = settings n c) →
     settings n (cloud w') =
       (Some (2 * orig), suspended n (cloud w) ∪ {["AlarmNotification"]},
        terminated (cloud w))).
Proof.
  unfold deploy. rewrite bind_run.
  destruct (deploy_preflight_spec n w) as [(reads & Hreads & Hw1) Hpre].
  destruct (deploy_preflight n w) as [[[[asg ec2] elb]|e|] w1] eqn:Epre;
    cbn [fst snd] in *.
  2:{ intros [= -> ->]. lia. }
  2:{ done. }
  destruct Hpre as (Hname & Hprocs & ->).
  rewrite bind_run.
  destruct (deploy_double asg EC2.__init__ w1) as [[[[orig target] asg']|e|] w2] eqn:Edouble.
  2:{ intros [= -> ->]. pose proof (plain_deploy_double asg EC2.__init__ w1) as H.
      by rewrite Edouble in H. }
  2:{ done. }
  destruct (deploy_double_returned _ _ _ _ _ _ _ Edouble)
    as (g & Hg & -> & -> & Hd & Hs & Ht & Hc & Hn' & Hcalls).
  rewrite Hname, Hprocs in *. subst w1. cbn [cloud calls clock] in *.
  assert (∀ w3, polled drift (DescribeAutoScalingInstances 50) w2 w3 ∨
                (∃ wm, polled drift (DescribeAutoScalingInstances 50) w2 wm ∧
                       polled drift (health_query elb) wm w3) →
          ∃ (orig : Z) (ids : list string) (log : list Call),
            desired n (cloud w) = Some orig ∧
            calls w3 = calls w ++ log ∧
            filter (λ c, mutating c = true) log =
              [CreateTags false ids [EC2._termination_tag EC2.__init__];
               SuspendProcesses n ["AlarmNotification"];
               SetDesiredCapacity n (2 * orig) false] ∧
            ((∀ t c, settings n (drift t c) = settings n c) →
             settings n (cloud w3) =
               (Some (2 * orig), suspended n (cloud w) ∪ {["AlarmNotification"]},
                terminated (cloud w)))) as Hend.
  { intros w3 Hw3.
    assert (∃ polls, read_only polls ∧ calls w3 = calls w2 ++ polls) as (polls & Hro & Hp).
    { destruct Hw3 as [H|(wm & H1 & H2)].
      - destruct (polled_calls _ _ _ _ H) as [k Hk].
        exists (replicate k (DescribeAutoScalingInstances 50)).
        split; [by apply read_only_replicate|done].
      - destruct (polled_calls _ _ _ _ H1) as [k1 Hk1].
        destruct (polled_calls _ _ _ _ H2) as [k2 Hk2].
        exists (replicate k1 (DescribeAutoScalingInstances 50) ++
                replicate k2 (health_query elb)).
        split; [apply Forall_app; split; by apply read_only_replicate|].
        by rewrite Hk2, Hk1, <- app_assoc. }
    exists (DesiredCapacity g), (map asi_InstanceId (Instances g)).
    eexists. split; [unfold desired; by rewrite Hg|].
    split; [rewrite Hp, Hcalls, <- !app_assoc; reflexivity|].
    split.
    - rewrite !filter_app, (filter_mutating_read_only reads Hreads),
        (filter_mutating_read_only polls Hro).
      unfold group_query. cbn. repeat case_decide; done.
    - intros Hquiet.
      assert (settings n (cloud w2) =
              (Some (2 * DesiredCapacity g), suspended n (cloud w) ∪ {["AlarmNotification"]},
               terminated (cloud w))) as Hset.
      { unfold settings. rewrite Hd, Hs, Ht. unfold suspended. rewrite Hg. cbn.
        do 2 f_equal; set_solver. }
      rewrite <- Hset.
      assert (∀ a b c, polled drift c a b → settings n (cloud b) = settings n (cloud a))
        as Hinv.
      { intros a b c Hab.
        apply (polled_invariant drift c (λ x, settings n x = settings n (cloud a)) a b);
          [|done|done].
        intros t cl <-. apply Hquiet. }
      destruct Hw3 as [H|(wm & H1 & H2)].
      + by apply Hinv in H.
      + apply Hinv in H1, H2. congruence. }
  rewrite bind_run.
  pose proof (deploy_await_asg_polled drift fuel asg' (2 * DesiredCapacity g) w2) as Hasg.
  destruct (deploy_await_asg drift fuel asg' (2 * DesiredCapacity g) w2)
    as [[healthy|e|] w3] eqn:Easg; cbn [snd] in Hasg.
  2:{ intros [= -> ->]. apply Hend. by left. }
  2:{ done. }
  rewrite bind_run.
  pose proof (deploy_await_elb_polled drift fuel elb (2 * DesiredCapacity g) w3) as Helb.
  destruct (deploy_await_elb drift fuel elb (2 * DesiredCapacity g) w3)
    as [[healthy'|e|] w4] eqn:Eelb; cbn [snd] in Helb.
  2:{ intros [= -> ->]. apply Hend. right. by exists w3. }
  2:{ done. }
  intros Hretire.
  pose proof (plain_deploy_retire asg' EC2.__init__ (DesiredCapacity g) w4) as H.
  by rewrite Hretire in H.
Qed.

(** C5: when a polling phase times out, that is when none of its thirty
    polls sees the target, the deployment exits with code 5 in the world
    the phase gave up in: after the doubling it has only read health
    counts and slept.  This holds for the wait on the group and, once the
    group has seen the target, for the wait on the balancer.  And a
    deployment that ends with exit code 5 has issued, of the calls that
    change the account, the tagging, the suspension and the doubling, and
    nothing else: no termination, no second capacity change, no
    resumption.  When nobody else touches the settings of the group while
    the script sleeps, the desired capacity is left doubled, the alarm
    process suspended and no instance terminated. *)
Theorem timeout_leaves_doubled (drift : Z → Cloud → Cloud) (fuel : nat) (n : string)
    (w : World) :
  (∀ asg ec2 elb w1 orig target asg' w2,
     deploy_preflight n w = (Returned (asg, ec2, elb), w1) →
     deploy_double asg ec2 w1 = (Returned (orig, target, asg'), w2) →
     (30 ≤ fuel)%nat →
     (never_healthy drift asg_count target w2 →
      deploy drift fuel n w =
        (Raised (SystemExit 5), timed_out drift w2 (DescribeAutoScalingInstances 50))) ∧
     (∀ k v, (k < 30)%nat →
        first_healthy drift asg_count target w2 k v →
        never_healthy drift (elb_count elb) target
          (at_poll drift w2 k (DescribeAutoScalingInstances 50)) →
        deploy drift fuel n w =
          (Raised (SystemExit 5),
           timed_out drift (at_poll drift w2 k (DescribeAutoScalingInstances 50))
             (health_query elb)))) ∧
  (∀ w', deploy drift fuel n w = (Raised (SystemExit 5), w') →
     ∃ (orig : Z) (ids : list string) (log : list Call),
       desired n (cloud w) = Some orig ∧
       calls w' = calls w ++ log ∧
       filter (λ c, mutating c = true) log =
         [CreateTags false ids [EC2._termination_tag EC2.__init__];
          SuspendProcesses n ["AlarmNotification"];
          SetDesiredCapacity n (2 * orig) false] ∧
       ((∀ t c, settings n (drift t c) = settings n c) →
        settings n (cloud w') =
          (Some (2 * orig), suspended n (cloud w) ∪ {["AlarmNotification"]},
           terminated (cloud w)))).
Proof.
  split.
  - intros asg ec2 elb w1 orig target asg' w2 Hpre Hdouble Hfuel. split.
    + intros Hnever. by eapply deploy_gives_up_on_group.
    + intros k v Hk Hfirst Hnever. by eapply deploy_gives_up_on_balancer.
  - intros w'. apply deploy_exit_5_changes.
Qed.

Lemma timeout_leaves_doubled_witness :
  let w := Scenario.start (Scenario.account 2 10 Scenario.together) in
  let w3 := at_poll Cases.fleet_only Scenario.doubled 2 (DescribeAutoScalingInstances 50) in
  deploy Scenario.still 30 "web" w =
    (Raised (SystemExit 5),
     timed_out Scenario.still Scenario.doubled (DescribeAutoScalingInstances 50)) ∧
  deploy Cases.fleet_only 30 "web" w =
    (Raised (SystemExit 5), timed_out Cases.fleet_only w3 (health_query Scenario.elb)) ∧
  ∃ (orig : Z) (ids : list string) (log : list Call),
    desired "web" (cloud w) = Some orig ∧
    calls (timed_out Cases.fleet_only w3 (health_query Scenario.elb)) = calls w ++ log ∧
    filter (λ c, mutating c = true) log =
      [CreateTags false ids [EC2._termination_tag EC2.__init__];
       SuspendProcesses "web" ["AlarmNotification"];
       SetDesiredCapacity "web" (2 * orig) false] ∧
    settings "web" (cloud (timed_out Cases.fleet_only w3 (health_query Scenario.elb))) =
      (Some (2 * orig), suspended "web" (cloud w) ∪ {["AlarmNotification"]},
       terminated (cloud w)).
Proof.
  cbv zeta.
  destruct (timeout_leaves_doubled Scenario.still 30 "web"
              (Scenario.start (Scenario.account 2 10 Scenario.together)))
    as [Hstill _].
  destruct (Hstill Scenario.asg EC2.__init__ Scenario.elb Scenario.prepared 2 4
              Scenario.asg_doubled Scenario.doubled
              ltac:(vm_compute; reflexivity) ltac:(vm_compute; reflexivity) ltac:(lia))
    as [Hgroup _].
  destruct (timeout_leaves_doubled Cases.fleet_only 30 "web"
              (Scenario.start (Scenario.account 2 10 Scenario.together)))
    as [Honly Hafter].
  destruct (Honly Scenario.asg EC2.__init__ Scenario.elb Scenario.prepared 2 4
              Scenario.asg_doubled Scenario.doubled
              ltac:(vm_compute; reflexivity) ltac:(vm_compute; reflexivity) ltac:(lia))
    as [_ Hbalancer].
  assert (deploy Cases.fleet_only 30 "web"
            (Scenario.start (Scenario.account 2 10 Scenario.together)) =
          (Raised (SystemExit 5),
           timed_out Cases.fleet_only
             (at_poll Cases.fleet_only Scenario.doubled 2 (DescribeAutoScalingInstances 50))
             (health_query Scenario.elb))) as Hexit.
  { apply (Hbalancer 2%nat 4); [lia| |].
    - split; [|split; [vm_compute; reflexivity|lia]].
      intros i Hi. do 2 (destruct i as [|i]; [exists 2; split; [reflexivity|lia]|]). lia.
    - intros k Hk.
      do 30 (destruct k as [|k]; [exists 2; split; [vm_compute; reflexivity|lia]|]). lia. }
  split.
  { apply Hgroup. intros k Hk.
    do 30 (destruct k as [|k]; [exists 2; split; [reflexivity|lia]|]). lia. }
  split; [exact Hexit|].
  destruct (Hafter _ Hexit) as (orig & ids & log & H1 & H2 & H3 & H4).
  exists orig, ids, log. repeat split; [exact H1|exact H2|exact H3|].
  apply H4. intros t c. unfold Cases.fleet_only. by destruct (t =? 60).
Defined.

(** Thirty units of fuel are enough for the whole deployment. *)
Lemma deploy_finishes (drift : Z → Cloud → Cloud) (fuel : nat) (n : string) (w : World) :
  (30 ≤ fuel)%nat → fst (deploy drift fuel n w) ≠ Unfinished.
Proof.
  intros Hfuel. unfold deploy. rewrite bind_run.
  pose proof (proj2 (deploy_preflight_spec n w)) as Hpre.
  destruct (deploy_preflight n w) as [[[[asg ec2] elb]|e|] w1]; cbn [fst] in *;
    [|done..].
  rewrite bind_run.
  pose proof (plain_deploy_double asg ec2 w1) as Hdouble.
  destruct (deploy_double asg ec2 w1) as [[[[orig target] asg']|e|] w2]; cbn [fst] in *;
    [|done..].
  rewrite bind_run.
  pose proof (deploy_await_asg_bounded drift fuel asg' target w2 Hfuel) as Hasg.
  unfold bounded_wait in Hasg.
  destruct (deploy_await_asg drift fuel asg' target w2) as [[healthy|e|] w3];
    cbn [fst] in *; [|done..].
  rewrite bind_run.
  pose proof (deploy_await_elb_bounded drift fuel elb target w3 Hfuel) as Helb.
  unfold bounded_wait in Helb.
  destruct (deploy_await_elb drift fuel elb target w3) as [[healthy'|e|] w4];
    cbn [fst] in *; [|done..].
  pose proof (plain_deploy_retire asg' ec2 orig w4) as Hretire.
  by destruct (deploy_retire asg' ec2 orig w4) as [[u|e|] w5].
Qed.

(** ** The scenarios of the specification, run *)

(** Desired 2 of at most 10: the group doubles to 4, the new instances
    come up, the two old ones are terminated and the capacity is back at
    2. *)
Example scenario_A :
  let r := deploy Scenario.launch 30 "web"
             (Scenario.start (Scenario.account 2 10 Scenario.together)) in
  fst r = Returned () ∧
  clock (snd r) = 60 ∧
  desired "web" (cloud (snd r)) = Some 2 ∧
  terminated (cloud (snd r)) = {["i-1"; "i-2"]} ∧
  suspended "web" (cloud (snd r)) = ∅ ∧
  filter (λ c, mutating c = true) (calls (snd r)) =
    [CreateTags false ["i-1"; "i-2"] [EC2._termination_tag EC2.__init__];
     SuspendProcesses "web" ["AlarmNotification"];
     SetDesiredCapacity "web" 4 false;
     TerminateInstances false ["i-1"; "i-2"];
     SetDesiredCapacity "web" 2 false;
     ResumeProcesses "web" ["AlarmNotification"]].
Proof. vm_compute. repeat split; reflexivity. Qed.

(** Desired 6 of at most 10: exit code 4 and no change. *)
Example scenario_B :
  let r := deploy Scenario.still 30 "web"
             (Scenario.start (Scenario.account 6 10 Scenario.together)) in
  fst r = Raised (SystemExit 4) ∧
  cloud (snd r) = Scenario.account 6 10 Scenario.together ∧
  filter (λ c, mutating c = true) (calls (snd r)) = [].
Proof. vm_compute. repeat split; reflexivity. Qed.

(** The new instances never come up: exit code 5 after 900, the capacity
    left at 4, the alarm process suspended, nothing terminated. *)
Example scenario_C :
  let r := deploy Scenario.still 30 "web"
             (Scenario.start (Scenario.account 2 10 Scenario.together)) in
  fst r = Raised (SystemExit 5) ∧
  clock (snd r) = 900 ∧
  desired "web" (cloud (snd r)) = Some 4 ∧
  terminated (cloud (snd r)) = ∅ ∧
  suspended "web" (cloud (snd r)) = {["AlarmNotification"]}.
Proof. vm_compute. repeat split; reflexivity. Qed.

(** The new instances come up in the group after a minute and never
    behind the balancer: the wait on the group returns, the wait on the
    balancer gives up 900 later with exit code 5, and the account is left
    as in the case before. *)
Example scenario_C_balancer :
  let r := deploy Cases.fleet_only 30 "web"
             (Scenario.start (Scenario.account 2 10 Scenario.together)) in
  fst r = Raised (SystemExit 5) ∧
  clock (snd r) = 60 + 900 ∧
  desired "web" (cloud (snd r)) = Some 4 ∧
  terminated (cloud (snd r)) = ∅ ∧
  suspended "web" (cloud (snd r)) = {["AlarmNotification"]} ∧
  filter (λ c, mutating c = true) (calls (snd r)) =
    [CreateTags false ["i-1"; "i-2"] [EC2._termination_tag EC2.__init__];
     SuspendProcesses "web" ["AlarmNotification"];
     SetDesiredCapacity "web" 4 false].
Proof. vm_compute. repeat split; reflexivity. Qed.

(** * Further properties *)

(** ** Counting healthy instances *)

Lemma in_service_bounds (l : list AutoScalingInstance) :
  0 ≤ in_service l ≤ Z.of_nat (length l).
Proof.
  unfold in_service. split; [lia|].
  apply inj_le, length_filter.
Qed.

Lemma registered_in_service_bounds (l : list InstanceState) :
  0 ≤ registered_in_service l ≤ Z.of_nat (length l).
Proof.
  unfold registered_in_service. split; [lia|].
  apply inj_le, length_filter.
Qed.

Lemma elb_get_total_instance_count_run elb w :
  ElasticLoadBalancer.get_total_instance_count elb w =
  (match balancers (cloud w) !! ElasticLoadBalancer.name elb with
   | Some states => Returned (Z.of_nat (length states))
   | None => Raised (ClientError "LoadBalancerNotFound")
   end, log_call (health_query elb) w).
Proof.
  unfold ElasticLoadBalancer.get_total_instance_count. rewrite bind_run.
  unfold ElasticLoadBalancer.get_instance_health, boto.describe_instance_health, api.
  destruct (balancers (cloud w) !! ElasticLoadBalancer.name elb) as [states|]; reflexivity.
Qed.

(** X1: read in the same world, the healthy count of a balancer lies
    between 0 and its total count. *)
Theorem elb_healthy_at_most_total (elb : ElasticLoadBalancer.t) (w : World) (healthy total : Z) :
  fst (ElasticLoadBalancer.get_healthy_instance_count elb w) = Returned healthy →
  fst (ElasticLoadBalancer.get_total_instance_count elb w) = Returned total →
  0 ≤ healthy ≤ total.
Proof.
  rewrite elb_get_healthy_instance_count_run, elb_get_total_instance_count_run.
  cbn [fst].
  destruct (balancers (cloud w) !! ElasticLoadBalancer.name elb) as [states|]; [|done].
  intros [= <-] [= <-]. apply registered_in_service_bounds.
Qed.

Lemma asg_count_at_most_page (c : Cloud) : 0 ≤ in_service (take 50 (fleet c)) ≤ 50.
Proof.
  pose proof (in_service_bounds (take 50 (fleet c))) as H.
  rewrite length_take in H. lia.
Qed.

Lemma deploy_await_asg_above_page (drift : Z → Cloud → Cloud) (fuel : nat)
    (asg : AutoScalingGroup.t) (target : Z) (w : World) :
  (30 ≤ fuel)%nat → 50 < target →
  fst (deploy_await_asg drift fuel asg target w) = Raised (SystemExit 5) ∧
  clock (snd (deploy_await_asg drift fuel asg target w)) = clock w + 900.
Proof.
  intros Hfuel Htarget. apply deploy_await_asg_times_out; [done|].
  intros k _. eexists. split; [reflexivity|].
  pose proof (asg_count_at_most_page (drifted drift (clock w) k (cloud w))). lia.
Qed.

(** X2: the healthy count of the scaling service lies between 0 and 50,
    the size of the one page it reads; so the wait for a target above 50
    ends with exit code 5 after 900, whatever the fleet does. *)
Theorem asg_wait_hopeless_above_page (drift : Z → Cloud → Cloud) (fuel : nat)
    (asg : AutoScalingGroup.t) (target : Z) (w : World) :
  (30 ≤ fuel)%nat → 50 < target →
  (∀ v, fst (AutoScalingGroup.get_healthy_instance_count asg w) = Returned v →
        0 ≤ v ≤ 50) ∧
  fst (deploy_await_asg drift fuel asg target w) = Raised (SystemExit 5) ∧
  clock (snd (deploy_await_asg drift fuel asg target w)) = clock w + 900.
Proof.
  intros Hfuel Htarget. split; [|by apply deploy_await_asg_above_page].
  intros v. rewrite asg_get_healthy_instance_count_run. intros [= <-].
  apply asg_count_at_most_page.
Qed.

(** X3: a group whose desired capacity is above 25 is never deployed with
    success: the deployment ends with an exception. *)
Theorem deploy_fails_above_25 (drift : Z → Cloud → Cloud) (fuel : nat) (n : string)
    (w : World) (g : GroupDescription) :
  (30 ≤ fuel)%nat →
  groups (cloud w) !! n = Some g →
  25 < DesiredCapacity g →
  ∃ e, fst (deploy drift fuel n w) = Raised e.
Proof.
  intros Hfuel Hg Hd. unfold deploy. rewrite bind_run.
  destruct (deploy_preflight_spec n w) as [(reads & Hreads & Hw1) Hpre].
  destruct (deploy_preflight n w) as [[[[asg ec2] elb]|e|] w1] eqn:Epre;
    cbn [fst snd] in *; [|by eexists|done].
  destruct Hpre as (Hname & _ & _).
  rewrite bind_run.
  pose proof (plain_deploy_double asg ec2 w1) as Hplain.
  destruct (deploy_double asg ec2 w1) as [[[[orig target] asg']|e|] w2] eqn:Edouble;
    cbn [fst] in Hplain; [|by eexists|done].
  destruct (deploy_double_returned _ _ _ _ _ _ _ Edouble) as (g' & Hg' & -> & -> & _).
  rewrite Hname in Hg'. subst w1. cbn [cloud] in Hg'. rewrite Hg in Hg'.
  injection Hg' as <-.
  rewrite bind_run.
  destruct (deploy_await_asg_above_page drift fuel asg' (2 * DesiredCapacity g) w2
              Hfuel ltac:(lia)) as [Hexit _].
  destruct (deploy_await_asg drift fuel asg' (2 * DesiredCapacity g) w2) as [o w3].
  cbn [fst] in Hexit. subst o. by eexists.
Qed.

(** ** Marking *)

Lemma carries_marker_tag_value self c id :
  carries_marker self c id = true ↔
  tag_value c id (Key (EC2._termination_tag self)) = Some (Value (EC2._termination_tag self)).
Proof.
  unfold carries_marker, boto.has_tag, tag_value.
  destruct (tags c !! id ≫= _) as [v|]; [|done].
  rewrite bool_decide_eq_true, list_elem_of_singleton. split; congruence.
Qed.

Lemma tag_map_single_key (t : Tag) : boto.tag_map [t] !! Key t = Some (Value t).
Proof. unfold boto.tag_map. cbn. apply lookup_insert_eq. Qed.

Lemma tag_map_single_other (t : Tag) (k : string) :
  k ≠ Key t → boto.tag_map [t] !! k = None.
Proof. intros Hk. unfold boto.tag_map. cbn. by rewrite lookup_insert_ne. Qed.

Lemma mark_run self ids w :
  EC2.mark_instances_for_termination self ids w =
  (match ec2_fault (cloud w), ids with
   | Some code, _ => Raised (ClientError code)
   | None, [] => Raised (ClientError "MissingParameter")
   | None, _ :: _ => Returned ()
   end,
   set_cloud
     (match ec2_fault (cloud w), ids with
      | None, _ :: _ =>
          boto.set_tags
            (foldr (boto.tag_resource [EC2._termination_tag self]) (tags (cloud w)) ids)
            (cloud w)
      | _, _ => cloud w
      end)
     (log_call (CreateTags false ids [EC2._termination_tag self]) w)).
Proof.
  unfold EC2.mark_instances_for_termination, EC2.tag_instances, boto.create_tags, api,
    boto.ec2_call.
  destruct (ec2_fault (cloud w)); [reflexivity|]. destruct ids; reflexivity.
Qed.

Lemma tag_value_marked self ids (c : Cloud) id k :
  tag_value
    (boto.set_tags (foldr (boto.tag_resource [EC2._termination_tag self]) (tags c) ids) c)
    id k =
  if decide (id ∈ ids ∧ k = Key (EC2._termination_tag self))
  then Some (Value (EC2._termination_tag self))
  else tag_value c id k.
Proof.
  unfold tag_value. cbn [tags boto.set_tags]. rewrite lookup_tag_resources.
  destruct (decide (id ∈ ids)) as [Hin|Hnin].
  - cbn [mbind option_bind].
    destruct (decide (k = Key (EC2._termination_tag self))) as [->|Hk].
    + rewrite decide_True by done.
      apply lookup_union_Some_l, tag_map_single_key.
    + rewrite decide_False by (by intros [_ ?]).
      rewrite lookup_union_r by (by apply tag_map_single_other).
      by destruct (tags c !! id).
  - rewrite decide_False by (by intros [? _]). done.
Qed.

(** X4: with EC2 up, marking a list of instances that is not empty
    returns, while marking the empty list is refused by the provider with
    MissingParameter and changes nothing; afterwards every listed instance
    carries the marker, an instance not listed carries it exactly when it
    did and keeps its tags, no other tag key of any instance has changed,
    and the rest of the account is as it was. *)
Theorem mark_tags_listed_only (self : EC2.t) (ids : list string) (w : World) :
  ec2_fault (cloud w) = None →
  let r := EC2.mark_instances_for_termination self ids w in
  (ids ≠ [] → fst r = Returned ()) ∧
  (ids = [] →
     fst r = Raised (ClientError "MissingParameter") ∧ cloud (snd r) = cloud w) ∧
  (∀ id, id ∈ ids → carries_marker self (cloud (snd r)) id = true) ∧
  (∀ id, id ∉ ids →
     carries_marker self (cloud (snd r)) id = carries_marker self (cloud w) id) ∧
  (∀ id k, k ≠ Key (EC2._termination_tag self) →
     tag_value (cloud (snd r)) id k = tag_value (cloud w) id k) ∧
  (∀ id, id ∉ ids → tags (cloud (snd r)) !! id = tags (cloud w) !! id) ∧
  (groups (cloud (snd r)), fleet (cloud (snd r)), balancers (cloud (snd r)),
   reservations (cloud (snd r)), terminated (cloud (snd r)))
  = (groups (cloud w), fleet (cloud w), balancers (cloud w),
     reservations (cloud w), terminated (cloud w)).
Proof.
  intros Hup. cbv zeta. rewrite mark_run, Hup.
  destruct ids as [|i0 ids0].
  { cbn [fst snd cloud set_cloud log_call].
    repeat split; try done. by intros id ?%elem_of_nil. }
  set (ids := i0 :: ids0). cbn [fst snd cloud set_cloud].
  split; [done|]. split; [done|]. split; [|split; [|split; [|split]]].
  - intros id Hin. apply carries_marker_tag_value.
    rewrite tag_value_marked. by rewrite decide_True.
  - intros id Hnin. unfold carries_marker, boto.has_tag.
    fold (tag_value (boto.set_tags
            (foldr (boto.tag_resource [EC2._termination_tag self]) (tags (cloud w)) ids)
            (cloud w)) id (Key (EC2._termination_tag self))).
    rewrite tag_value_marked, decide_False by (by intros [? _]). done.
  - intros id k Hk. rewrite tag_value_marked, decide_False by (by intros [_ ?]). done.
  - intros id Hnin. cbn [tags boto.set_tags]. rewrite lookup_tag_resources.
    by rewrite decide_False.
  - done.
Qed.

(** ** Asking for the marked instances, and retiring them *)

Lemma map_filter_InstanceId (P : string → Prop) `{∀ x, Decision (P x)} (l : list Instance) :
  map InstanceId (filter (λ i, P (InstanceId i)) l) = filter P (map InstanceId l).
Proof.
  induction l as [|i l IH]; [done|].
  rewrite filter_cons. cbn [map]. rewrite filter_cons.
  destruct (decide (P (InstanceId i))); cbn [map]; by rewrite IH.
Qed.

Lemma filter_agree {A} (P Q : A → Prop) `{∀ x, Decision (P x)} `{∀ x, Decision (Q x)}
    (l : list A) :
  (∀ x, x ∈ l → (P x ↔ Q x)) → filter P l = filter Q l.
Proof.
  induction l as [|x l IH]; intros HPQ; [done|].
  rewrite !filter_cons.
  assert (filter P l = filter Q l) as ->.
  { apply IH. intros y Hy. apply HPQ. by apply list_elem_of_further. }
  pose proof (HPQ x (list_elem_of_here _ _)) as Hx.
  destruct (decide (P x)), (decide (Q x)); tauto || done.
Qed.

Lemma first_marked_carry self c id :
  id ∈ first_marked self c → carries_marker self c id = true.
Proof.
  unfold first_marked. destruct (ec2_fault c); [by intros ?%elem_of_nil|].
  unfold marked_reservations, boto.matching_reservations.
  destruct (filter _ _) as [|first rest] eqn:Hf; [by intros ?%elem_of_nil|].
  assert (first ∈ first :: rest) as Hin by apply list_elem_of_here.
  rewrite <- Hf in Hin. apply list_elem_of_filter in Hin as [_ Hin].
  apply list_elem_of_fmap in Hin as (r & -> & _). cbn [res_Instances].
  intros Hid. apply list_elem_of_fmap in Hid as (i & -> & Hi).
  by apply list_elem_of_filter in Hi as [Hi _].
Qed.

(** X5: marking a list of instances that is not empty and then asking for
    the marked instances, in an account whose instances are all in one
    reservation and carry no marker yet, gives the instances of the
    reservation that were listed, in the order of the reservation; with
    the empty list the marking is refused and the question never asked. *)
Theorem mark_then_query (self : EC2.t) (ids : list string) (w : World) (r : Reservation) :
  ec2_fault (cloud w) = None →
  reservations (cloud w) = [r] →
  (∀ i, i ∈ res_Instances r → carries_marker self (cloud w) (InstanceId i) = false) →
  let asked := (EC2.mark_instances_for_termination self ids;;
                EC2.get_instances_marked_for_termination self) w in
  (ids ≠ [] →
     fst asked = Returned (filter (λ id, id ∈ ids) (map InstanceId (res_Instances r)))) ∧
  (ids = [] →
     fst asked = Raised (ClientError "MissingParameter") ∧
     cloud (snd asked) = cloud w ∧
     calls (snd asked) = calls w ++ [CreateTags false [] [EC2._termination_tag self]]).
Proof.
  intros Hup Hres Hfresh. cbv zeta.
  rewrite bind_run, mark_run, Hup.
  destruct ids as [|i0 ids0].
  { split; [done|]. intros _. done. }
  split; [intros _|done].
  set (ids := i0 :: ids0).
  rewrite get_instances_marked_for_termination_run.
  cbn [fst snd cloud set_cloud log_call ec2_fault boto.set_tags]. rewrite Hup.
  unfold marked_reservations, boto.matching_reservations.
  cbn [reservations boto.set_tags]. rewrite Hres. cbn [map].
  set (c' := boto.set_tags _ (cloud w)).
  assert (filter (λ i, boto.has_tag c' (Key (EC2._termination_tag self))
                         [Value (EC2._termination_tag self)] (InstanceId i) = true)
            (res_Instances r)
          = filter (λ i, InstanceId i ∈ ids) (res_Instances r)) as ->.
  { apply filter_agree. intros i Hi.
    fold (carries_marker self c' (InstanceId i)).
    rewrite carries_marker_tag_value. subst c'. rewrite tag_value_marked.
    destruct (decide (InstanceId i ∈ ids)) as [Hin|Hnin].
    - rewrite decide_True by done. done.
    - rewrite decide_False by (by intros [? _]).
      specialize (Hfresh i Hi). rewrite <- carries_marker_tag_value, Hfresh. done. }
  rewrite <- (map_filter_InstanceId (λ id, id ∈ ids)).
  rewrite filter_cons. cbn [res_Instances].
  destruct (filter (λ i, InstanceId i ∈ ids) (res_Instances r)) as [|i l] eqn:Hf.
  - rewrite decide_False by (by intros ?). done.
  - rewrite decide_True by done. done.
Qed.

Lemma terminate_instances_run self ids w :
  EC2.terminate_instances self ids w =
  match ids with
  | [] => (Returned None, w)
  | _ =>
      match ec2_fault (cloud w) with
      | Some code =>
          (Raised (ClientError code), log_call (TerminateInstances false ids) w)
      | None =>
          (Returned (Some ids),
           set_cloud (boto.set_terminated (terminated (cloud w) ∪ list_to_set ids) (cloud w))
             (log_call (TerminateInstances false ids) w))
      end
  end.
Proof.
  destruct ids as [|id ids]; [reflexivity|].
  rewrite terminate_instances_cons, bind_run.
  unfold boto.terminate_instances, api, boto.ec2_call.
  destruct (ec2_fault (cloud w)); reflexivity.
Qed.

Lemma set_desired_capacity_run asg n w :
  AutoScalingGroup.set_desired_capacity asg n w =
  match groups (cloud w) !! AutoScalingGroup.name asg with
  | Some g =>
      if bool_decide (MinSize g ≤ n ≤ MaxSize g)
      then (Returned (),
            set_cloud
              (boto.set_groups
                 (<[AutoScalingGroup.name asg := boto.set_desired n g]> (groups (cloud w)))
                 (cloud w))
              (log_call (SetDesiredCapacity (AutoScalingGroup.name asg) n false) w))
      else (Raised (ClientError "ValidationError"),
            log_call (SetDesiredCapacity (AutoScalingGroup.name asg) n false) w)
  | None => (Raised (ClientError "ValidationError"),
             log_call (SetDesiredCapacity (AutoScalingGroup.name asg) n false) w)
  end.
Proof.
  unfold AutoScalingGroup.set_desired_capacity, boto.set_desired_capacity, api.
  destruct (groups (cloud w) !! AutoScalingGroup.name asg) as [g|]; [|reflexivity].
  by case_bool_decide.
Qed.

Lemma resume_processes_run asg w :
  AutoScalingGroup.resume_processes asg w =
  match groups (cloud w) !! AutoScalingGroup.name asg with
  | Some g =>
      (Returned (),
       set_cloud
         (boto.set_groups
            (<[AutoScalingGroup.name asg :=
                 boto.set_suspended
                   (SuspendedProcesses g ∖ boto.process_set (AutoScalingGroup.processes asg)) g]>
               (groups (cloud w)))
            (cloud w))
         (log_call (ResumeProcesses (AutoScalingGroup.name asg)
                      (AutoScalingGroup.processes asg)) w))
  | None => (Raised (ClientError "ValidationError"),
             log_call (ResumeProcesses (AutoScalingGroup.name asg)
                         (AutoScalingGroup.processes asg)) w)
  end.
Proof.
  unfold AutoScalingGroup.resume_processes, boto.resume_processes, api.
  destruct (groups (cloud w) !! AutoScalingGroup.name asg) as [g|]; reflexivity.
Qed.

Lemma deploy_retire_found (asg : AutoScalingGroup.t) (ec2 : EC2.t) (orig : Z)
    (w : World) (g : GroupDescription) :
  groups (cloud w) !! AutoScalingGroup.name asg = Some g →
  MinSize g ≤ orig ≤ MaxSize g →
  let n := AutoScalingGroup.name asg in
  let ids := first_marked ec2 (cloud w) in
  let r := deploy_retire asg ec2 orig w in
  fst r = Returned () ∧
  calls (snd r) =
    calls w ++ marker_query ec2 ::
      match ids with [] => [] | _ => [TerminateInstances false ids] end ++
      [SetDesiredCapacity n orig false;
       ResumeProcesses n (AutoScalingGroup.processes asg)] ∧
  terminated (cloud (snd r)) = terminated (cloud w) ∪ list_to_set ids ∧
  desired n (cloud (snd r)) = Some orig ∧
  suspended n (cloud (snd r)) =
    SuspendedProcesses g ∖ boto.process_set (AutoScalingGroup.processes asg) ∧
  clock (snd r) = clock w.
Proof.
  intros Hg Horig. cbv zeta. unfold deploy_retire.
  rewrite bind_run, get_instances_marked_for_termination_run.
  fold (first_marked ec2 (cloud w)).
  rewrite bind_run, terminate_instances_run.
  cbn [cloud log_call].
  assert (first_marked ec2 (cloud w) ≠ [] → ec2_fault (cloud w) = None) as Hup.
  { unfold first_marked. by destruct (ec2_fault (cloud w)). }
  destruct (first_marked ec2 (cloud w)) as [|id ids] eqn:Hids.
  - rewrite bind_run, set_desired_capacity_run. cbn [cloud log_call]. rewrite Hg.
    rewrite bool_decide_eq_true_2 by done.
    rewrite resume_processes_run.
    cbn [cloud set_cloud log_call groups boto.set_groups]. rewrite lookup_insert_eq.
    cbn [fst snd cloud calls clock set_cloud log_call terminated boto.set_groups].
    unfold desired, suspended. cbn [groups boto.set_groups]. rewrite lookup_insert_eq.
    cbn. rewrite <- !app_assoc. cbn.
    repeat split; try done. by rewrite (right_id_L ∅ (∪)).
  - rewrite Hup by done.
    rewrite bind_run, set_desired_capacity_run.
    cbn [cloud set_cloud log_call groups boto.set_terminated]. rewrite Hg.
    rewrite bool_decide_eq_true_2 by done.
    rewrite resume_processes_run.
    cbn [cloud set_cloud log_call groups boto.set_groups]. rewrite lookup_insert_eq.
    cbn [fst snd cloud calls clock set_cloud log_call terminated boto.set_groups
         boto.set_terminated].
    unfold desired, suspended. cbn [groups boto.set_groups]. rewrite lookup_insert_eq.
    cbn -[list_to_set]. rewrite <- !app_assoc. cbn -[list_to_set].
    repeat split; done.
Qed.

(** X6: when the group is there and the original capacity is within its
    bounds, the retirement returns: it has asked once for the marked
    instances, terminated those of the first reservation when there are
    any, set the desired capacity to the original and resumed the
    processes of the object, without letting time pass. *)
Theorem retire_restores (asg : AutoScalingGroup.t) (ec2 : EC2.t) (orig : Z)
    (w : World) (g : GroupDescription) :
  groups (cloud w) !! AutoScalingGroup.name asg = Some g →
  MinSize g ≤ orig ≤ MaxSize g →
  let n := AutoScalingGroup.name asg in
  let ids := first_marked ec2 (cloud w) in
  let r := deploy_retire asg ec2 orig w in
  fst r = Returned () ∧
  calls (snd r) =
    calls w ++ marker_query ec2 ::
      match ids with [] => [] | _ => [TerminateInstances false ids] end ++
      [SetDesiredCapacity n orig false;
       ResumeProcesses n (AutoScalingGroup.processes asg)] ∧
  terminated (cloud (snd r)) = terminated (cloud w) ∪ list_to_set ids ∧
  desired n (cloud (snd r)) = Some orig ∧
  suspended n (cloud (snd r)) =
    SuspendedProcesses g ∖ boto.process_set (AutoScalingGroup.processes asg) ∧
  clock (snd r) = clock w.
Proof. apply deploy_retire_found. Qed.

(** X7: an outage of EC2 at the retirement goes unnoticed: the query
    swallows the error, nothing is terminated, the capacity is set to the
    original all the same and the retirement returns. *)
Theorem retire_swallows_outage (asg : AutoScalingGroup.t) (ec2 : EC2.t) (orig : Z)
    (w : World) (g : GroupDescription) (code : string) :
  ec2_fault (cloud w) = Some code →
  groups (cloud w) !! AutoScalingGroup.name asg = Some g →
  MinSize g ≤ orig ≤ MaxSize g →
  let n := AutoScalingGroup.name asg in
  let r := deploy_retire asg ec2 orig w in
  fst r = Returned () ∧
  calls (snd r) =
    calls w ++ [marker_query ec2; SetDesiredCapacity n orig false;
                ResumeProcesses n (AutoScalingGroup.processes asg)] ∧
  terminated (cloud (snd r)) = terminated (cloud w) ∧
  desired n (cloud (snd r)) = Some orig.
Proof.
  intros Hdown Hg Horig. cbv zeta.
  destruct (deploy_retire_found asg ec2 orig w g Hg Horig) as (H1 & H2 & H3 & H4 & _).
  assert (first_marked ec2 (cloud w) = []) as Hnone.
  { unfold first_marked. by rewrite Hdown. }
  rewrite Hnone in H2, H3. cbn in H3.
  repeat split; [done|done| |done].
  by rewrite H3, (right_id_L ∅ (∪)).
Qed.

Lemma restore_keeps_terminated asg n w :
  terminated (cloud (snd ((AutoScalingGroup.set_desired_capacity asg n;;
                           AutoScalingGroup.resume_processes asg) w)))
  = terminated (cloud w).
Proof.
  rewrite bind_run, set_desired_capacity_run.
  destruct (groups (cloud w) !! AutoScalingGroup.name asg) as [g|]; [|done].
  case_bool_decide; [|done].
  rewrite resume_processes_run.
  cbn [cloud set_cloud log_call groups boto.set_groups]. rewrite lookup_insert_eq. done.
Qed.

Lemma deploy_retire_terminated asg ec2 orig w :
  terminated (cloud (snd (deploy_retire asg ec2 orig w)))
  = terminated (cloud w) ∪ list_to_set (first_marked ec2 (cloud w)).
Proof.
  unfold deploy_retire.
  rewrite bind_run, get_instances_marked_for_termination_run.
  fold (first_marked ec2 (cloud w)).
  rewrite bind_run, terminate_instances_run. cbn [cloud log_call].
  assert (first_marked ec2 (cloud w) ≠ [] → ec2_fault (cloud w) = None) as Hup.
  { unfold first_marked. by destruct (ec2_fault (cloud w)). }
  destruct (first_marked ec2 (cloud w)) as [|id ids] eqn:Hids.
  - fold (AutoScalingGroup.set_desired_capacity asg orig;;
          AutoScalingGroup.resume_processes asg).
    rewrite restore_keeps_terminated. cbn. by rewrite (right_id_L ∅ (∪)).
  - rewrite Hup by done.
    fold (AutoScalingGroup.set_desired_capacity asg orig;;
          AutoScalingGroup.resume_processes asg).
    rewrite restore_keeps_terminated. done.
Qed.

(** X8: whatever happens, an instance terminated by the retirement
    carried the marker when the retirement began. *)
Theorem retire_terminates_marked_only (asg : AutoScalingGroup.t) (ec2 : EC2.t)
    (orig : Z) (w : World) (id : string) :
  id ∈ terminated (cloud (snd (deploy_retire asg ec2 orig w))) →
  id ∈ terminated (cloud w) ∨ carries_marker ec2 (cloud w) id = true.
Proof.
  rewrite deploy_retire_terminated, elem_of_union, elem_of_list_to_set.
  intros [?|Hin]; [by left|right]. by apply first_marked_carry.
Qed.

(** ** Doubling *)

Lemma double_in_size_run asg w :
  AutoScalingGroup.double_in_size asg w =
  match groups (cloud w) !! AutoScalingGroup.name asg with
  | Some g =>
      let n := AutoScalingGroup.name asg in
      let new := 2 * DesiredCapacity g in
      let logged := log_call (SetDesiredCapacity n new false) (log_call (group_query asg) w) in
      if bool_decide (MinSize g ≤ new ≤ MaxSize g)
      then (Returned (refreshed asg g),
            set_cloud (boto.set_groups (<[n := boto.set_desired new g]> (groups (cloud w)))
                         (cloud w)) logged)
      else (Raised (ClientError "ValidationError"), logged)
  | None => (Raised IndexError, log_call (group_query asg) w)
  end.
Proof.
  unfold AutoScalingGroup.double_in_size.
  rewrite bind_run, get_new_desired_capacity_run. unfold read_group.
  destruct (groups (cloud w) !! AutoScalingGroup.name asg) as [g|] eqn:Hg; [|reflexivity].
  rewrite bind_run, set_desired_capacity_run.
  cbn [cloud log_call AutoScalingGroup.name refreshed]. rewrite Hg. cbv zeta.
  by case_bool_decide.
Qed.

(** X9: doubling on its own: within the bounds of the group the desired
    capacity becomes twice what it was and nothing else of the groups
    changes; outside them the provider refuses and the cloud is as it
    was. *)
Theorem double_in_size_within_bounds (asg : AutoScalingGroup.t) (w : World)
    (g : GroupDescription) :
  groups (cloud w) !! AutoScalingGroup.name asg = Some g →
  let n := AutoScalingGroup.name asg in
  let r := AutoScalingGroup.double_in_size asg w in
  (MinSize g ≤ 2 * DesiredCapacity g ≤ MaxSize g →
   fst r = Returned (refreshed asg g) ∧
   desired n (cloud (snd r)) = Some (2 * DesiredCapacity g) ∧
   suspended n (cloud (snd r)) = suspended n (cloud w) ∧
   ∀ m, m ≠ n → groups (cloud (snd r)) !! m = groups (cloud w) !! m) ∧
  (¬ (MinSize g ≤ 2 * DesiredCapacity g ≤ MaxSize g) →
   fst r = Raised (ClientError "ValidationError") ∧
   cloud (snd r) = cloud w).
Proof.
  intros Hg. cbv zeta. rewrite double_in_size_run, Hg. cbv zeta. split; intros Hb.
  - rewrite bool_decide_eq_true_2 by done.
    cbn [fst snd cloud set_cloud]. unfold desired, suspended.
    cbn [groups boto.set_groups]. rewrite lookup_insert_eq, Hg. cbn.
    repeat split; try done. intros m Hm. by rewrite lookup_insert_ne.
  - rewrite bool_decide_eq_false_2 by done. done.
Qed.

(** What the steps from Mark to Double leave behind when they return: the
    group itself. *)
Lemma deploy_double_returned_group asg ec2 w orig target asg' w' g :
  deploy_double asg ec2 w = (Returned (orig, target, asg'), w') →
  groups (cloud w) !! AutoScalingGroup.name asg = Some g →
  groups (cloud w') !! AutoScalingGroup.name asg =
    Some (boto.set_desired (2 * DesiredCapacity g)
            (boto.set_suspended
               (SuspendedProcesses g ∪ boto.process_set (AutoScalingGroup.processes asg)) g)) ∧
  AutoScalingGroup.processes asg' = AutoScalingGroup.processes asg ∧
  ec2_fault (cloud w') = None ∧
  reservations (cloud w') = reservations (cloud w) ∧
  tags (cloud w') =
    foldr (boto.tag_resource [EC2._termination_tag ec2]) (tags (cloud w))
      (map asi_InstanceId (Instances g)).
Proof.
  intros Hrun Hg. revert Hrun. unfold deploy_double.
  rewrite bind_run, get_desired_capacity_run. unfold read_group. rewrite Hg.
  rewrite bind_run, get_instance_ids_run. unfold read_group.
  cbn [cloud log_call AutoScalingGroup.name refreshed]. rewrite Hg.
  rewrite bind_run, mark_run. cbn [cloud log_call].
  destruct (ec2_fault (cloud w)) as [code|] eqn:Hup; [done|].
  destruct (map asi_InstanceId (Instances g)) as [|i0 ids0] eqn:Hids; [done|].
  rewrite bind_run.
  unfold AutoScalingGroup.suspend_processes, boto.suspend_processes, api.
  cbn [cloud log_call set_cloud boto.set_tags groups AutoScalingGroup.name refreshed fst snd].
  rewrite Hg.
  rewrite bind_run, double_in_size_run.
  cbn [cloud log_call set_cloud boto.set_groups groups AutoScalingGroup.name refreshed fst snd].
  rewrite lookup_insert_eq. cbv zeta.
  case_bool_decide; [|done].
  rewrite bind_run, get_desired_capacity_run. unfold read_group.
  cbn [cloud log_call set_cloud boto.set_groups groups AutoScalingGroup.name refreshed fst snd].
  rewrite lookup_insert_eq.
  intros [= <- <- <- <-].
  cbn [cloud log_call set_cloud boto.set_groups groups AutoScalingGroup.name
       AutoScalingGroup.processes refreshed fst snd ec2_fault reservations tags
       boto.set_tags].
  rewrite lookup_insert_eq. done.
Qed.

(** X10: doubling and then retiring, on a group whose desired capacity
    was within its bounds, brings the desired capacity back to what it
    was; the processes of the object are resumed whether or not they were
    suspended before. *)
Theorem double_then_retire_round_trip (asg asg' : AutoScalingGroup.t) (ec2 : EC2.t)
    (w w1 : World) (orig target : Z) (g : GroupDescription) :
  deploy_double asg ec2 w = (Returned (orig, target, asg'), w1) →
  groups (cloud w) !! AutoScalingGroup.name asg = Some g →
  MinSize g ≤ DesiredCapacity g ≤ MaxSize g →
  let n := AutoScalingGroup.name asg in
  let r := deploy_retire asg' ec2 orig w1 in
  fst r = Returned () ∧
  desired n (cloud (snd r)) = desired n (cloud w) ∧
  suspended n (cloud (snd r)) =
    suspended n (cloud w) ∖ boto.process_set (AutoScalingGroup.processes asg) ∧
  terminated (cloud (snd r)) =
    terminated (cloud w) ∪ list_to_set (first_marked ec2 (cloud w1)).
Proof.
  intros Hdouble Hg Hbounds. cbv zeta.
  destruct (deploy_double_returned _ _ _ _ _ _ _ Hdouble)
    as (g' & Hg' & -> & -> & _ & _ & Ht & _ & Hn & _).
  rewrite Hg in Hg'. injection Hg' as <-.
  destruct (deploy_double_returned_group _ _ _ _ _ _ _ g Hdouble Hg)
    as (Hg1 & Hp & _).
  rewrite <- Hn in Hg1.
  destruct (deploy_retire_found asg' ec2 (DesiredCapacity g) w1 _ Hg1 Hbounds)
    as (H1 & _ & H3 & H4 & H5 & _).
  rewrite Hn in H4, H5. rewrite Hp in H5. cbn [SuspendedProcesses boto.set_desired
    boto.set_suspended] in H5.
  repeat split; [done| | |by rewrite H3, Ht].
  - rewrite H4. unfold desired. by rewrite Hg.
  - rewrite H5. unfold suspended. rewrite Hg. cbn [from_option].
    apply set_eq. intros x. rewrite !elem_of_difference, elem_of_union. tauto.
Qed.

(** ** Waiting that ends well *)

(** X11: a polling phase returns at the first poll that sees the target:
    with the count of that poll, after as many sleeps of 30 as polls came
    before, and having asked for the count once per poll. *)
Theorem polling_converges (drift : Z → Cloud → Cloud) (fuel : nat)
    (asg : AutoScalingGroup.t) (elb : ElasticLoadBalancer.t) (target : Z) (w : World)
    (k : nat) (v : Z) :
  (k < 30)%nat → (k ≤ fuel)%nat →
  (first_healthy drift asg_count target w k v →
   let r := deploy_await_asg drift fuel asg target w in
   fst r = Returned v ∧
   cloud (snd r) = drifted drift (clock w) k (cloud w) ∧
   clock (snd r) = clock w + 30 * Z.of_nat k ∧
   calls (snd r) = calls w ++ replicate (S k) (DescribeAutoScalingInstances 50)) ∧
  (first_healthy drift (elb_count elb) target w k v →
   let r := deploy_await_elb drift fuel elb target w in
   fst r = Returned v ∧
   cloud (snd r) = drifted drift (clock w) k (cloud w) ∧
   clock (snd r) = clock w + 30 * Z.of_nat k ∧
   calls (snd r) = calls w ++ replicate (S k) (health_query elb)).
Proof.
  intros Hk Hfuel. split; intros H.
  - by apply deploy_await_asg_converges.
  - by apply deploy_await_elb_converges.
Qed.

(** ** Exit codes *)

Section Exits.

Variable drift : Z → Cloud → Cloud.
Variable get : M Z.
Variable target : Z.

Lemma wait_until_healthy_exit_code (fuel : nat) :
  (∀ w code, fst (get w) ≠ Raised (SystemExit code)) →
  ∀ (t current : Z) (w : World) (code : Z),
  fst (wait_until_healthy drift fuel get target t current w) = Raised (SystemExit code) →
  code = 5.
Proof.
  intros Hget. induction fuel as [|fuel IH]; intros t current w code;
    cbn [wait_until_healthy]; (destruct (current <? target); [|done]); [done|].
  rewrite bind_run. cbn [sleep]. cbv zeta.
  destruct (t + 30 >=? 900); [cbn; congruence|].
  rewrite bind_run. specialize (Hget (asleep drift 30 w)).
  destruct (get (asleep drift 30 w)) as [[v|e|] w2]; cbn [fst] in *.
  - apply IH.
  - intros [= ->]. by destruct (Hget code).
  - done.
Qed.

End Exits.

Lemma deploy_await_asg_exit_code drift fuel asg target w code :
  fst (deploy_await_asg drift fuel asg target w) = Raised (SystemExit code) → code = 5.
Proof.
  unfold deploy_await_asg. rewrite bind_run, asg_get_healthy_instance_count_run.
  apply wait_until_healthy_exit_code. intros w'. apply asg_count_instant.
Qed.

Lemma deploy_await_elb_exit_code drift fuel elb target w code :
  fst (deploy_await_elb drift fuel elb target w) = Raised (SystemExit code) → code = 5.
Proof.
  unfold deploy_await_elb. rewrite bind_run, elb_get_healthy_instance_count_run.
  destruct (balancers (cloud w) !! ElasticLoadBalancer.name elb); [|done].
  apply wait_until_healthy_exit_code. intros w'. apply elb_count_instant.
Qed.

(** The preflight that ends with exit code 4. *)
Lemma deploy_preflight_exit w n code :
  fst (deploy_preflight n w) = Raised (SystemExit code) →
  code = 4 ∧
  ∃ g lb lbs, groups (cloud w) !! n = Some g ∧
    LoadBalancerNames g = lb :: lbs ∧
    is_Some (balancers (cloud w) !! lb) ∧
    MaxSize g < 2 * DesiredCapacity g ∧
    snd (deploy_preflight n w) =
      {| cloud := cloud w; clock := clock w;
         calls := calls w ++
           [DescribeAutoScalingGroups [n] 1; DescribeAutoScalingGroups [n] 1;
            DescribeLoadBalancers [lb];
            DescribeAutoScalingGroups [n] 1; DescribeAutoScalingGroups [n] 1] |}.
Proof.
  unfold deploy_preflight.
  rewrite bind_run, init_run.
  destruct (groups (cloud w) !! n) as [g|] eqn:Hg; [|done].
  rewrite bind_run, get_load_balancer_name_run. unfold read_group.
  cbn [cloud log_call AutoScalingGroup.name]. rewrite Hg.
  destruct (LoadBalancerNames g) as [|lb lbs] eqn:Hlb; [done|].
  rewrite bind_run, elb_init_run. cbn [cloud log_call].
  destruct (balancers (cloud w) !! lb) as [states|] eqn:Hb; [|done].
  rewrite bind_run, has_enough_capacity_run.
  cbn [cloud log_call AutoScalingGroup.name refreshed]. rewrite Hg.
  destruct (Z.leb_spec (2 * DesiredCapacity g) (MaxSize g)); [done|].
  cbn [negb fst snd sys_exit raise]. intros [= <-]. split; [done|].
  exists g, lb, lbs. repeat split; try done.
  unfold group_query, log_call; cbn. by rewrite <- !app_assoc.
Qed.

Lemma deploy_exit_code (drift : Z → Cloud → Cloud) (fuel : nat) (n : string) (w : World)
    (code : Z) :
  fst (deploy drift fuel n w) = Raised (SystemExit code) → code = 4 ∨ code = 5.
Proof.
  unfold deploy. rewrite bind_run.
  pose proof (deploy_preflight_exit w n code) as Hpre.
  destruct (deploy_preflight n w) as [[[[asg ec2] elb]|e|] w1]; cbn [fst] in *;
    [|intros [= ->]; left; by apply Hpre|done].
  rewrite bind_run.
  pose proof (plain_deploy_double asg ec2 w1) as Hdouble.
  destruct (deploy_double asg ec2 w1) as [[[[orig tgt] asg']|e|] w2]; cbn [fst] in *;
    [|by intros [= ->]|done].
  rewrite bind_run.
  pose proof (deploy_await_asg_exit_code drift fuel asg' tgt w2 code) as Hasg.
  destruct (deploy_await_asg drift fuel asg' tgt w2) as [[healthy|e|] w3]; cbn [fst] in *;
    [|intros [= ->]; right; by apply Hasg|done].
  rewrite bind_run.
  pose proof (deploy_await_elb_exit_code drift fuel elb tgt w3 code) as Helb.
  destruct (deploy_await_elb drift fuel elb tgt w3) as [[healthy'|e|] w4]; cbn [fst] in *;
    [|intros [= ->]; right; by apply Helb|done].
  pose proof (plain_deploy_retire asg' ec2 orig w4) as Hretire.
  intros H. rewrite H in Hretire. done.
Qed.

(** X12: a deployment exits with code 4 or 5 and no other, and with fuel
    for thirty iterations it does end. *)
Theorem deploy_exit_codes (drift : Z → Cloud → Cloud) (fuel : nat) (n : string) (w : World) :
  (∀ code, fst (deploy drift fuel n w) = Raised (SystemExit code) → code = 4 ∨ code = 5) ∧
  ((30 ≤ fuel)%nat → fst (deploy drift fuel n w) ≠ Unfinished).
Proof. split; [apply deploy_exit_code|apply deploy_finishes]. Qed.

(** X13: exit code 4 comes from the gate only: the group and its first
    balancer are there, twice the desired capacity exceeds the maximum,
    and all the deployment did was five reading calls. *)
Theorem exit_4_only_from_gate (drift : Z → Cloud → Cloud) (fuel : nat) (n : string)
    (w : World) :
  fst (deploy drift fuel n w) = Raised (SystemExit 4) →
  ∃ g lb lbs, groups (cloud w) !! n = Some g ∧
    LoadBalancerNames g = lb :: lbs ∧
    is_Some (balancers (cloud w) !! lb) ∧
    MaxSize g < 2 * DesiredCapacity g ∧
    snd (deploy drift fuel n w) =
      {| cloud := cloud w; clock := clock w;
         calls := calls w ++
           [DescribeAutoScalingGroups [n] 1; DescribeAutoScalingGroups [n] 1;
            DescribeLoadBalancers [lb];
            DescribeAutoScalingGroups [n] 1; DescribeAutoScalingGroups [n] 1] |}.
Proof.
  unfold deploy. rewrite bind_run.
  pose proof (deploy_preflight_exit w n 4) as Hpre.
  destruct (deploy_preflight n w) as [[[[asg ec2] elb]|e|] w1]; cbn [fst snd] in *;
    [|intros [= ->]; by apply Hpre|done].
  rewrite bind_run.
  pose proof (plain_deploy_double asg ec2 w1) as Hdouble.
  destruct (deploy_double asg ec2 w1) as [[[[orig tgt] asg']|e|] w2]; cbn [fst] in *;
    [|by intros [= ->]|done].
  rewrite bind_run.
  pose proof (deploy_await_asg_exit_code drift fuel asg' tgt w2 4) as Hasg.
  destruct (deploy_await_asg drift fuel asg' tgt w2) as [[healthy|e|] w3]; cbn [fst] in *;
    [|intros [= ->]; by specialize (Hasg eq_refl)|done].
  rewrite bind_run.
  pose proof (deploy_await_elb_exit_code drift fuel elb tgt w3 4) as Helb.
  destruct (deploy_await_elb drift fuel elb tgt w3) as [[healthy'|e|] w4]; cbn [fst] in *;
    [|intros [= ->]; by specialize (Helb eq_refl)|done].
  pose proof (plain_deploy_retire asg' ec2 orig w4) as Hretire.
  intros H. rewrite H in Hretire. done.
Qed.

(** ** The order of the changes *)

Lemma changes_app l k : changes (l ++ k) = changes l ++ changes k.
Proof. apply filter_app. Qed.

Lemma changes_read_only l : read_only l → changes l = [].
Proof. apply filter_mutating_read_only. Qed.

Ltac logged l :=
  exists l; split;
  [unfold group_query, log_call; cbn; by rewrite <- ?app_assoc|].

Ltac run_changes :=
  unfold changes, group_query; cbn; repeat case_decide; try done.

(** The steps from Mark to Double, however they end. *)
Lemma deploy_double_changes asg ec2 w :
  ∃ l, calls (snd (deploy_double asg ec2 w)) = calls w ++ l ∧
    match groups (cloud w) !! AutoScalingGroup.name asg with
    | None => changes l = []
    | Some g =>
        changes l `prefix_of`
          [CreateTags false (map asi_InstanceId (Instances g)) [EC2._termination_tag ec2];
           SuspendProcesses (AutoScalingGroup.name asg) (AutoScalingGroup.processes asg);
           SetDesiredCapacity (AutoScalingGroup.name asg) (2 * DesiredCapacity g) false]
    end.
Proof.
  unfold deploy_double.
  rewrite bind_run, get_desired_capacity_run. unfold read_group.
  destruct (groups (cloud w) !! AutoScalingGroup.name asg) as [g|] eqn:Hg.
  2:{ logged [group_query asg]. run_changes. }
  rewrite bind_run, get_instance_ids_run. unfold read_group.
  cbn [cloud log_call AutoScalingGroup.name refreshed]. rewrite Hg.
  rewrite bind_run, mark_run. cbn [cloud log_call].
  destruct (ec2_fault (cloud w)) as [code|] eqn:Hup.
  { logged [group_query asg; group_query asg;
            CreateTags false (map asi_InstanceId (Instances g)) [EC2._termination_tag ec2]].
    run_changes. by eexists [_; _]. }
  destruct (map asi_InstanceId (Instances g)) as [|i0 ids0] eqn:Hids.
  { logged [group_query asg; group_query asg;
            CreateTags false [] [EC2._termination_tag ec2]].
    run_changes. by eexists [_; _]. }
  rewrite bind_run.
  unfold AutoScalingGroup.suspend_processes, boto.suspend_processes, api.
  cbn [cloud log_call set_cloud boto.set_tags groups AutoScalingGroup.name refreshed fst snd].
  rewrite Hg.
  rewrite bind_run, double_in_size_run.
  cbn [cloud log_call set_cloud boto.set_groups groups AutoScalingGroup.name refreshed fst snd].
  rewrite lookup_insert_eq. cbv zeta.
  case_bool_decide.
  2:{ logged [group_query asg; group_query asg;
              CreateTags false (i0 :: ids0) [EC2._termination_tag ec2];
              SuspendProcesses (AutoScalingGroup.name asg) (AutoScalingGroup.processes asg);
              group_query asg;
              SetDesiredCapacity (AutoScalingGroup.name asg) (2 * DesiredCapacity g) false].
      run_changes. }
  rewrite bind_run, get_desired_capacity_run. unfold read_group.
  cbn [cloud log_call set_cloud boto.set_groups groups AutoScalingGroup.name refreshed fst snd].
  rewrite lookup_insert_eq.
  logged [group_query asg; group_query asg;
          CreateTags false (i0 :: ids0) [EC2._termination_tag ec2];
          SuspendProcesses (AutoScalingGroup.name asg) (AutoScalingGroup.processes asg);
          group_query asg;
          SetDesiredCapacity (AutoScalingGroup.name asg) (2 * DesiredCapacity g) false;
          group_query asg].
  run_changes.
Qed.

(** The retirement, however it ends. *)
Lemma deploy_retire_changes asg ec2 orig w :
  ∃ l, calls (snd (deploy_retire asg ec2 orig w)) = calls w ++ l ∧
    changes l `prefix_of`
      retirement (AutoScalingGroup.name asg) (AutoScalingGroup.processes asg) orig
        (first_marked ec2 (cloud w)).
Proof.
  unfold deploy_retire, retirement.
  rewrite bind_run, get_instances_marked_for_termination_run.
  fold (first_marked ec2 (cloud w)).
  rewrite bind_run, terminate_instances_run. cbn [cloud log_call].
  assert (first_marked ec2 (cloud w) ≠ [] → ec2_fault (cloud w) = None) as Hup.
  { unfold first_marked. by destruct (ec2_fault (cloud w)). }
  destruct (first_marked ec2 (cloud w)) as [|id ids] eqn:Hids.
  - rewrite bind_run, set_desired_capacity_run. cbn [cloud log_call].
    destruct (groups (cloud w) !! AutoScalingGroup.name asg) as [g|] eqn:Hg.
    2:{ logged [marker_query ec2;
                SetDesiredCapacity (AutoScalingGroup.name asg) orig false].
        run_changes. by eexists [_]. }
    case_bool_decide.
    2:{ logged [marker_query ec2;
                SetDesiredCapacity (AutoScalingGroup.name asg) orig false].
        run_changes. by eexists [_]. }
    rewrite resume_processes_run.
    cbn [cloud set_cloud log_call groups boto.set_groups]. rewrite lookup_insert_eq.
    logged [marker_query ec2;
            SetDesiredCapacity (AutoScalingGroup.name asg) orig false;
            ResumeProcesses (AutoScalingGroup.name asg) (AutoScalingGroup.processes asg)].
    run_changes.
  - rewrite Hup by done.
    rewrite bind_run, set_desired_capacity_run.
    cbn [cloud set_cloud log_call groups boto.set_terminated].
    destruct (groups (cloud w) !! AutoScalingGroup.name asg) as [g|] eqn:Hg.
    2:{ logged [marker_query ec2; TerminateInstances false (id :: ids);
                SetDesiredCapacity (AutoScalingGroup.name asg) orig false].
        run_changes. by eexists [_]. }
    case_bool_decide.
    2:{ logged [marker_query ec2; TerminateInstances false (id :: ids);
                SetDesiredCapacity (AutoScalingGroup.name asg) orig false].
        run_changes. by eexists [_]. }
    rewrite resume_processes_run.
    cbn [cloud set_cloud log_call groups boto.set_groups]. rewrite lookup_insert_eq.
    logged [marker_query ec2; TerminateInstances false (id :: ids);
            SetDesiredCapacity (AutoScalingGroup.name asg) orig false;
            ResumeProcesses (AutoScalingGroup.name asg) (AutoScalingGroup.processes asg)].
    run_changes.
Qed.

(** X14: whatever the outcome, the changes a deployment has asked for are
    a beginning of: tag the members, suspend, double, terminate, restore,
    resume; and none at all when the group is not there. *)
Theorem deploy_follows_protocol (drift : Z → Cloud → Cloud) (fuel : nat) (n : string)
    (w : World) :
  ∃ log, calls (snd (deploy drift fuel n w)) = calls w ++ log ∧
    match groups (cloud w) !! n with
    | None => changes log = []
    | Some g =>
        ∃ ids, changes log `prefix_of`
                 protocol n (map asi_InstanceId (Instances g)) (DesiredCapacity g) ids
    end.
Proof.
  unfold deploy. rewrite bind_run.
  destruct (deploy_preflight_spec n w) as [(reads & Hreads & Hw1) Hpre].
  assert (match groups (cloud w) !! n with
          | None => changes reads = []
          | Some g => ∃ ids, changes reads `prefix_of`
                       protocol n (map asi_InstanceId (Instances g)) (DesiredCapacity g) ids
          end) as Hnone.
  { rewrite (changes_read_only reads Hreads).
    destruct (groups (cloud w) !! n); [exists []; apply prefix_nil|done]. }
  destruct (deploy_preflight n w) as [[[[asg ec2] elb]|e|] w1] eqn:Epre;
    cbn [fst snd] in *; [|exists reads; by rewrite Hw1..].
  destruct Hpre as (Hname & Hprocs & ->). clear Hnone.
  rewrite bind_run.
  destruct (deploy_double_changes asg EC2.__init__ w1) as (l & Hl & Hch).
  rewrite Hname, Hprocs in Hch. subst w1. cbn [cloud calls] in *.
  destruct (deploy_double asg EC2.__init__
              {| cloud := cloud w; clock := clock w; calls := calls w ++ reads |})
    as [[[[orig target] asg']|e|] w2] eqn:Edouble; cbn [fst snd] in *.
  2,3: exists (reads ++ l); (split; [by rewrite Hl, app_assoc|]);
       rewrite changes_app, (changes_read_only reads Hreads); cbn [app];
       (destruct (groups (cloud w) !! n) as [g|]; [|done]);
       exists []; by apply prefix_app_r.
  destruct (deploy_double_returned _ _ _ _ _ _ _ Edouble)
    as (g & Hg & -> & -> & _ & _ & _ & _ & Hn' & Hcalls).
  destruct (deploy_double_returned_group _ _ _ _ _ _ _ g Edouble Hg) as (_ & Hp' & _).
  rewrite Hname, Hprocs in *. cbn [cloud calls] in *. rewrite Hg. clear Hch.
  assert (changes l =
          [CreateTags false (map asi_InstanceId (Instances g))
             [EC2._termination_tag EC2.__init__];
           SuspendProcesses n ["AlarmNotification"];
           SetDesiredCapacity n (2 * DesiredCapacity g) false]) as Hthree.
  { rewrite Hl in Hcalls. apply app_inv_head in Hcalls. subst l.
    unfold changes, group_query. cbn. repeat case_decide; done. }
  assert (∀ polls ids, read_only polls →
            changes (reads ++ l ++ polls) `prefix_of`
              protocol n (map asi_InstanceId (Instances g)) (DesiredCapacity g) ids)
    as Hwaiting.
  { intros polls ids Hro.
    rewrite !changes_app, (changes_read_only reads Hreads), (changes_read_only polls Hro),
      Hthree, app_nil_r.
    cbn [app]. unfold protocol. by apply prefix_app_r. }
  rewrite bind_run.
  pose proof (deploy_await_asg_polled drift fuel asg' (2 * DesiredCapacity g) w2) as Hasg.
  apply polled_calls in Hasg as [k1 Hk1].
  destruct (deploy_await_asg drift fuel asg' (2 * DesiredCapacity g) w2)
    as [[healthy|e|] w3] eqn:Easg; cbn [snd] in *.
  2,3: exists (reads ++ l ++ replicate k1 (DescribeAutoScalingInstances 50));
       (split; [by rewrite Hk1, Hl, <- !app_assoc|]);
       exists []; by apply Hwaiting, read_only_replicate.
  rewrite bind_run.
  pose proof (deploy_await_elb_polled drift fuel elb (2 * DesiredCapacity g) w3) as Helb.
  apply polled_calls in Helb as [k2 Hk2].
  destruct (deploy_await_elb drift fuel elb (2 * DesiredCapacity g) w3)
    as [[healthy'|e|] w4] eqn:Eelb; cbn [snd] in *.
  2,3: exists (reads ++ l ++ (replicate k1 (DescribeAutoScalingInstances 50) ++
                               replicate k2 (health_query elb)));
       (split; [by rewrite Hk2, Hk1, Hl, <- !app_assoc|]);
       exists []; apply Hwaiting, Forall_app; split; by apply read_only_replicate.
  destruct (deploy_retire_changes asg' EC2.__init__ (DesiredCapacity g) w4)
    as (lr & Hlr & Hpre).
  rewrite Hn', Hp' in Hpre.
  exists (reads ++ l ++ (replicate k1 (DescribeAutoScalingInstances 50) ++
                         replicate k2 (health_query elb)) ++ lr).
  split; [by rewrite Hlr, Hk2, Hk1, Hl, <- !app_assoc|].
  exists (first_marked EC2.__init__ (cloud w4)).
  rewrite !changes_app, (changes_read_only reads Hreads), Hthree.
  rewrite !(changes_read_only (replicate _ _)) by (by apply read_only_replicate).
  cbn [app]. unfold protocol. cbn [app].
  by do 3 apply prefix_cons.
Qed.

(** ** From the preflight to the end *)

Lemma deploy_preflight_run n w :
  deploy_preflight n w =
  match groups (cloud w) !! n with
  | None => (Raised IndexError, log_call (DescribeAutoScalingGroups [n] 1) w)
  | Some g =>
      match LoadBalancerNames g with
      | [] => (Raised IndexError,
               {| cloud := cloud w; clock := clock w;
                  calls := calls w ++ [DescribeAutoScalingGroups [n] 1;
                                       DescribeAutoScalingGroups [n] 1] |})
      | lb :: _ =>
          match balancers (cloud w) !! lb with
          | None => (Raised (ClientError "LoadBalancerNotFound"),
                     {| cloud := cloud w; clock := clock w;
                        calls := calls w ++ [DescribeAutoScalingGroups [n] 1;
                                             DescribeAutoScalingGroups [n] 1;
                                             DescribeLoadBalancers [lb]] |})
          | Some _ =>
              (if 2 * DesiredCapacity g <=? MaxSize g
               then Returned (asg_object n g, EC2.__init__, elb_object lb)
               else Raised (SystemExit 4),
               {| cloud := cloud w; clock := clock w;
                  calls := calls w ++ preflight_calls n lb |})
          end
      end
  end.
Proof.
  unfold deploy_preflight.
  rewrite bind_run, init_run.
  destruct (groups (cloud w) !! n) as [g|] eqn:Hg; [|reflexivity].
  rewrite bind_run, get_load_balancer_name_run. unfold read_group.
  cbn [cloud log_call AutoScalingGroup.name]. rewrite Hg.
  destruct (LoadBalancerNames g) as [|lb lbs] eqn:Hlb.
  { unfold group_query, log_call; cbn. by rewrite <- !app_assoc. }
  rewrite bind_run, elb_init_run. cbn [cloud log_call].
  destruct (balancers (cloud w) !! lb) as [states|] eqn:Hb.
  2:{ unfold group_query, log_call; cbn. by rewrite <- !app_assoc. }
  rewrite bind_run, has_enough_capacity_run.
  cbn [cloud log_call AutoScalingGroup.name refreshed]. rewrite Hg.
  destruct (2 * DesiredCapacity g <=? MaxSize g);
    unfold group_query, log_call, preflight_calls; cbn; by rewrite <- !app_assoc.
Qed.

Lemma deploy_preflight_returned (n : string) (w : World) (asg : AutoScalingGroup.t)
    (ec2 : EC2.t) (elb : ElasticLoadBalancer.t) (w1 : World) :
  deploy_preflight n w = (Returned (asg, ec2, elb), w1) ↔
  ∃ g lb lbs,
    groups (cloud w) !! n = Some g ∧
    LoadBalancerNames g = lb :: lbs ∧
    is_Some (balancers (cloud w) !! lb) ∧
    2 * DesiredCapacity g ≤ MaxSize g ∧
    asg = asg_object n g ∧ ec2 = EC2.__init__ ∧ elb = elb_object lb ∧
    w1 = {| cloud := cloud w; clock := clock w;
            calls := calls w ++ preflight_calls n lb |}.
Proof.
  rewrite deploy_preflight_run. split.
  - destruct (groups (cloud w) !! n) as [g|] eqn:Hg; [|done].
    destruct (LoadBalancerNames g) as [|lb lbs] eqn:Hlb; [done|].
    destruct (balancers (cloud w) !! lb) as [states|] eqn:Hb; [|done].
    destruct (Z.leb_spec (2 * DesiredCapacity g) (MaxSize g)); [|done].
    intros [= <- <- <- <-]. exists g, lb, lbs. repeat split; done.
  - intros (g & lb & lbs & -> & -> & [states ->] & Hcap & -> & -> & -> & ->).
    by rewrite (proj2 (Z.leb_le _ _) Hcap).
Qed.

(** X15: the preflight passes exactly when the group is there, its first
    balancer is there, and twice the desired capacity is at most the
    maximum; it hands on the objects for that group and that balancer, the
    other balancers of the group are not looked at, and it has made five
    reading calls. *)
Theorem preflight_passes_iff (n : string) (w : World) (asg : AutoScalingGroup.t)
    (ec2 : EC2.t) (elb : ElasticLoadBalancer.t) (w1 : World) :
  deploy_preflight n w = (Returned (asg, ec2, elb), w1) ↔
  ∃ g lb lbs,
    groups (cloud w) !! n = Some g ∧
    LoadBalancerNames g = lb :: lbs ∧
    is_Some (balancers (cloud w) !! lb) ∧
    2 * DesiredCapacity g ≤ MaxSize g ∧
    asg = asg_object n g ∧ ec2 = EC2.__init__ ∧ elb = elb_object lb ∧
    w1 = {| cloud := cloud w; clock := clock w;
            calls := calls w ++ preflight_calls n lb |}.
Proof. apply deploy_preflight_returned. Qed.

(** The steps from Mark to Double on a group that is there and has
    members. *)
Lemma deploy_double_run_found asg ec2 w g :
  groups (cloud w) !! AutoScalingGroup.name asg = Some g →
  ec2_fault (cloud w) = None →
  Instances g ≠ [] →
  MinSize g ≤ 2 * DesiredCapacity g ≤ MaxSize g →
  ∃ asg' w', deploy_double asg ec2 w =
    (Returned (DesiredCapacity g, 2 * DesiredCapacity g, asg'), w').
Proof.
  intros Hg Hup Hmembers Hb. unfold deploy_double.
  rewrite bind_run, get_desired_capacity_run. unfold read_group. rewrite Hg.
  rewrite bind_run, get_instance_ids_run. unfold read_group.
  cbn [cloud log_call AutoScalingGroup.name refreshed]. rewrite Hg.
  rewrite bind_run, mark_run. cbn [cloud log_call]. rewrite Hup.
  destruct (Instances g) as [|i0 is0]; [done|]. cbn [map].
  rewrite bind_run.
  unfold AutoScalingGroup.suspend_processes, boto.suspend_processes, api.
  cbn [cloud log_call set_cloud boto.set_tags groups AutoScalingGroup.name refreshed fst snd].
  rewrite Hg.
  rewrite bind_run, double_in_size_run.
  cbn [cloud log_call set_cloud boto.set_groups groups AutoScalingGroup.name refreshed fst snd].
  rewrite lookup_insert_eq. cbv zeta.
  rewrite bool_decide_eq_true_2 by done.
  rewrite bind_run, get_desired_capacity_run. unfold read_group.
  cbn [cloud log_call set_cloud boto.set_groups groups AutoScalingGroup.name refreshed fst snd].
  rewrite lookup_insert_eq. cbn. by eexists _, _.
Qed.

(** The same steps on a group without members: the marking is refused and
    the script stops there. *)
Lemma deploy_double_run_memberless asg ec2 w g :
  groups (cloud w) !! AutoScalingGroup.name asg = Some g →
  ec2_fault (cloud w) = None →
  Instances g = [] →
  deploy_double asg ec2 w =
    (Raised (ClientError "MissingParameter"),
     {| cloud := cloud w; clock := clock w;
        calls := calls w ++ [group_query asg; group_query asg;
                             CreateTags false [] [EC2._termination_tag ec2]] |}).
Proof.
  intros Hg Hup Hnone. unfold deploy_double.
  rewrite bind_run, get_desired_capacity_run. unfold read_group. rewrite Hg.
  rewrite bind_run, get_instance_ids_run. unfold read_group.
  cbn [cloud log_call AutoScalingGroup.name refreshed]. rewrite Hg.
  rewrite bind_run, mark_run. cbn [cloud log_call]. rewrite Hup, Hnone. cbn [map].
  unfold group_query, log_call, set_cloud; cbn. by rewrite <- !app_assoc.
Qed.

(** X16: once the preflight has passed, with EC2 up, a group that has
    members and twice the desired capacity not below the minimum, the
    steps up to Double return: the provider does not refuse the doubling.
    On a group without members the provider refuses the marking, and the
    script stops before it has suspended or doubled anything. *)
Theorem gate_suffices_for_doubling (n : string) (w w1 : World) (asg : AutoScalingGroup.t)
    (ec2 : EC2.t) (elb : ElasticLoadBalancer.t) (g : GroupDescription) :
  deploy_preflight n w = (Returned (asg, ec2, elb), w1) →
  groups (cloud w) !! n = Some g →
  ec2_fault (cloud w) = None →
  MinSize g ≤ 2 * DesiredCapacity g →
  (Instances g ≠ [] →
   ∃ asg' w2,
     deploy_double asg ec2 w1 =
       (Returned (DesiredCapacity g, 2 * DesiredCapacity g, asg'), w2) ∧
     desired n (cloud w2) = Some (2 * DesiredCapacity g)) ∧
  (Instances g = [] →
   fst (deploy_double asg ec2 w1) = Raised (ClientError "MissingParameter") ∧
   cloud (snd (deploy_double asg ec2 w1)) = cloud w ∧
   changes (calls (snd (deploy_double asg ec2 w1))) =
     changes (calls w) ++ [CreateTags false [] [EC2._termination_tag ec2]]).
Proof.
  intros Hpre Hg Hup Hmin.
  apply deploy_preflight_returned in Hpre
    as (g' & lb & lbs & Hg' & _ & _ & Hcap & -> & -> & -> & ->).
  rewrite Hg in Hg'. injection Hg' as <-.
  split.
  - intros Hmembers.
    destruct (deploy_double_run_found (asg_object n g) EC2.__init__
                {| cloud := cloud w; clock := clock w;
                   calls := calls w ++ preflight_calls n lb |} g Hg Hup Hmembers
                ltac:(lia))
      as (asg' & w2 & Hrun).
    exists asg', w2. split; [done|].
    by destruct (deploy_double_returned _ _ _ _ _ _ _ Hrun) as (_ & _ & _ & _ & Hd & _).
  - intros Hnone.
    rewrite (deploy_double_run_memberless (asg_object n g) EC2.__init__
               {| cloud := cloud w; clock := clock w;
                  calls := calls w ++ preflight_calls n lb |} g Hg Hup Hnone).
    cbn [fst snd cloud calls]. split; [done|]. split; [done|].
    rewrite !changes_app. unfold preflight_calls, group_query, changes. cbn.
    repeat case_decide; try done. by rewrite app_nil_r.
Qed.

Lemma drifted_account_state drift t0 k c :
  health_only drift → account_state (drifted drift t0 k c) = account_state c.
Proof.
  intros Hd. induction k as [|k IH]; [done|]. cbn [drifted]. by rewrite Hd.
Qed.

Lemma first_marked_account_state self c c' :
  account_state c = account_state c' → first_marked self c = first_marked self c'.
Proof.
  intros [= Hg Hr Ht Hterm Hf].
  unfold first_marked, marked_reservations, boto.matching_reservations, boto.has_tag.
  by rewrite Hr, Ht, Hf.
Qed.

(** X17: when only the health listings change while the script sleeps and
    the new instances are seen in time, first by the scaling service and
    then by the balancer, the deployment returns after the sleeps of the
    two waits, with the desired capacity as it was, the alarm process not
    suspended, the marked instances of the first reservation terminated,
    and having asked for the six changes of the protocol in order. *)
Theorem deploy_completes (drift : Z → Cloud → Cloud) (fuel : nat) (n : string)
    (w w1 w2 : World) (asg asg' : AutoScalingGroup.t) (ec2 : EC2.t)
    (elb : ElasticLoadBalancer.t) (orig target : Z) (g : GroupDescription)
    (k1 k2 : nat) (v1 v2 : Z) :
  deploy_preflight n w = (Returned (asg, ec2, elb), w1) →
  deploy_double asg ec2 w1 = (Returned (orig, target, asg'), w2) →
  groups (cloud w) !! n = Some g →
  MinSize g ≤ DesiredCapacity g ≤ MaxSize g →
  health_only drift →
  (k1 < 30)%nat → (k1 ≤ fuel)%nat → (k2 < 30)%nat → (k2 ≤ fuel)%nat →
  first_healthy drift asg_count target w2 k1 v1 →
  first_healthy drift (elb_count elb) target
    (snd (deploy_await_asg drift fuel asg' target w2)) k2 v2 →
  let r := deploy drift fuel n w in
  let ids := first_marked ec2 (cloud w2) in
  fst r = Returned () ∧
  clock (snd r) = clock w + 30 * Z.of_nat (k1 + k2) ∧
  desired n (cloud (snd r)) = desired n (cloud w) ∧
  suspended n (cloud (snd r)) = suspended n (cloud w) ∖ {["AlarmNotification"]} ∧
  terminated (cloud (snd r)) = terminated (cloud w) ∪ list_to_set ids ∧
  ∃ log, calls (snd r) = calls w ++ log ∧
    changes log =
      protocol n (map asi_InstanceId (Instances g)) (DesiredCapacity g) ids.
Proof.
  intros Hpre Hdouble Hg Hbounds Hquiet Hk1 Hf1 Hk2 Hf2 Hasg Helb. cbv zeta.
  unfold deploy. rewrite bind_run, Hpre, bind_run, Hdouble.
  apply deploy_preflight_returned in Hpre
    as (g' & lb & lbs & Hg' & _ & _ & Hcap & -> & -> & -> & ->).
  rewrite Hg in Hg'. injection Hg' as <-.
  destruct (deploy_double_returned _ _ _ _ _ _ _ Hdouble)
    as (g' & Hg' & -> & -> & _ & _ & Ht & Hc & Hn' & Hcalls).
  cbn [cloud clock calls AutoScalingGroup.name AutoScalingGroup.processes asg_object] in *.
  rewrite Hg in Hg'. injection Hg' as <-.
  destruct (deploy_double_returned_group _ _ _ _ _ _ _ g Hdouble Hg) as (Hg2 & Hp' & _).
  cbn [cloud AutoScalingGroup.name AutoScalingGroup.processes asg_object] in *.
  destruct (deploy_await_asg_converges drift fuel asg' (2 * DesiredCapacity g) w2 k1 v1
              Hk1 Hf1 Hasg) as (A1 & A2 & A3 & A4).
  destruct (deploy_await_elb_converges drift fuel (elb_object lb) (2 * DesiredCapacity g)
              (snd (deploy_await_asg drift fuel asg' (2 * DesiredCapacity g) w2)) k2 v2
              Hk2 Hf2 Helb) as (B1 & B2 & B3 & B4).
  rewrite bind_run.
  destruct (deploy_await_asg drift fuel asg' (2 * DesiredCapacity g) w2) as [o3 w3].
  cbn [fst snd] in *. subst o3.
  rewrite bind_run.
  destruct (deploy_await_elb drift fuel (elb_object lb) (2 * DesiredCapacity g) w3)
    as [o4 w4].
  cbn [fst snd] in *. subst o4.
  assert (account_state (cloud w4) = account_state (cloud w2)) as Hacc.
  { rewrite B2, drifted_account_state, A2, drifted_account_state by done. done. }
  pose proof Hacc as [= Hgr _ _ Hterm _].
  assert (groups (cloud w4) !! AutoScalingGroup.name asg' =
          Some (boto.set_desired (2 * DesiredCapacity g)
                  (boto.set_suspended
                     (SuspendedProcesses g ∪ boto.process_set ["AlarmNotification"]) g)))
    as Hg4 by (by rewrite Hgr, Hn').
  destruct (deploy_retire_found asg' EC2.__init__ (DesiredCapacity g) w4 _ Hg4 Hbounds)
    as (R1 & R2 & R3 & R4 & R5 & R6).
  rewrite (first_marked_account_state _ _ _ Hacc) in R2, R3.
  rewrite Hn', Hp' in *.
  cbn [SuspendedProcesses boto.set_desired boto.set_suspended] in R5.
  split; [done|]. split; [rewrite R6, B3, A3, Hc; lia|].
  split; [rewrite R4; unfold desired; by rewrite Hg|].
  split.
  { rewrite R5. unfold suspended. rewrite Hg. cbn [from_option boto.process_set].
    apply set_eq. intros x.
    rewrite !elem_of_difference, elem_of_union, elem_of_list_to_set,
      list_elem_of_singleton, elem_of_singleton. tauto. }
  split; [by rewrite R3, Hterm, Ht|].
  eexists. split.
  { rewrite R2, B4, A4, Hcalls, <- !app_assoc. reflexivity. }
  rewrite !changes_app.
  rewrite !(changes_read_only (replicate _ _)) by (by apply read_only_replicate).
  unfold protocol, retirement, preflight_calls, group_query.
  destruct (first_marked EC2.__init__ (cloud w2)); unfold changes; cbn;
    repeat case_decide; done.
Qed.

(** ** The script *)

(** X18: where an exit code of the script comes from: from argparse, or 2
    from a failed lookup in the configuration, or 3 from the missing
    boto3, both before any call to the provider, or 4 or 5 from the
    deployment of the configured group. *)
Theorem main_exit_codes (host : Host) (drift : Z → Cloud → Cloud) (fuel : nat)
    (w : World) (code : Z) :
  fst (main host drift fuel w) = Exited code →
  host_parse_arguments host = inl code ∨
  (∃ arguments, host_parse_arguments host = inr arguments ∧
     host_config_read host (config arguments) = None ∧
     ((code = 2 ∧ snd (main host drift fuel w) = w ∧
       ∃ class, host_config_get host (config arguments) (application arguments)
                  "auto_scaling_group" = inl class) ∨
      (code = 3 ∧ snd (main host drift fuel w) = w ∧
       host_boto3_importable host = false) ∨
      (∃ n, host_config_get host (config arguments) (application arguments)
              "auto_scaling_group" = inr n ∧
            host_boto3_importable host = true ∧
            fst (deploy drift fuel n w) = Raised (SystemExit code) ∧
            (code = 4 ∨ code = 5)))).
Proof.
  unfold main.
  destruct (host_parse_arguments host) as [c|arguments]; [intros [= ->]; by left|].
  intros H. right. exists arguments. split; [done|].
  destruct (host_config_read host (config arguments)) as [cls|]; [done|].
  split; [done|].
  destruct (host_config_get host (config arguments) (application arguments)
              "auto_scaling_group") as [cls|n].
  { injection H as <-. left. repeat split; try done. by exists cls. }
  unfold setup_clients in *.
  destruct (host_boto3_importable host).
  2:{ injection H as <-. right; left. done. }
  destruct (host_session host (profile arguments) (region arguments)); [done|].
  right; right. exists n.
  destruct (deploy drift fuel n w) as [o w'] eqn:Hd. cbn [fst] in H.
  assert (o = Raised (SystemExit code)) as ->.
  { destruct o as [u|e|]; try done. destruct e; try done. by injection H as ->. }
  repeat split; try done.
  apply (deploy_exit_code drift fuel n w). by rewrite Hd.
Qed.

(** X19: a configuration file that does not parse ends the script with
    a NameError that nothing catches, raised by the handler of the first
    try: the process ends with status 1 after a traceback, before any
    call to the provider, and not through the sys.exit(1) of line 345,
    which is never reached: a sys.exit with code 1 ends the script only
    if argparse called it.  A process status of 1 thus comes from
    argparse or from an exception that nothing caught. *)
Theorem unparsable_config_raises_name_error (host : Host) (drift : Z → Cloud → Cloud)
    (fuel : nat) (w : World) :
  (∀ arguments class,
     host_parse_arguments host = inr arguments →
     host_config_read host (config arguments) = Some class →
     main host drift fuel w = (NameError "configuration_filename", w) ∧
     process_status (fst (main host drift fuel w)) = Some 1) ∧
  (fst (main host drift fuel w) = Exited 1 → host_parse_arguments host = inl 1) ∧
  (process_status (fst (main host drift fuel w)) = Some 1 →
   host_parse_arguments host = inl 1 ∨
   (∃ arguments class,
      host_parse_arguments host = inr arguments ∧
      host_config_read host (config arguments) = Some class ∧
      fst (main host drift fuel w) = NameError "configuration_filename") ∨
   (∃ class, fst (main host drift fuel w) = HostError class) ∨
   (∃ e, fst (main host drift fuel w) = DeployError e)).
Proof.
  assert (∀ n code, fst (deploy drift fuel n w) = Raised (SystemExit code) → code ≠ 1)
    as Hdeploy.
  { intros n code H ->. destruct (deploy_exit_code drift fuel n w 1 H); lia. }
  split; [|split].
  - intros arguments class Hargs Hread. unfold main. by rewrite Hargs, Hread.
  - unfold main.
    destruct (host_parse_arguments host) as [c|arguments]; [cbn; congruence|].
    destruct (host_config_read host (config arguments)) as [cls|]; [done|].
    destruct (host_config_get host (config arguments) (application arguments)
                "auto_scaling_group") as [cls|n]; [done|].
    unfold setup_clients.
    destruct (host_boto3_importable host); [|done].
    destruct (host_session host (profile arguments) (region arguments)); [done|].
    specialize (Hdeploy n).
    destruct (deploy drift fuel n w) as [o w']. cbn [fst] in *.
    destruct o as [u|e|]; try done. destruct e; try done. cbn.
    intros [= ->]. by destruct (Hdeploy 1).
  - unfold main.
    destruct (host_parse_arguments host) as [c|arguments] eqn:Hargs;
      [cbn; intros [= ->]; by left|].
    destruct (host_config_read host (config arguments)) as [cls|] eqn:Hread.
    { intros _. right; left. by exists arguments, cls. }
    destruct (host_config_get host (config arguments) (application arguments)
                "auto_scaling_group") as [cls|n]; [done|].
    unfold setup_clients.
    destruct (host_boto3_importable host); [|done].
    destruct (host_session host (profile arguments) (region arguments)) as [cls|].
    { intros _. right; right; left. by exists cls. }
    specialize (Hdeploy n).
    destruct (deploy drift fuel n w) as [o w']. cbn [fst] in *.
    destruct o as [u|e|]; try done.
    destruct e as [code| | |code]; cbn.
    + intros [= ->]. by destruct (Hdeploy 1).
    + intros _. right; right; right. by eexists.
    + intros _. right; right; right. by eexists.
    + intros _. right; right; right. by eexists.
Qed.

(** ** Instances of the further properties *)

Lemma elb_healthy_at_most_total_witness : 0 ≤ 2 ≤ 2.
Proof.
  apply (elb_healthy_at_most_total Scenario.elb (Scenario.start (Scenario.account 2 10 Scenario.together)) 2 2);
    reflexivity.
Defined.

Lemma asg_wait_hopeless_above_page_witness :
  fst (deploy_await_asg Scenario.still 30 Scenario.asg 51 (Scenario.start (Scenario.account 2 10 Scenario.together)))
  = Raised (SystemExit 5).
Proof.
  apply (asg_wait_hopeless_above_page Scenario.still 30 Scenario.asg 51 (Scenario.start (Scenario.account 2 10 Scenario.together)));
    lia.
Defined.

Lemma deploy_fails_above_25_witness :
  ∃ e, fst (deploy Scenario.still 30 "web" (Scenario.start (Scenario.account 26 100 Scenario.together))) = Raised e.
Proof.
  apply (deploy_fails_above_25 Scenario.still 30 "web" (Scenario.start (Scenario.account 26 100 Scenario.together))
           (Scenario.web 26 100)); [lia|reflexivity|cbn; lia].
Defined.

Lemma mark_tags_listed_only_witness :
  fst (EC2.mark_instances_for_termination EC2.__init__ ["i-1"]
         (Scenario.start (Scenario.account 2 10 Scenario.together))) = Returned () ∧
  carries_marker EC2.__init__
    (cloud (snd (EC2.mark_instances_for_termination EC2.__init__ ["i-1"]
                   (Scenario.start (Scenario.account 2 10 Scenario.together))))) "i-1" = true.
Proof.
  pose proof (mark_tags_listed_only EC2.__init__ ["i-1"]
                (Scenario.start (Scenario.account 2 10 Scenario.together)) eq_refl) as H.
  cbv zeta in H. destruct H as (H1 & _ & H3 & _).
  split; [apply H1; discriminate|apply H3, list_elem_of_here].
Defined.

Lemma mark_then_query_witness :
  fst ((EC2.mark_instances_for_termination EC2.__init__ ["i-1"; "i-2"];;
        EC2.get_instances_marked_for_termination EC2.__init__)
         (Scenario.start (Scenario.account 2 10 Scenario.together)))
  = Returned (filter (λ id, id ∈ ["i-1"; "i-2"]) ["i-1"; "i-2"]).
Proof.
  assert (∀ i, i ∈ [{| InstanceId := "i-1" |}; {| InstanceId := "i-2" |}] →
            carries_marker EC2.__init__
              (cloud (Scenario.start (Scenario.account 2 10 Scenario.together)))
              (InstanceId i) = false) as Hfresh.
  { intros i Hi. apply list_elem_of_In in Hi.
    destruct Hi as [<-|[<-|[]]]; reflexivity. }
  pose proof (mark_then_query EC2.__init__ ["i-1"; "i-2"]
                (Scenario.start (Scenario.account 2 10 Scenario.together))
                {| res_Instances := [{| InstanceId := "i-1" |}; {| InstanceId := "i-2" |}] |}
                eq_refl eq_refl Hfresh) as H.
  cbv zeta in H. apply (proj1 H). discriminate.
Defined.

Lemma retire_restores_witness :
  desired "web" (cloud (snd (deploy_retire Scenario.asg_doubled EC2.__init__ 2 Scenario.doubled))) = Some 2.
Proof.
  apply (retire_restores Scenario.asg_doubled EC2.__init__ 2 Scenario.doubled
           {| DesiredCapacity := 4; MinSize := 1; MaxSize := 10;
              LoadBalancerNames := ["lb"];
              Instances := [Scenario.member "i-1" "InService"; Scenario.member "i-2" "InService"];
              SuspendedProcesses := {["AlarmNotification"]} |});
    [vm_compute; reflexivity|cbn; lia].
Defined.

Lemma retire_swallows_outage_witness :
  fst (deploy_retire Scenario.asg EC2.__init__ 2 (Scenario.start Cases.outage)) = Returned () ∧
  terminated (cloud (snd (deploy_retire Scenario.asg EC2.__init__ 2 (Scenario.start Cases.outage)))) = ∅.
Proof.
  pose proof (retire_swallows_outage Scenario.asg EC2.__init__ 2 (Scenario.start Cases.outage) (Scenario.web 2 10)
                "RequestLimitExceeded" eq_refl eq_refl ltac:(cbn; lia))
    as (H1 & _ & H3 & _).
  exact (conj H1 H3).
Defined.

Lemma retire_terminates_marked_only_witness :
  "i-1" ∈ terminated (cloud Scenario.doubled) ∨ carries_marker EC2.__init__ (cloud Scenario.doubled) "i-1" = true.
Proof.
  apply (retire_terminates_marked_only Scenario.asg_doubled EC2.__init__ 2 Scenario.doubled "i-1").
  vm_compute. reflexivity.
Defined.

Lemma double_in_size_within_bounds_witness :
  desired "web" (cloud (snd (AutoScalingGroup.double_in_size Scenario.asg
                               (Scenario.start (Scenario.account 2 10 Scenario.together))))) = Some (2 * 2) ∧
  cloud (snd (AutoScalingGroup.double_in_size Scenario.asg (Scenario.start (Scenario.account 6 10 Scenario.together))))
  = Scenario.account 6 10 Scenario.together.
Proof.
  split.
  - apply (proj1 (double_in_size_within_bounds Scenario.asg (Scenario.start (Scenario.account 2 10 Scenario.together))
                    (Scenario.web 2 10) eq_refl)). cbn. lia.
  - apply (proj2 (double_in_size_within_bounds Scenario.asg (Scenario.start (Scenario.account 6 10 Scenario.together))
                    (Scenario.web 6 10) eq_refl)). cbn. lia.
Defined.

Lemma double_then_retire_round_trip_witness :
  desired "web" (cloud (snd (deploy_retire Scenario.asg_doubled EC2.__init__ 2 Scenario.doubled)))
  = desired "web" (cloud Scenario.prepared).
Proof.
  apply (double_then_retire_round_trip Scenario.asg Scenario.asg_doubled EC2.__init__ Scenario.prepared Scenario.doubled 2 4
           (Scenario.web 2 10));
    [vm_compute; reflexivity|reflexivity|cbn; lia].
Defined.

Lemma launch_first_healthy :
  first_healthy Scenario.launch asg_count 4 Scenario.doubled 2 4.
Proof.
  split; [|split; [reflexivity|lia]].
  intros i Hi. destruct i as [|[|i]]; [exists 2; split; [reflexivity|lia]..|lia].
Defined.

Lemma polling_converges_witness :
  fst (deploy_await_asg Scenario.launch 30 Scenario.asg_doubled 4 Scenario.doubled) = Returned 4 ∧
  clock (snd (deploy_await_asg Scenario.launch 30 Scenario.asg_doubled 4 Scenario.doubled)) = 0 + 30 * Z.of_nat 2.
Proof.
  pose proof (proj1 (polling_converges Scenario.launch 30 Scenario.asg_doubled Scenario.elb 4 Scenario.doubled 2 4
                       ltac:(lia) ltac:(lia)) launch_first_healthy) as (H1 & _ & H3 & _).
  exact (conj H1 H3).
Defined.

Lemma deploy_exit_codes_witness : 5 = 4 ∨ 5 = 5.
Proof.
  apply (proj1 (deploy_exit_codes Scenario.still 30 "web" (Scenario.start (Scenario.account 2 10 Scenario.together))) 5).
  vm_compute. reflexivity.
Defined.

Lemma exit_4_only_from_gate_witness :
  ∃ g lb lbs, groups (Scenario.account 6 10 Scenario.together) !! "web" = Some g ∧
    LoadBalancerNames g = lb :: lbs ∧
    is_Some (balancers (Scenario.account 6 10 Scenario.together) !! lb) ∧
    MaxSize g < 2 * DesiredCapacity g ∧
    snd (deploy Scenario.still 30 "web" (Scenario.start (Scenario.account 6 10 Scenario.together))) =
      {| cloud := Scenario.account 6 10 Scenario.together; clock := 0;
         calls := [] ++
           [DescribeAutoScalingGroups ["web"] 1; DescribeAutoScalingGroups ["web"] 1;
            DescribeLoadBalancers [lb];
            DescribeAutoScalingGroups ["web"] 1; DescribeAutoScalingGroups ["web"] 1] |}.
Proof.
  apply (exit_4_only_from_gate Scenario.still 30 "web" (Scenario.start (Scenario.account 6 10 Scenario.together))).
  vm_compute. reflexivity.
Defined.

Lemma preflight_passes_iff_witness :
  deploy_preflight "web" (Scenario.start (Scenario.account 2 10 Scenario.together))
  = (Returned (Scenario.asg, EC2.__init__, Scenario.elb), Scenario.prepared).
Proof.
  apply (proj2 (preflight_passes_iff "web" (Scenario.start (Scenario.account 2 10 Scenario.together))
                  Scenario.asg EC2.__init__ Scenario.elb Scenario.prepared)).
  exists (Scenario.web 2 10), "lb", []. repeat split; try reflexivity.
  - eexists. reflexivity.
  - cbn. lia.
Defined.

Lemma gate_suffices_for_doubling_witness :
  ∃ asg' w2,
    deploy_double Scenario.asg EC2.__init__ Scenario.prepared = (Returned (2, 2 * 2, asg'), w2) ∧
    desired "web" (cloud w2) = Some (2 * 2).
Proof.
  apply (proj1 (gate_suffices_for_doubling "web"
                  (Scenario.start (Scenario.account 2 10 Scenario.together)) Scenario.prepared
                  Scenario.asg EC2.__init__ Scenario.elb (Scenario.web 2 10)
                  ltac:(vm_compute; reflexivity) eq_refl eq_refl ltac:(cbn; lia))).
  discriminate.
Defined.

Lemma launch_health_only : health_only Scenario.launch.
Proof. intros t c. unfold Scenario.launch. by destruct (t =? 60). Defined.

Lemma launch_elb_healthy :
  first_healthy Scenario.launch (elb_count Scenario.elb) 4
    (snd (deploy_await_asg Scenario.launch 30 Scenario.asg_doubled 4 Scenario.doubled)) 0 4.
Proof.
  split; [intros i Hi; lia|]. split; [vm_compute; reflexivity|lia].
Defined.

Lemma deploy_completes_witness :
  let r := deploy Scenario.launch 30 "web" (Scenario.start (Scenario.account 2 10 Scenario.together)) in
  fst r = Returned () ∧
  clock (snd r) = 0 + 30 * Z.of_nat (2 + 0) ∧
  desired "web" (cloud (snd r)) = desired "web" (Scenario.account 2 10 Scenario.together).
Proof.
  pose proof (deploy_completes Scenario.launch 30 "web" (Scenario.start (Scenario.account 2 10 Scenario.together))
                Scenario.prepared Scenario.doubled Scenario.asg Scenario.asg_doubled EC2.__init__ Scenario.elb 2 4 (Scenario.web 2 10)
                2 0 4 4
                ltac:(vm_compute; reflexivity) ltac:(vm_compute; reflexivity)
                eq_refl ltac:(cbn; lia) launch_health_only
                ltac:(lia) ltac:(lia) ltac:(lia) ltac:(lia)
                launch_first_healthy launch_elb_healthy)
    as (H1 & H2 & H3 & _).
  exact (conj H1 (conj H2 H3)).
Defined.

Lemma main_exit_codes_witness :
  host_parse_arguments Cases.machine = inl 5 ∨
  (∃ arguments, host_parse_arguments Cases.machine = inr arguments ∧
     host_config_read Cases.machine (config arguments) = None ∧
     ((5 = 2 ∧ snd (main Cases.machine Scenario.still 30 (Scenario.start (Scenario.account 2 10 Scenario.together)))
               = Scenario.start (Scenario.account 2 10 Scenario.together) ∧
       ∃ class, host_config_get Cases.machine (config arguments) (application arguments)
                  "auto_scaling_group" = inl class) ∨
      (5 = 3 ∧ snd (main Cases.machine Scenario.still 30 (Scenario.start (Scenario.account 2 10 Scenario.together)))
               = Scenario.start (Scenario.account 2 10 Scenario.together) ∧
       host_boto3_importable Cases.machine = false) ∨
      (∃ n, host_config_get Cases.machine (config arguments) (application arguments)
              "auto_scaling_group" = inr n ∧
            host_boto3_importable Cases.machine = true ∧
            fst (deploy Scenario.still 30 n (Scenario.start (Scenario.account 2 10 Scenario.together)))
              = Raised (SystemExit 5) ∧
            (5 = 4 ∨ 5 = 5)))).
Proof.
  apply (main_exit_codes Cases.machine Scenario.still 30 (Scenario.start (Scenario.account 2 10 Scenario.together)) 5).
  vm_compute. reflexivity.
Defined.

Lemma unparsable_config_raises_name_error_witness :
  main Cases.machine_bad_config Scenario.still 30 (Scenario.start (Scenario.account 2 10 Scenario.together))
  = (NameError "configuration_filename", Scenario.start (Scenario.account 2 10 Scenario.together)) ∧
  process_status
    (fst (main Cases.machine_bad_config Scenario.still 30
            (Scenario.start (Scenario.account 2 10 Scenario.together)))) = Some 1.
Proof.
  apply (proj1 (unparsable_config_raises_name_error Cases.machine_bad_config Scenario.still 30
                  (Scenario.start (Scenario.account 2 10 Scenario.together)))
           Cases.arguments "MissingSectionHeaderError"); reflexivity.
Defined.

(** ** Running the doubling again *)

(** X20: the steps from Mark to Double keep no memory of an earlier run:
    run again on the world they left, they take the doubled capacity for
    the original and double it once more. *)
Theorem rerun_doubles_again (asg asg1 asg2 : AutoScalingGroup.t) (ec2 : EC2.t)
    (w w1 w2 : World) (orig1 target1 orig2 target2 : Z) :
  deploy_double asg ec2 w = (Returned (orig1, target1, asg1), w1) →
  deploy_double asg1 ec2 w1 = (Returned (orig2, target2, asg2), w2) →
  orig2 = 2 * orig1 ∧
  target2 = 4 * orig1 ∧
  desired (AutoScalingGroup.name asg) (cloud w2) = Some (4 * orig1).
Proof.
  intros H1 H2.
  destruct (deploy_double_returned _ _ _ _ _ _ _ H1)
    as (g & Hg & -> & -> & Hd1 & _ & _ & _ & Hn1 & _).
  destruct (deploy_double_returned _ _ _ _ _ _ _ H2)
    as (g1 & Hg1 & -> & -> & Hd2 & _).
  rewrite Hn1 in Hg1, Hd2. unfold desired in Hd1. rewrite Hg1 in Hd1.
  injection Hd1 as Hd1. rewrite Hd1 in *.
  repeat split; [lia|]. rewrite Hd2. f_equal. lia.
Qed.

Lemma rerun_doubles_again_witness :
  ∃ asg2 w2,
    deploy_double Scenario.asg_doubled EC2.__init__ Scenario.doubled
      = (Returned (2 * 2, 4 * 2, asg2), w2) ∧
    desired "web" (cloud w2) = Some (4 * 2).
Proof.
  destruct (deploy_double Scenario.asg_doubled EC2.__init__ Scenario.doubled)
    as [[[[o t] a]|e|] w2] eqn:E; [|vm_compute in E; discriminate E..].
  exists a, w2.
  destruct (rerun_doubles_again Scenario.asg Scenario.asg_doubled a EC2.__init__
              Scenario.prepared Scenario.doubled w2 2 4 o t
              ltac:(vm_compute; reflexivity) E) as (-> & -> & H).
  split; [reflexivity|exact H].
Defined.
